(** * bob.ip.gabor: the package initialisation module

    A shallow embedding of [bob/ip/gabor/__init__.py] and of the part of the
    Python 3 run time its eleven statements rely on: the module table
    [sys.modules], the import statement, [dir()] and calls of foreign
    callables.  The module body is a computation in a state-and-exception
    monad over the interpreter state; the collaborators that live outside
    the file (the finder, the bodies of the imported modules, the foreign
    callables) are the fields of the record [env].

    What the model takes for granted: the siblings [_library], [version] and
    [auxiliar] are plain modules, not packages; the body of a foreign module
    fills the dictionary of that module and touches no other module; a
    module object is known by its name. *)

From Stdlib Require Import Ascii String.
From stdpp Require Import base option list gmap strings sorting.

Open Scope string_scope.
Open Scope list_scope.

(** ** Values, exceptions, interpreter state *)

(** Python objects as far as this module touches them.  A module object is
    named by its key in [sys.modules]: two references to one module share
    its dictionary.  [VDef] is a function made by a [def] statement of this
    file, [VExt] an object that comes from a collaborator. *)
#[warnings="-register-all"]
Inductive value : Type :=
| VNone
| VStr (s : string)
| VList (items : list value)
| VModule (name : string)
| VDef (qualname : string)
| VExt (handle : N).

(** An exception: its class and its argument (the message, or the [name]
    attribute of an import error). *)
Inductive exn : Type :=
| Exn (class arg : string).

Global Instance exn_eq_dec : EqDecision exn.
Proof. solve_decision. Defined.

(** What a run leaves behind, in order: the body of a module was started,
    a foreign callable was called, a name was bound in a module. *)
Inductive event : Type :=
| Exec (module : string)
| Call (callee : N) (args : list value)
| Bind (module name : string).

Record world : Type := World {
  sys_modules : gmap string (gmap string value);
  trace : list event
}.

(** Computations: the state survives an exception. *)
Definition M (A : Type) : Type := world → (exn + A) * world.

Global Instance M_ret : MRet M := λ A x w, (inr x, w).
Global Instance M_bind : MBind M := λ A B f c w,
  match c w with
  | (inl e, w') => (inl e, w')
  | (inr x, w') => f x w'
  end.

Definition raise {A} (e : exn) : M A := λ w, (inl e, w).

(** Runs the statements in order; the first exception ends the run. *)
Fixpoint exec_stmts (ss : list (M unit)) : M unit :=
  match ss with
  | [] => mret ()
  | s :: ss' => s ;; exec_stmts ss'
  end.

(** [for x in xs: f x] *)
Fixpoint for_each {A} (f : A → M unit) (xs : list A) : M unit :=
  match xs with
  | [] => mret ()
  | x :: xs' => f x ;; for_each f xs'
  end.

(** ** Strings *)

(** [s.startswith(p)] *)
Fixpoint startswith (s p : string) : bool :=
  match p, s with
  | "", _ => true
  | String _ _, "" => false
  | String a p', String b s' => if decide (a = b) then startswith s' p' else false
  end.

(** [s.split('.')] *)
Fixpoint split_dots_go (cur : string) (s : string) : list string :=
  match s with
  | "" => [String.rev cur]
  | String a s' =>
      if decide (a = "."%char) then String.rev cur :: split_dots_go "" s'
      else split_dots_go (String a cur) s'
  end.
Definition split_dots : string → list string := split_dots_go "".

(** ['.'.join(l)] *)
Fixpoint dotted (l : list string) : string :=
  match l with
  | [] => ""
  | [c] => c
  | c :: l' => c +:+ "." +:+ dotted l'
  end.

(** [list(s)]: the characters of a string, as strings. *)
Fixpoint chars (s : string) : list string :=
  match s with
  | "" => []
  | String a s' => String a "" :: chars s'
  end.

(** ** Module dictionaries *)

Definition module_dict (m : string) (w : world) : gmap string value :=
  default ∅ (sys_modules w !! m).

Definition cached (m : string) (w : world) : bool :=
  bool_decide (is_Some (sys_modules w !! m)).

(** [setattr(sys.modules[m], n, v)] *)
Definition setattr (m n : string) (v : value) : M unit :=
  λ w, (inr (), World (<[m := <[n := v]> (module_dict m w)]> (sys_modules w))
                      (trace w ++ [Bind m n])).

(** [dir()] at module level: the names of the namespace, sorted. *)
Definition dir (ns : gmap string value) : list string :=
  merge_sort String.le (elements (dom ns)).

Definition public (n : string) : Prop := startswith n "_" = false.
Global Instance public_dec n : Decision (public n).
Proof. unfold public. apply _. Defined.

(** The name under which the file is imported (line 7 spells it out), and
    the names of its siblings for the relative imports of lines 9 to 13. *)
Definition pkg_name : string := "bob.ip.gabor".
Definition sibling (sub : string) : string := pkg_name +:+ "." +:+ sub.

(** The builtins, as far as the names go that this file looks up: of
    [bob], [__file__], [__name__] and [version] only [__name__] is a name
    of the module [builtins]. *)
Definition builtins : gmap string value := {[ "__name__" := VStr "builtins" ]}.

(** Name lookup in the module body and in [get_config]: the globals, which
    are the dictionary of the package's module object, and then the
    builtins.  The dictionary is reached through the entry of the package
    in [sys.modules]; that is the dictionary the function holds as long as
    the package is in [sys.modules]. *)
Definition load_global (n : string) : M value :=
  λ w, match module_dict pkg_name w !! n with
       | Some v => (inr v, w)
       | None =>
           match builtins !! n with
           | Some v => (inr v, w)
           | None => (inl (Exn "NameError" n), w)
           end
       end.

(** [n = v] at module level. *)
Definition store_global (n : string) (v : value) : M unit := setattr pkg_name n v.

(** ** The import system and the statements of the file *)

(** The collaborators, which live outside the file.  [find_spec]: does the
    finder locate a module of that name; [origin]: the path it was found at;
    [host_attrs]: the attributes the import system puts on a new module
    besides [__name__] and [__file__]; [ext_exec]: what running the body of
    a foreign module gives, an exception or the module's dictionary;
    [ext_call]: what calling a foreign callable gives; [ext_attr]: what
    reading an attribute of a foreign object gives. *)
Record env : Type := Env {
  find_spec : string → bool;
  origin : string → string;
  host_attrs : string → gmap string value;
  ext_exec : string → exn + gmap string value;
  ext_call : N → list value → exn + value;
  ext_attr : N → string → exn + value
}.

Section Interp.

Variable E : env.

(** [getattr(o, n)]: an attribute of a module is an entry of its
    dictionary, an attribute of a foreign object is the collaborator's to
    give; [None], strings, lists and the function of this file have none of
    the attributes the file reads. *)
Definition getattr (o : value) (n : string) : M value :=
  λ w, match o with
       | VModule m =>
           match module_dict m w !! n with
           | Some v => (inr v, w)
           | None => (inl (Exn "AttributeError" n), w)
           end
       | VExt h => (ext_attr E h n, w)
       | _ => (inl (Exn "AttributeError" n), w)
       end.

Definition new_module (name : string) : gmap string value :=
  <["__name__" := VStr name]> (<["__file__" := VStr (origin E name)]> (host_attrs E name)).

(** The module is entered in [sys.modules] before its body runs and
    taken out again when the body raises. *)
Definition load_unlocked (exec : string → M unit) (name : string) : M unit :=
  λ w,
    let w1 := World (<[name := new_module name]> (sys_modules w))
                    (trace w ++ [Exec name]) in
    match exec name w1 with
    | (inl e, w2) => (inl e, World (delete name (sys_modules w2)) (trace w2))
    | (inr _, w2) => (inr (), w2)
    end.

(** [importlib._bootstrap._find_and_load] on the reversed dotted path:
    a module found in [sys.modules] is returned as it is; otherwise the
    parent is imported first, the module is loaded, and it is bound under
    its last component in the parent. *)
Fixpoint find_and_load (exec : string → M unit) (rpath : list string) : M unit :=
  match rpath with
  | [] => raise (Exn "ValueError" "Empty module name")
  | c :: rparent =>
      λ w,
        let name := dotted (reverse rpath) in
        let parent := dotted (reverse rparent) in
        if cached name w then (inr (), w) else
        match (match rparent with
               | [] => (inr (), w)
               | _ :: _ => if cached parent w then (inr (), w)
                           else find_and_load exec rparent w
               end) with
        | (inl e, w1) => (inl e, w1)
        | (inr _, w1) =>
            if cached name w1 then (inr (), w1) else
            if find_spec E name then
              match load_unlocked exec name w1 with
              | (inl e, w2) => (inl e, w2)
              | (inr _, w2) =>
                  match rparent with
                  | [] => (inr (), w2)
                  | _ :: _ => setattr parent c (VModule name) w2
                  end
              end
            else (inl (Exn "ModuleNotFoundError" name), w1)
        end
  end.

Definition import_name (exec : string → M unit) (name : string) : M unit :=
  find_and_load exec (reverse (split_dots name)).

(** Modelled from the spec: the bodies of the imported modules are not in
    the source, neither those of this package ([_library], [version],
    [auxiliar]) nor those of the dependencies.  After sections 2 and 6 of
    the specification they are leaves with no further structure visible:
    the body of such a module fails, or it fills the module's dictionary. *)
Definition ext_body (name : string) : M unit :=
  λ w, match ext_exec E name with
       | inl e => (inl e, w)
       | inr d => (inr (), World (<[name := d ∪ module_dict name w]> (sys_modules w))
                                 (trace w))
       end.

(** [import a.b.c]: imports the module, then returns and binds the
    top-level package [a]. *)
Definition import_stmt (name : string) : M unit :=
  import_name ext_body name ;;
  let top := hd "" (split_dots name) in
  import_name ext_body top ;;
  store_global top (VModule top).

(** [IMPORT_FROM]: the attribute, else the submodule of that name in
    [sys.modules], else [ImportError] with the name of the module.  The
    module is known by its key in [sys.modules], which is its [__name__]
    as long as no star import rebinds that attribute. *)
Definition import_from (m n : string) : M value :=
  λ w, match module_dict m w !! n with
       | Some v => (inr v, w)
       | None =>
           if cached (m +:+ "." +:+ n) w then (inr (VModule (m +:+ "." +:+ n)), w)
           else (inl (Exn "ImportError" m), w)
       end.

(** [_handle_fromlist] for one name of a package: a missing attribute is
    tried as a submodule, and a submodule that does not exist is passed
    over. *)
Definition handle_fromlist (m n : string) : M unit :=
  λ w, match module_dict m w !! n with
       | Some _ => (inr (), w)
       | None =>
           match import_name ext_body (m +:+ "." +:+ n) w with
           | (inl e, w') =>
               if decide (e = Exn "ModuleNotFoundError" (m +:+ "." +:+ n))
               then (inr (), w') else (inl e, w')
           | (inr _, w') => (inr (), w')
           end
       end.

(** [from . import n] *)
Definition from_package_import (n : string) : M unit :=
  import_name ext_body pkg_name ;;
  handle_fromlist pkg_name n ;;
  v ← import_from pkg_name n ;
  store_global n v.

(** [from .sub import n1 as a1, n2 as a2, ...]; [sub] is a plain module. *)
Definition from_import (sub : string) (names : list (string * string)) : M unit :=
  import_name ext_body (sibling sub) ;;
  for_each (λ na, v ← import_from (sibling sub) na.1 ; store_global na.2 v) names.

(** The names [from m import *] brings in: the items of [m.__all__], or
    without it the keys that do not start with an underscore.  The order in
    which a dictionary is walked is not kept by the model, which lists the
    keys in the order of [dir]. *)
Definition exported_items (m : string) : M (list value) :=
  λ w, match module_dict m w !! "__all__" with
       | None => (inr (VStr <$> filter public (dir (module_dict m w))), w)
       | Some (VList l) => (inr l, w)
       | Some (VStr s) => (inr (VStr <$> chars s), w)
       | Some _ => (inl (Exn "TypeError" "__all__ is not iterable"), w)
       end.

Definition import_item (m : string) (item : value) : M unit :=
  match item with
  | VStr n => v ← getattr (VModule m) n ; store_global n v
  | _ => raise (Exn "TypeError" "Item in __all__ must be str")
  end.

(** [from .sub import *]; [sub] is a plain module. *)
Definition from_import_star (sub : string) : M unit :=
  import_name ext_body (sibling sub) ;;
  items ← exported_items (sibling sub) ;
  for_each (import_item (sibling sub)) items.

(** Modelled from the spec: the bodies of the foreign callables are not in
    the source, neither those of this package (the native functions of
    [_library], [load_jets] and [save_jets] of [auxiliar]) nor those of
    [bob.extension].  After sections 3, 5 and 8 of the specification a call
    of one of them returns or raises and alters no module-level name: it
    leaves [sys.modules] as it is, and it shows on the trace. *)
Definition run_foreign (h : N) (args : list value) : M value :=
  λ w, (ext_call E h args, World (sys_modules w) (trace w ++ [Call h args])).

(** A call made by this file.  A foreign callable is run by the
    collaborator; a function of this file takes no argument, and both
    calls of the file pass some. *)
Definition call_foreign (f : value) (args : list value) : M value :=
  match f with
  | VExt h => run_foreign h args
  | VDef _ => raise (Exn "TypeError" "takes 0 positional arguments")
  | _ => raise (Exn "TypeError" "object is not callable")
  end.

(** Line 7: [bob.extension.load_bob_library('bob.ip.gabor', __file__)] *)
Definition attach_library : M unit :=
  b ← load_global "bob" ;
  e ← getattr b "extension" ;
  f ← getattr e "load_bob_library" ;
  file ← load_global "__file__" ;
  call_foreign f [VStr "bob.ip.gabor"; file] ;;
  mret ().

(** Lines 15 to 18:
    [return bob.extension.get_config(__name__, version.externals, version.api)] *)
Definition get_config : M value :=
  b ← load_global "bob" ;
  e ← getattr b "extension" ;
  f ← getattr e "get_config" ;
  n ← load_global "__name__" ;
  v1 ← load_global "version" ;
  x ← getattr v1 "externals" ;
  v2 ← load_global "version" ;
  a ← getattr v2 "api" ;
  call_foreign f [n; x; a].

(** [def get_config(): ...] *)
Definition def_get_config : M unit :=
  store_global "get_config" (VDef "get_config").

(** Line 22: [__all__ = [_ for _ in dir() if not _.startswith('_')]] *)
Definition assign_all : M unit :=
  λ w, store_global "__all__"
         (VList (VStr <$> filter public (dir (module_dict pkg_name w)))) w.

(** Lines 2 to 18, one entry per statement. *)
Definition preamble : list (M unit) :=
  [ import_stmt "bob.io.base";
    import_stmt "bob.sp";
    import_stmt "bob.extension";
    attach_library;
    from_import_star "_library";
    from_package_import "version";
    from_import "version" [("module", "__version__")];
    from_import "version" [("api", "__api_version__")];
    from_import "auxiliar" [("load_jets", "load_jets"); ("save_jets", "save_jets")];
    def_get_config ].

Definition statements : list (M unit) := preamble ++ [assign_all].

Definition module_body : M unit := exec_stmts statements.

(** [import bob.ip.gabor], by any importer: the body of the package is
    this file, the bodies of all other modules are foreign. *)
Definition run_body (name : string) : M unit :=
  if decide (name = pkg_name) then module_body else ext_body name.

Definition import_package : M unit := import_name run_body pkg_name.

(** A call of an object of the package by a client. *)
Definition call (f : value) (args : list value) : M value :=
  match f, args with
  | VDef "get_config", [] => get_config
  | _, _ => call_foreign f args
  end.

End Interp.

(** ** Vocabulary of the statements about runs *)

(** The dotted names on the way to a module, given its reversed path. *)
Fixpoint path_names (rpath : list string) : list string :=
  match rpath with
  | [] => []
  | _ :: rparent => dotted (reverse rpath) :: path_names rparent
  end.

(** [w'] differs from [w] only in the modules [P], and its trace is the
    trace of [w] followed by events [Q]. *)
Definition step (P : string → Prop) (Q : event → Prop) (w w' : world) : Prop :=
  (∀ m, ¬ P m → sys_modules w' !! m = sys_modules w !! m) ∧
  ∃ t, trace w' = trace w ++ t ∧ Forall Q t.

(** Events that belong to a set of modules: their bodies run, names are
    bound in them; no call. *)
Definition ev_on (P : string → Prop) (ev : event) : Prop :=
  match ev with
  | Exec m => P m
  | Bind m _ => P m
  | Call _ _ => False
  end.

(** How often a name of the package was bound in a trace. *)
Definition is_bind (m n : string) (ev : event) : bool :=
  match ev with
  | Bind m' n' => bool_decide (m' = m ∧ n' = n)
  | _ => false
  end.
Definition bindings (n : string) (t : list event) : nat :=
  length (filter (λ ev, is_bind pkg_name n ev = true) t).

(** The modules the three plain imports of lines 2 to 6 reach, and the
    events of that phase: these modules are initialised and [bob] is bound
    in the package. *)
Definition dep_modules : list string :=
  ["bob"; "bob.io"; "bob.io.base"; "bob.sp"; "bob.extension"].
Definition dep_event (ev : event) : Prop :=
  match ev with
  | Exec m => m ∈ dep_modules
  | Bind m n => m ∈ dep_modules ∨ (m = pkg_name ∧ n = "bob")
  | Call _ _ => False
  end.

(** The sibling modules of lines 9 to 13, and the events of the re-export
    phase: siblings are initialised and names are bound in the package. *)
Definition siblings : list string :=
  [sibling "_library"; sibling "version"; sibling "auxiliar"].
Definition reexport_event (ev : event) : Prop :=
  match ev with
  | Exec m => m ∈ siblings
  | Bind m _ => m = pkg_name
  | Call _ _ => False
  end.

(** Every name bound in the package before is still bound after. *)
Definition grows (w w' : world) : Prop :=
  ∀ k, is_Some (module_dict pkg_name w !! k) → is_Some (module_dict pkg_name w' !! k).

(** A name is bound in the package. *)
Definition pkg_bind (ev : event) : Prop := ∃ n, ev = Bind pkg_name n.

(** A loaded module other than the package itself keeps its dictionary. *)
Definition stable (w w' : world) : Prop :=
  ∀ m, m ≠ pkg_name → cached m w = true → sys_modules w' !! m = sys_modules w !! m.

(** What lines 9 to 22 do between two states: only the package and its
    siblings change, only siblings are initialised and only names of the
    package are bound; no name is lost and no loaded module is altered. *)
Definition reexports (w w' : world) : Prop :=
  step (λ m, m ∈ pkg_name :: siblings) reexport_event w w' ∧
  grows w w' ∧ stable w w' ∧ cached pkg_name w' = true.

(** The state in which the body of the package starts: the new module is
    in [sys.modules], and the start of the body is on the trace. *)
Definition entry (E : env) (w : world) : world :=
  World (<[pkg_name := new_module E pkg_name]> (sys_modules w))
        (trace w ++ [Exec pkg_name]).

(** The state an exception of the body leaves: the module is taken out of
    [sys.modules]. *)
Definition unregister (w : world) : world :=
  World (delete pkg_name (sys_modules w)) (trace w).

(** The state after a successful import: the package is bound in its
    parent [bob.ip]. *)
Definition registered (w : world) : world :=
  (setattr "bob.ip" "gabor" (VModule pkg_name) w).2.

(** Every change of the package's namespace between [w] and [w'] shows as
    a binding on the trace. *)
Definition logged (w w' : world) : Prop :=
  ∃ t, trace w' = trace w ++ t ∧
       ∀ n, bindings n t = 0 →
            module_dict pkg_name w' !! n = module_dict pkg_name w !! n.

(** A computation that, run while the package is in [sys.modules], keeps it
    there and changes its namespace only by bindings on the trace. *)
Definition Logged {A} (c : M A) : Prop :=
  ∀ w r w', cached pkg_name w = true → c w = (r, w') →
            logged w w' ∧ cached pkg_name w' = true.

(** The names bound in the package by a trace, in order. *)
Definition binds (t : list event) : list string :=
  omap (λ ev, match ev with
              | Bind m n => if decide (m = pkg_name) then Some n else None
              | _ => None
              end) t.

(** The reading of "every name is bound exactly once during the load
    sequence": between the two states, a name that is bound in the package
    is bound once. *)
Definition each_name_bound_once (w0 w1 : world) : Prop :=
  ∀ t n, trace w1 = trace w0 ++ t → (0 < bindings n t)%nat → bindings n t = 1.

(** The reading of "initialization raises exactly the collaborator's
    error" for the siblings: when the import of a sibling, made in the
    state in which the statement that imports it runs, fails with [e], the
    import of the package raises [e]. *)
Definition sibling_errors_unmodified (E : env) (w0 : world) : Prop :=
  ∀ n sub wn e w',
    (n, sub) ∈ [(4, "_library"); (5, "version"); (8, "auxiliar")] →
    exec_stmts (take n (statements E)) (entry E w0) = (inr (), wn) →
    import_name E (ext_body E) (sibling sub) wn = (inl e, w') →
    (import_package E w0).1 = inl e.

(** ** Vocabulary for runs that may fail *)

(** A computation that, run while the package is in [sys.modules], keeps it
    there, changes only the modules [P] and adds only events [Q] to the
    trace, whether it returns or raises. *)
Definition confined (P : string → Prop) (Q : event → Prop) {A} (c : M A) : Prop :=
  ∀ w r w', cached pkg_name w = true → c w = (r, w') →
            cached pkg_name w' = true ∧ step P Q w w'.

(** The events of the import of the parents [bob] and [bob.ip], up to the
    start of the body of the package. *)
Definition parent_event (ev : event) : Prop :=
  ev_on (λ m, m ∈ ["bob.ip"; "bob"]) ev ∨ ev = Exec pkg_name.

(** The package and its siblings. *)
Definition own_module (m : string) : Prop := m ∈ pkg_name :: siblings.

(** Between [w] and [w'] no module is taken out of [sys.modules], and no
    module that was in it is initialised again. *)
Definition no_reload (w w' : world) : Prop :=
  (∀ m, cached m w = true → cached m w' = true) ∧
  ∃ t, trace w' = trace w ++ t ∧ ∀ m, Exec m ∈ t → cached m w = false.

Definition NoReload {A} (c : M A) : Prop :=
  ∀ w r w', c w = (r, w') → no_reload w w'.

(** ** A sample process *)

Module Sample.

Definition known : list string :=
  [ "bob"; "bob.io"; "bob.io.base"; "bob.sp"; "bob.extension"; "bob.ip";
    "bob.ip.gabor"; "bob.ip.gabor._library"; "bob.ip.gabor.version";
    "bob.ip.gabor.auxiliar" ].

Definition find_spec (name : string) : bool := bool_decide (name ∈ known).

Definition origin (name : string) : string := "/site-packages/" +:+ name.

Definition host_attrs (name : string) : gmap string value :=
  {[ "__doc__" := VNone; "__package__" := VStr name ]}.

Definition ext_exec (name : string) : exn + gmap string value :=
  if decide (name = "bob.extension") then
    inr {[ "load_bob_library" := VExt 1; "get_config" := VExt 2 ]}
  else if decide (name = "bob.ip.gabor._library") then
    inr {[ "Transform" := VExt 10; "Jet" := VExt 11; "_registry" := VExt 12 ]}
  else if decide (name = "bob.ip.gabor.version") then
    inr {[ "module" := VStr "2.0.5"; "api" := VExt 20; "externals" := VExt 21 ]}
  else if decide (name = "bob.ip.gabor.auxiliar") then
    inr {[ "load_jets" := VExt 30; "save_jets" := VExt 31 ]}
  else inr ∅.

Definition ext_call (h : N) (args : list value) : exn + value :=
  if decide (h = 2%N) then
    match args with
    | [VStr n; _; _] => inr (VStr (n +:+ ": 2.0.5"))
    | _ => inl (Exn "TypeError" "get_config")
    end
  else inr VNone.

(** The foreign objects of the sample have no attributes. *)
Definition ext_attr (h : N) (n : string) : exn + value :=
  inl (Exn "AttributeError" n).

Definition start : world := World ∅ [].

Definition host : env := Env find_spec origin host_attrs ext_exec ext_call ext_attr.

Definition imported : world := (import_package host start).2.

(** The same process with a loader that cannot attach the library, and
    the state in which the parents of the package are imported. *)
Definition failing_call (h : N) (args : list value) : exn + value :=
  if decide (h = 1%N) then inl (Exn "RuntimeError" "cannot find the library")
  else ext_call h args.

Definition broken : env := Env find_spec origin host_attrs ext_exec failing_call ext_attr.

Definition parents_loaded : world :=
  (import_name broken (ext_body broken) "bob.ip" start).2.

Definition at_loader : world :=
  (exec_stmts (take 3 (statements broken)) (entry broken parents_loaded)).2.

Definition after_loader : world := (attach_library broken at_loader).2.

End Sample.

(** Further processes: one whose native library has a [get_config] of its
    own, one in which [auxiliar] cannot be initialised, and one in which
    the module [version] is not found. *)
Module SampleX.

Definition shadowing_exec (name : string) : exn + gmap string value :=
  if decide (name = "bob.ip.gabor._library") then
    inr {[ "Transform" := VExt 10; "get_config" := VExt 99 ]}
  else Sample.ext_exec name.

Definition shadowing : env :=
  Env Sample.find_spec Sample.origin Sample.host_attrs shadowing_exec Sample.ext_call
      Sample.ext_attr.

(** What the import raises when the loader of [broken] fails. *)
Definition loader_error : exn + unit :=
  inl (Exn "RuntimeError" "cannot find the library").

(** A process in which the module [auxiliar] cannot be initialised. *)
Definition no_aux_exec (name : string) : exn + gmap string value :=
  if decide (name = "bob.ip.gabor.auxiliar") then inl (Exn "OSError" "auxiliar")
  else Sample.ext_exec name.

Definition no_aux : env :=
  Env Sample.find_spec Sample.origin Sample.host_attrs no_aux_exec Sample.ext_call
      Sample.ext_attr.

(** The state after the first eight statements of the body in [no_aux]. *)
Definition before_auxiliar : world :=
  (exec_stmts (take 8 (statements no_aux)) (entry no_aux Sample.parents_loaded)).2.

(** A process in which the finder does not find the module [version],
    and the state in which line 10 runs there. *)
Definition no_version_spec (name : string) : bool :=
  bool_decide (name ≠ "bob.ip.gabor.version") && Sample.find_spec name.

Definition no_version : env :=
  Env no_version_spec Sample.origin Sample.host_attrs Sample.ext_exec Sample.ext_call
      Sample.ext_attr.

Definition before_version : world :=
  (exec_stmts (take 5 (statements no_version)) (entry no_version Sample.parents_loaded)).2.

End SampleX.

(** ** The monad *)

Lemma bind_inv {A B} (c : M A) (f : A → M B) w r w' :
  (c ≫= f) w = (r, w') →
  (∃ e, c w = (inl e, w') ∧ r = inl e) ∨
  (∃ x w1, c w = (inr x, w1) ∧ f x w1 = (r, w')).
Proof.
  unfold mbind, M_bind. destruct (c w) as [[e|x] w1]; intros Heq.
  - left. exists e. by simplify_eq.
  - right. by exists x, w1.
Qed.

Lemma bind_ok {A B} (c : M A) (f : A → M B) w y w' :
  (c ≫= f) w = (inr y, w') →
  ∃ x w1, c w = (inr x, w1) ∧ f x w1 = (inr y, w').
Proof. intros [(e & _ & ?)|?]%bind_inv; [done|done]. Qed.

Lemma bind_fail {A B} (c : M A) (f : A → M B) w e w' :
  c w = (inl e, w') → (c ≫= f) w = (inl e, w').
Proof. unfold mbind, M_bind. by intros ->. Qed.

Lemma bind_step {A B} (c : M A) (f : A → M B) w x w1 :
  c w = (inr x, w1) → (c ≫= f) w = f x w1.
Proof. unfold mbind, M_bind. by intros ->. Qed.

Lemma exec_stmts_app ss1 ss2 w :
  exec_stmts (ss1 ++ ss2) w =
  match exec_stmts ss1 w with
  | (inl e, w') => (inl e, w')
  | (inr _, w') => exec_stmts ss2 w'
  end.
Proof.
  revert w. induction ss1 as [|s ss1 IH]; intros w; simpl; [done|].
  unfold mbind, M_bind. destruct (s w) as [[e|[]] w1]; [done|]. apply IH.
Qed.

Lemma exec_stmts_fail (pre post : list (M unit)) s w wb e wc :
  exec_stmts pre w = (inr (), wb) → s wb = (inl e, wc) →
  exec_stmts (pre ++ s :: post) w = (inl e, wc).
Proof.
  intros Hpre Hs. rewrite exec_stmts_app, Hpre. simpl. by apply bind_fail.
Qed.

(** The first statement that raises decides the outcome of a run. *)
Lemma exec_stmts_raises ss w e wc :
  exec_stmts ss w = (inl e, wc) →
  ∃ (pre : list (M unit)) s post wb, ss = pre ++ s :: post ∧
    exec_stmts pre w = (inr (), wb) ∧ s wb = (inl e, wc).
Proof.
  revert w. induction ss as [|s ss IH]; intros w; simpl; [done|].
  intros [(e' & Hs & ?)|([] & w1 & Hs & Hrest)]%bind_inv; simplify_eq.
  - by exists [], s, ss, w.
  - destruct (IH _ Hrest) as (pre & s' & post & wb & -> & Hpre & Hs').
    exists (s :: pre), s', post, wb. split_and!; [done| |done].
    simpl. by rewrite (bind_step _ _ _ _ _ Hs).
Qed.

(** ** Strings and [dir] *)

Lemma elem_of_dir ns n : n ∈ dir ns ↔ is_Some (ns !! n).
Proof.
  unfold dir. rewrite merge_sort_Permutation, elem_of_elements. apply elem_of_dom.
Qed.

Lemma NoDup_dir ns : NoDup (dir ns).
Proof. unfold dir. rewrite merge_sort_Permutation. apply NoDup_elements. Qed.

Lemma Sorted_dir ns : Sorted String.le (dir ns).
Proof. apply (Sorted_merge_sort String.le). Qed.

Global Instance VStr_inj : Inj (=) (=) VStr.
Proof. by intros ?? [=]. Qed.

Lemma elem_of_public_names ns n :
  VStr n ∈ VStr <$> filter public (dir ns) ↔
  is_Some (ns !! n) ∧ startswith n "_" = false.
Proof.
  rewrite (list_elem_of_fmap_inj VStr), list_elem_of_filter, elem_of_dir.
  unfold public. tauto.
Qed.

Lemma sibling_ne sub : sibling sub ≠ pkg_name.
Proof. unfold sibling, pkg_name. cbv [String.append]. by intros [=]. Qed.

(** ** Frames *)

Lemma step_refl (P : string → Prop) Q w : step P Q w w.
Proof. split; [done|]. exists []. by rewrite app_nil_r. Qed.

Lemma step_trans (P : string → Prop) Q w1 w2 w3 :
  step P Q w1 w2 → step P Q w2 w3 → step P Q w1 w3.
Proof.
  intros [Hf1 (t1 & Ht1 & HQ1)] [Hf2 (t2 & Ht2 & HQ2)]. split.
  - intros m Hm. by rewrite Hf2, Hf1.
  - exists (t1 ++ t2). split; [by rewrite Ht2, Ht1, app_assoc|by apply Forall_app].
Qed.

Lemma step_mono (P P' : string → Prop) (Q Q' : event → Prop) w w' :
  (∀ m, P m → P' m) → (∀ ev, Q ev → Q' ev) → step P Q w w' → step P' Q' w w'.
Proof.
  intros HP HQ [Hf (t & Ht & HQt)]. split; [naive_solver|].
  exists t. split; [done|]. eapply Forall_impl; eauto.
Qed.

Lemma step_setattr (P : string → Prop) (Q : event → Prop) m n v w u w' :
  P m → Q (Bind m n) → setattr m n v w = (u, w') → step P Q w w'.
Proof.
  intros HP HQ [= <- <-]. split; simpl.
  - intros m' Hm'. apply lookup_insert_ne. by intros ->.
  - exists [Bind m n]. split; [done|]. by constructor.
Qed.

Lemma module_dict_frame (P : string → Prop) Q w w' m :
  step P Q w w' → ¬ P m → module_dict m w' = module_dict m w.
Proof. intros [Hf _] Hm. unfold module_dict. by rewrite Hf. Qed.

Lemma cached_frame (P : string → Prop) Q w w' m :
  step P Q w w' → ¬ P m → cached m w' = cached m w.
Proof. intros [Hf _] Hm. unfold cached. by rewrite Hf. Qed.

Lemma cached_true m w : cached m w = true ↔ is_Some (sys_modules w !! m).
Proof. unfold cached. by rewrite bool_decide_eq_true. Qed.

Lemma cached_false m w : cached m w = false ↔ sys_modules w !! m = None.
Proof.
  unfold cached. rewrite bool_decide_eq_false, <-eq_None_not_Some. done.
Qed.

Lemma setattr_dict m n v w u w' :
  setattr m n v w = (u, w') →
  u = inr () ∧ module_dict m w' = <[n := v]> (module_dict m w) ∧
  (∀ m', m' ≠ m → sys_modules w' !! m' = sys_modules w !! m') ∧
  trace w' = trace w ++ [Bind m n].
Proof.
  intros [= <- <-]. split_and!; [done| |intros; by apply lookup_insert_ne|done].
  unfold module_dict at 1. simpl. by rewrite lookup_insert_eq.
Qed.

Section Proofs.

Variable E : env.

(** *** Loading one foreign module *)

Lemma load_unlocked_ext exec name w r w' :
  exec name = ext_body E name →
  load_unlocked E exec name w = (r, w') →
  (∃ e, ext_exec E name = inl e ∧ r = inl e ∧
        w' = World (delete name (sys_modules w)) (trace w ++ [Exec name])) ∨
  (∃ d, ext_exec E name = inr d ∧ r = inr () ∧
        w' = World (<[name := d ∪ new_module E name]> (sys_modules w))
                   (trace w ++ [Exec name])).
Proof.
  intros Hexec. unfold load_unlocked. rewrite Hexec. unfold ext_body, module_dict.
  simpl. rewrite lookup_insert_eq. simpl.
  destruct (ext_exec E name) as [e|d]; intros [= <- <-]; [left|right].
  - exists e. by rewrite delete_insert_eq.
  - exists d. by rewrite insert_insert_eq.
Qed.

Lemma load_unlocked_step (P : string → Prop) exec name w r w' :
  exec name = ext_body E name → P name →
  load_unlocked E exec name w = (r, w') →
  step P (ev_on P) w w' ∧ (r = inr () → cached name w' = true).
Proof.
  intros Hexec HP Hload.
  destruct (load_unlocked_ext _ _ _ _ _ Hexec Hload)
    as [(e & _ & -> & ->)|(d & _ & -> & ->)]; (split; [split|]); simpl.
  - intros m Hm. apply lookup_delete_ne. by intros ->.
  - exists [Exec name]. split; [done|]. by constructor.
  - done.
  - intros m Hm. apply lookup_insert_ne. by intros ->.
  - exists [Exec name]. split; [done|]. by constructor.
  - intros _. apply cached_true. simpl. by rewrite lookup_insert_eq.
Qed.

(** *** Importing a dotted name whose modules are all foreign *)

Lemma find_and_load_step exec rpath w r w' :
  (∀ m, m ∈ path_names rpath → exec m = ext_body E m) →
  find_and_load E exec rpath w = (r, w') →
  step (λ m, m ∈ path_names rpath) (ev_on (λ m, m ∈ path_names rpath)) w w' ∧
  (r = inr () → cached (dotted (reverse rpath)) w' = true).
Proof.
  revert w r w'. induction rpath as [|c rp IH]; intros w r w' Hexec.
  { intros [= <- <-]. split; [apply step_refl|done]. }
  cbn [find_and_load path_names].
  set (name := dotted (reverse (c :: rp))). set (parent := dotted (reverse rp)).
  set (P := λ m, m ∈ name :: path_names rp).
  destruct (cached name w) eqn:Hc.
  { intros [= <- <-]. split; [apply step_refl|done]. }
  assert (step P (ev_on P) w
    (match rp with
     | [] => (inr (), w)
     | _ :: _ => if cached parent w then (inr (), w) else find_and_load E exec rp w
     end).2) as Hp.
  { destruct rp as [|c' rp']; [apply step_refl|].
    destruct (cached parent w); [apply step_refl|].
    destruct (find_and_load E exec (c' :: rp') w) as [r1 w1] eqn:Hp.
    apply IH in Hp as [Hp _].
    - eapply step_mono; [| |exact Hp]; unfold P.
      + intros m Hm. by right.
      + intros [m|?|m ?]; simpl; [|done|]; intros; by right.
    - intros m Hm. apply Hexec. by right. }
  destruct (match rp with [] => _ | _ :: _ => _ end) as [[e|[]] w1]; simpl in Hp.
  { intros [= <- <-]. by split. }
  destruct (cached name w1) eqn:Hc1.
  { intros [= <- <-]. by split. }
  destruct (find_spec E name); [|intros [= <- <-]; by split].
  destruct (load_unlocked E exec name w1) as [[e|[]] w2] eqn:Hload.
  - intros [= <- <-]. split; [|done].
    eapply step_trans; [exact Hp|].
    eapply (load_unlocked_step P); [|by left|exact Hload]. apply Hexec. by left.
  - apply (load_unlocked_step P) in Hload as [Hl Hcl]; [| apply Hexec; by left | by left].
    specialize (Hcl eq_refl).
    destruct rp as [|c' rp'].
    + intros [= <- <-]. split; [by eapply step_trans|done].
    + intros Hset. pose proof Hset as Hset'. apply setattr_dict in Hset' as (-> & _ & Hother & _).
      split.
      * eapply step_trans; [exact Hp|]. eapply step_trans; [exact Hl|].
        eapply step_setattr; [| |exact Hset]; unfold P; simpl; right; by left.
      * intros _. apply cached_true. apply cached_true in Hcl.
        destruct (decide (name = parent)) as [Heq|Hne].
        -- injection Hset as <-. simpl. rewrite Heq. by rewrite lookup_insert_eq.
        -- by rewrite Hother.
Qed.

Lemma find_and_load_mono exec rpath w r w' :
  (∀ m, m ∈ path_names rpath → exec m = ext_body E m) →
  find_and_load E exec rpath w = (r, w') →
  ∀ m, cached m w = true → cached m w' = true.
Proof.
  revert w r w'. induction rpath as [|c rp IH]; intros w r w' Hexec.
  { by intros [= <- <-]. }
  cbn [find_and_load path_names]. intros Hfl m Hm.
  set (name := dotted (reverse (c :: rp))) in *. set (parent := dotted (reverse rp)) in *.
  destruct (cached name w) eqn:Hc; [by simplify_eq|].
  assert (cached m (match rp with
     | [] => (inr (), w)
     | _ :: _ => if cached parent w then (inr (), w) else find_and_load E exec rp w
     end).2 = true) as Hp.
  { destruct rp as [|c' rp']; [done|]. destruct (cached parent w); [done|].
    destruct (find_and_load E exec (c' :: rp') w) as [r1 w1] eqn:Hp.
    eapply IH; [|exact Hp|exact Hm]. intros m' Hm'. apply Hexec. by right. }
  destruct (match rp with [] => _ | _ :: _ => _ end) as [[e|[]] w1]; simpl in Hp;
    [by simplify_eq|].
  destruct (cached name w1) eqn:Hc1; [by simplify_eq|].
  destruct (find_spec E name); [|by simplify_eq].
  assert (m ≠ name) as Hne by (intros ->; congruence).
  destruct (load_unlocked E exec name w1) as [[e|[]] w2] eqn:Hload;
    (eapply load_unlocked_ext in Hload; [|apply Hexec; by left]);
    destruct Hload as [(e' & _ & ? & ->)|(d & _ & ? & ->)]; simplify_eq.
  - apply cached_true. apply cached_true in Hp. simpl. by rewrite lookup_delete_ne.
  - assert (cached m (World (<[name := d ∪ new_module E name]> (sys_modules w1))
                            (trace w1 ++ [Exec name])) = true) as Hp2.
    { apply cached_true. apply cached_true in Hp. simpl. by rewrite lookup_insert_ne. }
    destruct rp as [|c' rp']; [by simplify_eq|].
    injection Hfl as _ <-. apply cached_true. apply cached_true in Hp2. simpl in *.
    destruct (decide (parent = m)) as [->|]; [by rewrite lookup_insert_eq|].
    by rewrite lookup_insert_ne.
Qed.

(** *** Importing a module whose parent is already loaded *)

Lemma find_and_load_child exec c c' rp w r w' :
  let name := dotted (reverse (c :: c' :: rp)) in
  let parent := dotted (reverse (c' :: rp)) in
  exec name = ext_body E name → cached parent w = true → name ≠ parent →
  find_and_load E exec (c :: c' :: rp) w = (r, w') →
  (cached name w = true ∧ r = inr () ∧ w' = w) ∨
  (cached name w = false ∧ find_spec E name = false ∧
     r = inl (Exn "ModuleNotFoundError" name) ∧ w' = w) ∨
  (cached name w = false ∧ find_spec E name = true ∧
     ∃ e, ext_exec E name = inl e ∧ r = inl e ∧
          w' = World (delete name (sys_modules w)) (trace w ++ [Exec name])) ∨
  (cached name w = false ∧ find_spec E name = true ∧
     ∃ d, ext_exec E name = inr d ∧ r = inr () ∧
          w' = World (<[parent := <[c := VModule name]> (module_dict parent w)]>
                        (<[name := d ∪ new_module E name]> (sys_modules w)))
                     (trace w ++ [Exec name; Bind parent c])).
Proof.
  intros name parent Hexec Hparent Hne Hfl. cbn [find_and_load] in Hfl.
  fold name in Hfl. fold parent in Hfl. rewrite Hparent in Hfl.
  destruct (cached name w) eqn:Hc; [left; by simplify_eq|]. right.
  destruct (find_spec E name) eqn:Hfs; [|left; by simplify_eq]. right.
  destruct (load_unlocked E exec name w) as [[e|[]] w2] eqn:Hload;
    destruct (load_unlocked_ext _ _ _ _ _ Hexec Hload)
      as [(e' & He & ? & ->)|(d & Hd & ? & ->)]; simplify_eq.
  - left. split_and!; [done..|]. by eexists.
  - right. split_and!; [done..|]. exists d.
    unfold setattr, module_dict in Hfl. simpl in Hfl.
    rewrite lookup_insert_ne, <-app_assoc in Hfl by done. by simplify_eq.
Qed.

Lemma split_dots_sibling sub :
  split_dots (sibling sub) = "bob" :: "ip" :: "gabor" :: split_dots sub.
Proof. reflexivity. Qed.

Lemma import_sibling sub w r w' :
  split_dots sub = [sub] → cached pkg_name w = true →
  import_name E (ext_body E) (sibling sub) w = (r, w') →
  (cached (sibling sub) w = true ∧ r = inr () ∧ w' = w) ∨
  (cached (sibling sub) w = false ∧ find_spec E (sibling sub) = false ∧
     r = inl (Exn "ModuleNotFoundError" (sibling sub)) ∧ w' = w) ∨
  (cached (sibling sub) w = false ∧ find_spec E (sibling sub) = true ∧
     ∃ e, ext_exec E (sibling sub) = inl e ∧ r = inl e ∧
          w' = World (delete (sibling sub) (sys_modules w))
                     (trace w ++ [Exec (sibling sub)])) ∨
  (cached (sibling sub) w = false ∧ find_spec E (sibling sub) = true ∧
     ∃ d, ext_exec E (sibling sub) = inr d ∧ r = inr () ∧
          w' = World (<[pkg_name := <[sub := VModule (sibling sub)]> (module_dict pkg_name w)]>
                        (<[sibling sub := d ∪ new_module E (sibling sub)]> (sys_modules w)))
                     (trace w ++ [Exec (sibling sub); Bind pkg_name sub])).
Proof.
  intros Hsub Hpkg. unfold import_name. rewrite split_dots_sibling, Hsub.
  change (reverse ["bob"; "ip"; "gabor"; sub]) with [sub; "gabor"; "ip"; "bob"].
  intros Hload. apply find_and_load_child in Hload; [exact Hload|done|exact Hpkg|].
  apply sibling_ne.
Qed.

(** *** The primitives of the module body *)

Lemma builtins_lookup n :
  builtins !! n = if decide (n = "__name__") then Some (VStr "builtins") else None.
Proof.
  unfold builtins. case_decide as Hn.
  - subst n. apply lookup_singleton_eq.
  - apply lookup_singleton_ne. by intros <-.
Qed.

Lemma load_global_inv n w r w' :
  load_global n w = (r, w') →
  w' = w ∧ ((∃ v, module_dict pkg_name w !! n = Some v ∧ r = inr v) ∨
            (module_dict pkg_name w !! n = None ∧ n = "__name__" ∧
             r = inr (VStr "builtins")) ∨
            (module_dict pkg_name w !! n = None ∧ n ≠ "__name__" ∧
             r = inl (Exn "NameError" n))).
Proof.
  unfold load_global. destruct (module_dict pkg_name w !! n) as [v|].
  { intros [= <- <-]. split; [done|]. left. by exists v. }
  rewrite builtins_lookup. case_decide; intros [= <- <-]; (split; [done|]); auto.
Qed.

Lemma getattr_inv o n w r w' :
  getattr E o n w = (r, w') →
  w' = w ∧ ((∃ m v, o = VModule m ∧ module_dict m w !! n = Some v ∧ r = inr v) ∨
            (∃ h, o = VExt h ∧ r = ext_attr E h n) ∨
            r = inl (Exn "AttributeError" n)).
Proof.
  unfold getattr. destruct o as [| | |m| |h]; try (intros [= <- <-]; by auto).
  - destruct (module_dict m w !! n) as [v|] eqn:Hv; intros [= <- <-]; (split; [done|]).
    + left. by exists m, v.
    + by auto.
  - intros [= <- <-]. split; [done|]. right. left. by exists h.
Qed.

Lemma load_global_eq n w v :
  module_dict pkg_name w !! n = Some v → load_global n w = (inr v, w).
Proof. unfold load_global. by intros ->. Qed.

Lemma load_global_own n w v :
  n ≠ "__name__" → load_global n w = (inr v, w) →
  module_dict pkg_name w !! n = Some v.
Proof.
  intros Hn [_ [(v' & Hv & [= <-])|[(_ & ? & _)|(_ & _ & ?)]]]%load_global_inv; done.
Qed.

Lemma getattr_eq m n w v :
  module_dict m w !! n = Some v → getattr E (VModule m) n w = (inr v, w).
Proof. unfold getattr. by intros ->. Qed.

Lemma call_foreign_inv f args w r w' :
  call_foreign E f args w = (r, w') →
  (∃ h, f = VExt h ∧ r = ext_call E h args ∧
        w' = World (sys_modules w) (trace w ++ [Call h args])) ∨
  (w' = w ∧ ∃ e, r = inl e).
Proof.
  unfold call_foreign, run_foreign, raise.
  destruct f as [| | | | |h]; try (intros [= <- <-]; right; by eauto).
  left. exists h. by simplify_eq.
Qed.

Lemma store_global_inv n v w u w' :
  store_global n v w = (u, w') →
  u = inr () ∧ module_dict pkg_name w' = <[n := v]> (module_dict pkg_name w) ∧
  (∀ m, m ≠ pkg_name → sys_modules w' !! m = sys_modules w !! m) ∧
  trace w' = trace w ++ [Bind pkg_name n] ∧ cached pkg_name w' = true.
Proof.
  intros Hs. pose proof Hs as (-> & ? & ? & ?)%setattr_dict. split_and!; [done..|].
  injection Hs as <-. apply cached_true. simpl. by rewrite lookup_insert_eq.
Qed.

Lemma store_global_step (P : string → Prop) (Q : event → Prop) n v w u w' :
  P pkg_name → Q (Bind pkg_name n) → store_global n v w = (u, w') → step P Q w w'.
Proof. apply step_setattr. Qed.

Lemma grows_refl w : grows w w.
Proof. by intros k. Qed.

Lemma grows_trans w1 w2 w3 : grows w1 w2 → grows w2 w3 → grows w1 w3.
Proof. intros H1 H2 k Hk. by apply H2, H1. Qed.

Lemma grows_store n v w u w' : store_global n v w = (u, w') → grows w w'.
Proof.
  intros (_ & Hd & _)%store_global_inv k Hk. rewrite Hd.
  destruct (decide (n = k)) as [->|]; [by rewrite lookup_insert_eq|].
  by rewrite lookup_insert_ne.
Qed.

Lemma grows_eq w w' :
  module_dict pkg_name w' = module_dict pkg_name w → grows w w'.
Proof. intros Heq k. by rewrite Heq. Qed.

(** *** Lines 2, 3 and 6: [import bob.io.base], [import bob.sp],
    [import bob.extension] *)

Lemma dep_path_names name :
  name ∈ ["bob.io.base"; "bob.sp"; "bob.extension"] →
  hd "" (split_dots name) = "bob" ∧
  dotted (reverse (reverse (split_dots name))) = name ∧
  name ≠ pkg_name ∧
  Forall (λ m, m ∈ dep_modules ∧ m ≠ pkg_name) (path_names (reverse (split_dots name))).
Proof.
  intros Hname. repeat (apply elem_of_cons in Hname as [->|Hname]);
    [..|by apply elem_of_nil in Hname];
    (split_and!; [done..|]); apply (bool_decide_unpack _); by vm_compute.
Qed.

(** An import of one of the dependencies, or of [bob] itself. *)
Lemma import_dep name w r w' :
  Forall (λ m, m ∈ dep_modules ∧ m ≠ pkg_name) (path_names (reverse (split_dots name))) →
  import_name E (ext_body E) name w = (r, w') →
  step (λ m, m ∈ pkg_name :: dep_modules) dep_event w w' ∧
  (∀ m, cached m w = true → cached m w' = true) ∧
  module_dict pkg_name w' = module_dict pkg_name w ∧
  cached pkg_name w' = cached pkg_name w ∧
  (r = inr () → cached (dotted (reverse (reverse (split_dots name)))) w' = true).
Proof.
  intros Hpaths Himp. rewrite Forall_forall in Hpaths. unfold import_name in Himp.
  pose proof (find_and_load_mono _ _ _ _ _ (λ _ _, eq_refl) Himp) as Hmono.
  apply find_and_load_step in Himp as [Himp Hc]; [|done].
  assert (pkg_name ∉ path_names (reverse (split_dots name))) as Hpkg.
  { intros Hin. by apply Hpaths in Hin as [_ ?]. }
  split_and!; [|done| | |done].
  - eapply step_mono; [| |exact Himp].
    + intros m Hm. right. by apply Hpaths.
    + intros [m|?|m ?]; simpl; [|done|]; intros Hm; [|left]; by apply Hpaths.
  - by eapply module_dict_frame.
  - by eapply cached_frame.
Qed.

Lemma import_stmt_dep name w r w' :
  name ∈ ["bob.io.base"; "bob.sp"; "bob.extension"] →
  import_stmt E name w = (r, w') →
  step (λ m, m ∈ pkg_name :: dep_modules) dep_event w w' ∧
  (∀ m, cached m w = true → cached m w' = true) ∧
  (r = inr () →
     cached name w' = true ∧ cached pkg_name w' = true ∧
     module_dict pkg_name w' = <["bob" := VModule "bob"]> (module_dict pkg_name w) ∧
     ∃ t, trace w' = trace w ++ t ++ [Bind pkg_name "bob"]).
Proof.
  intros (Htop & Hname & Hne & Hpaths)%dep_path_names. unfold import_stmt.
  rewrite Htop.
  assert (Forall (λ m, m ∈ dep_modules ∧ m ≠ pkg_name)
                 (path_names (reverse (split_dots "bob")))) as Hbob.
  { apply (bool_decide_unpack _). by vm_compute. }
  intros Hb. apply bind_inv in Hb as [(e & Himp & ->)|([] & w1 & Himp & Hrest)];
    pose proof (import_dep _ _ _ _ Hpaths Himp) as (Hs1 & Hm1 & Hd1 & _ & Hc1).
  { done. }
  rewrite Hname in Hc1. specialize (Hc1 eq_refl).
  apply bind_inv in Hrest as [(e & Htop' & ->)|([] & w2 & Htop' & Hstore)];
    pose proof (import_dep _ _ _ _ Hbob Htop') as (Hs2 & Hm2 & Hd2 & _ & _).
  { split_and!; [by eapply step_trans|by auto|done]. }
  pose proof Hstore as (-> & Hd & Hother & Htr & Hcp)%store_global_inv.
  split_and!.
  - eapply step_trans; [exact Hs1|]. eapply step_trans; [exact Hs2|].
    eapply store_global_step; [by left| |exact Hstore]. simpl. by right.
  - intros m Hm%Hm1%Hm2. destruct (decide (m = pkg_name)) as [->|]; [done|].
    apply cached_true. apply cached_true in Hm. by rewrite Hother.
  - intros _. split_and!.
    + apply Hm2 in Hc1. apply cached_true. apply cached_true in Hc1.
      by rewrite Hother.
    + done.
    + by rewrite Hd, Hd2, Hd1.
    + destruct Hs1 as [_ (t1 & Ht1 & _)], Hs2 as [_ (t2 & Ht2 & _)].
      exists (t1 ++ t2). by rewrite Htr, Ht2, Ht1, <-!app_assoc.
Qed.

(** *** Line 7: the call of the loader *)

Lemma attach_library_ok w w' :
  attach_library E w = (inr (), w') →
  sys_modules w' = sys_modules w ∧
  ∃ b e h file,
    module_dict pkg_name w !! "bob" = Some b ∧
    getattr E b "extension" w = (inr e, w) ∧
    getattr E e "load_bob_library" w = (inr (VExt h), w) ∧
    module_dict pkg_name w !! "__file__" = Some file ∧
    (∃ v, ext_call E h [VStr "bob.ip.gabor"; file] = inr v) ∧
    trace w' = trace w ++ [Call h [VStr "bob.ip.gabor"; file]].
Proof.
  unfold attach_library.
  intros (b & w1 & Hb & H1)%bind_ok.
  pose proof Hb as [-> _]%load_global_inv. apply load_global_own in Hb; [|done].
  apply bind_ok in H1 as (e & w1 & He & H2).
  pose proof He as [-> _]%getattr_inv.
  apply bind_ok in H2 as (f & w1 & Hf & H3).
  pose proof Hf as [-> _]%getattr_inv.
  apply bind_ok in H3 as (file & w1 & Hfile & H4).
  pose proof Hfile as [-> _]%load_global_inv. apply load_global_own in Hfile; [|done].
  apply bind_ok in H4 as (v & w1 & Hcall & [= <-]).
  apply call_foreign_inv in Hcall as [(h & -> & Hr & ->)|(_ & e' & ?)]; [|done].
  split; [done|]. eexists _, _, _, _. split_and!; eauto.
Qed.

Lemma attach_library_frame w r w' :
  attach_library E w = (r, w') → sys_modules w' = sys_modules w.
Proof.
  unfold attach_library. intros H.
  repeat match type of H with
  | (load_global _ ≫= _) _ = _ =>
      apply bind_inv in H as [(? & [-> _]%load_global_inv & _)|
                              (? & ? & [-> _]%load_global_inv & H)]; [done|]
  | (getattr _ _ _ ≫= _) _ = _ =>
      apply bind_inv in H as [(? & [-> _]%getattr_inv & _)|
                              (? & ? & [-> _]%getattr_inv & H)]; [done|]
  end.
  apply bind_inv in H as [(? & Hc & _)|(? & ? & Hc & [= _ <-])];
    by apply call_foreign_inv in Hc as [(? & _ & _ & ->)|(-> & _)].
Qed.

(** *** Lines 15 to 18: [get_config] *)

Lemma get_config_frame w r w' :
  get_config E w = (r, w') →
  sys_modules w' = sys_modules w ∧
  (trace w' = trace w ∨ ∃ h args, trace w' = trace w ++ [Call h args]).
Proof.
  unfold get_config. intros H.
  repeat match type of H with
  | (load_global _ ≫= _) _ = _ =>
      apply bind_inv in H as [(? & [-> _]%load_global_inv & _)|
                              (? & ? & [-> _]%load_global_inv & H)]; [by auto|]
  | (getattr _ _ _ ≫= _) _ = _ =>
      apply bind_inv in H as [(? & [-> _]%getattr_inv & _)|
                              (? & ? & [-> _]%getattr_inv & H)]; [by auto|]
  end.
  apply call_foreign_inv in H as [(h & _ & _ & ->)|(-> & _)]; [|by auto].
  split; [done|]. right. by eexists _, _.
Qed.

Lemma get_config_eval w b e f n x a :
  module_dict pkg_name w !! "bob" = Some (VModule b) →
  module_dict b w !! "extension" = Some (VModule e) →
  module_dict e w !! "get_config" = Some f →
  module_dict pkg_name w !! "__name__" = Some n →
  module_dict pkg_name w !! "version" = Some (VModule (sibling "version")) →
  module_dict (sibling "version") w !! "externals" = Some x →
  module_dict (sibling "version") w !! "api" = Some a →
  get_config E w = call_foreign E f [n; x; a] w.
Proof.
  intros Hb He Hf Hn Hv Hx Ha. unfold get_config.
  rewrite (bind_step _ _ _ _ _ (load_global_eq _ _ _ Hb)).
  rewrite (bind_step _ _ _ _ _ (getattr_eq _ _ _ _ He)).
  rewrite (bind_step _ _ _ _ _ (getattr_eq _ _ _ _ Hf)).
  rewrite (bind_step _ _ _ _ _ (load_global_eq _ _ _ Hn)).
  rewrite (bind_step _ _ _ _ _ (load_global_eq _ _ _ Hv)).
  rewrite (bind_step _ _ _ _ _ (getattr_eq _ _ _ _ Hx)).
  rewrite (bind_step _ _ _ _ _ (load_global_eq _ _ _ Hv)).
  by rewrite (bind_step _ _ _ _ _ (getattr_eq _ _ _ _ Ha)).
Qed.

Lemma call_frame f args w r w' :
  call E f args w = (r, w') →
  sys_modules w' = sys_modules w ∧
  (trace w' = trace w ∨ ∃ h args', trace w' = trace w ++ [Call h args']).
Proof.
  assert (call_foreign E f args w = (r, w') →
          sys_modules w' = sys_modules w ∧
          (trace w' = trace w ∨ ∃ h args', trace w' = trace w ++ [Call h args'])) as Hcf.
  { intros [(h & _ & _ & ->)|(-> & _)]%call_foreign_inv; [|by auto].
    split; [done|]. right. by eexists _, _. }
  unfold call. destruct f as [| | | |q|]; try exact Hcf.
  destruct (decide (q = "get_config")) as [->|Hq].
  - destruct args; [apply get_config_frame|exact Hcf].
  - intros H. apply Hcf. revert H.
    repeat (match goal with |- context [match ?x with _ => _ end] => destruct x end;
            try done).
Qed.

(** *** Binding a list of names in the package *)

Lemma pkg_bind_reexport ev : pkg_bind ev → reexport_event ev.
Proof. by intros [n ->]. Qed.

Lemma import_items_step m items w r w' :
  m ≠ pkg_name →
  for_each (import_item E m) items w = (r, w') →
  step (λ x, x = pkg_name) pkg_bind w w' ∧ grows w w' ∧
  (∀ k, VStr k ∉ items → module_dict pkg_name w' !! k = module_dict pkg_name w !! k) ∧
  (cached pkg_name w = true → cached pkg_name w' = true).
Proof.
  intros Hm. revert w. induction items as [|item items IH]; intros w; simpl.
  { intros [= <- <-]. split_and!; [apply step_refl|apply grows_refl|done..]. }
  intros [(e & Hitem & ->)|([] & w1 & Hitem & Hrest)]%bind_inv.
  - assert (w' = w) as ->; [|split_and!; [apply step_refl|apply grows_refl|done..]].
    destruct item as [|n| | | |]; try by injection Hitem as <-.
    simpl in Hitem.
    apply bind_inv in Hitem as [(? & [-> _]%getattr_inv & _)|(? & ? & _ & Hst)]; [done|].
    by apply store_global_inv in Hst as [? _].
  - destruct item as [|n| | | |]; try done. simpl in Hitem.
    apply bind_ok in Hitem as (v & w0 & [-> _]%getattr_inv & Hst).
    apply IH in Hrest as (Hstep & Hgrows & Hkeep & Hc).
    pose proof Hst as (_ & Hd & _ & _ & Hc1)%store_global_inv.
    split_and!.
    + eapply step_trans; [|exact Hstep].
      eapply store_global_step; [done| |exact Hst]. by exists n.
    + eapply grows_trans; [by eapply grows_store|done].
    + intros k Hk. rewrite not_elem_of_cons in Hk. destruct Hk as [Hk1 Hk2].
      rewrite Hkeep, Hd by done. apply lookup_insert_ne. by intros ->.
    + auto.
Qed.

Lemma import_names_ok m (names : list (string * string)) w w' :
  m ≠ pkg_name →
  for_each (λ na, v ← import_from m na.1 ; store_global na.2 v) names w = (inr (), w') →
  step (λ x, x = pkg_name) pkg_bind w w' ∧ grows w w' ∧
  (cached pkg_name w = true → cached pkg_name w' = true) ∧
  (∀ k, k ∉ names.*2 → module_dict pkg_name w' !! k = module_dict pkg_name w !! k) ∧
  (NoDup names.*2 → ∀ n a, (n, a) ∈ names →
     is_Some (module_dict pkg_name w' !! a) ∧
     ∀ f, module_dict m w !! n = Some f → module_dict pkg_name w' !! a = Some f).
Proof.
  intros Hm. revert w. induction names as [|[n0 a0] names IH]; intros w; simpl.
  { intros [= <-]. split_and!; [apply step_refl|apply grows_refl|done..|].
    intros _ n a Hin. by apply elem_of_nil in Hin. }
  intros ([] & w1 & Hone & Hrest)%bind_ok.
  apply bind_ok in Hone as (v & w0 & Hfrom & Hst).
  assert (w0 = w ∧ ∀ f, module_dict m w !! n0 = Some f → v = f) as [-> Hv].
  { unfold import_from in Hfrom. destruct (module_dict m w !! n0) as [f|].
    - injection Hfrom as <- <-. split; [done|]. by intros ? [= <-].
    - destruct (cached _ w); by simplify_eq. }
  apply IH in Hrest as (Hstep & Hgrows & Hc & Hkeep & Hget).
  pose proof Hst as (_ & Hd & Hother & _ & Hc1)%store_global_inv.
  split_and!.
  - eapply step_trans; [|exact Hstep].
    eapply store_global_step; [done| |exact Hst]. by exists a0.
  - eapply grows_trans; [by eapply grows_store|done].
  - auto.
  - intros k Hk. rewrite not_elem_of_cons in Hk. destruct Hk as [Hk1 Hk2].
    rewrite Hkeep, Hd by done. apply lookup_insert_ne. by intros ->.
  - intros [Ha0 Hnd]%NoDup_cons n a [[= -> ->]|Hin]%elem_of_cons.
    + assert (module_dict pkg_name w' !! a0 = Some v) as Hv'.
      { rewrite Hkeep, Hd by done. apply lookup_insert_eq. }
      split; [by rewrite Hv'|]. intros f Hf. by rewrite Hv', (Hv f Hf).
    + destruct (Hget Hnd n a Hin) as [Hsome Hf]. split; [done|].
      intros f Hmf. apply Hf. unfold module_dict. rewrite Hother by done. exact Hmf.
Qed.

(** *** The relative imports of lines 9 to 13 *)

Lemma import_sibling_ok sub w w' :
  split_dots sub = [sub] → sibling sub ∈ siblings → cached pkg_name w = true →
  import_name E (ext_body E) (sibling sub) w = (inr (), w') →
  step (λ m, m ∈ [pkg_name; sibling sub]) reexport_event w w' ∧ grows w w' ∧
  cached pkg_name w' = true ∧ cached (sibling sub) w' = true ∧
  (∀ k, k ≠ sub → module_dict pkg_name w' !! k = module_dict pkg_name w !! k) ∧
  (cached (sibling sub) w = true → w' = w) ∧
  (cached (sibling sub) w = false →
     module_dict pkg_name w' !! sub = Some (VModule (sibling sub))).
Proof.
  intros Hsub Hsib Hpkg Himp.
  apply import_sibling in Himp; [|done..].
  destruct Himp
    as [(Hc & _ & ->)|[(_ & _ & ? & _)|[(_ & _ & e & _ & ? & _)|(Hc & _ & d & _ & _ & ->)]]];
    [|done..|].
  - split_and!; [apply step_refl|apply grows_refl|done..|by rewrite Hc].
  - assert (module_dict pkg_name
              (World (<[pkg_name := <[sub := VModule (sibling sub)]> (module_dict pkg_name w)]>
                        (<[sibling sub := d ∪ new_module E (sibling sub)]> (sys_modules w)))
                     (trace w ++ [Exec (sibling sub); Bind pkg_name sub]))
            = <[sub := VModule (sibling sub)]> (module_dict pkg_name w)) as Hd.
    { unfold module_dict at 1. simpl. by rewrite lookup_insert_eq. }
    split_and!.
    + split; simpl.
      * intros m Hm. rewrite !not_elem_of_cons in Hm. destruct Hm as (? & ? & _).
        by rewrite !lookup_insert_ne.
      * eexists. split; [done|].
        constructor; [exact Hsib|]. constructor; [done|]. constructor.
    + intros k Hk. rewrite Hd. destruct (decide (sub = k)) as [->|].
      * by rewrite lookup_insert_eq.
      * by rewrite lookup_insert_ne.
    + apply cached_true. simpl. by rewrite lookup_insert_eq.
    + apply cached_true. simpl.
      rewrite lookup_insert_ne by apply not_eq_sym, sibling_ne.
      by rewrite lookup_insert_eq.
    + intros k Hk. rewrite Hd. by apply lookup_insert_ne.
    + by rewrite Hc.
    + intros _. rewrite Hd. apply lookup_insert_eq.
Qed.

Lemma import_sibling_raises sub w e w' :
  split_dots sub = [sub] → sibling sub ∈ siblings → cached pkg_name w = true →
  import_name E (ext_body E) (sibling sub) w = (inl e, w') →
  step (λ m, m ∈ [pkg_name; sibling sub]) reexport_event w w' ∧
  module_dict pkg_name w' = module_dict pkg_name w ∧
  cached pkg_name w' = true ∧ cached (sibling sub) w' = false.
Proof.
  intros Hsub Hsib Hpkg Himp.
  apply import_sibling in Himp; [|done..].
  destruct Himp
    as [(_ & ? & _)|[(Hc & _ & _ & ->)|[(Hc & _ & e' & _ & _ & ->)|(_ & _ & d & _ & ? & _)]]];
    [done| | |done].
  - split_and!; [apply step_refl|done..].
  - split_and!.
    + split; simpl.
      * intros m Hm. rewrite !not_elem_of_cons in Hm. destruct Hm as (? & ? & _).
        by rewrite lookup_delete_ne.
      * eexists. split; [done|]. constructor; [exact Hsib|]. constructor.
    + unfold module_dict. simpl.
      by rewrite lookup_delete_ne by apply sibling_ne.
    + apply cached_true. apply cached_true in Hpkg. simpl.
      by rewrite lookup_delete_ne by apply sibling_ne.
    + apply cached_false. simpl. apply lookup_delete_eq.
Qed.

Lemma import_package_cached exec w :
  cached pkg_name w = true → import_name E exec pkg_name w = (inr (), w).
Proof.
  intros Hc. unfold import_name.
  change (reverse (split_dots pkg_name)) with ["gabor"; "ip"; "bob"].
  cbn [find_and_load].
  change (dotted (reverse ["gabor"; "ip"; "bob"])) with pkg_name. by rewrite Hc.
Qed.

Lemma stable_refl w : stable w w.
Proof. by intros m. Qed.

Lemma stable_trans w1 w2 w3 : stable w1 w2 → stable w2 w3 → stable w1 w3.
Proof.
  intros H1 H2 m Hm Hc. rewrite H2, H1; [done..|].
  apply cached_true. rewrite H1 by done. by apply cached_true.
Qed.

Lemma stable_pkg (Q : event → Prop) w w' :
  step (λ x, x = pkg_name) Q w w' → stable w w'.
Proof. intros [Hf _] m Hm _. by apply Hf. Qed.

Lemma reexports_trans w1 w2 w3 : reexports w1 w2 → reexports w2 w3 → reexports w1 w3.
Proof.
  intros (Hs1 & Hg1 & Hst1 & _) (Hs2 & Hg2 & Hst2 & Hc).
  split_and!; [by eapply step_trans|by eapply grows_trans|by eapply stable_trans|done].
Qed.

Lemma reexports_pkg w w' :
  step (λ x, x = pkg_name) pkg_bind w w' → grows w w' → cached pkg_name w' = true →
  reexports w w'.
Proof.
  intros Hs Hg Hc. split_and!; [|done|by eapply stable_pkg|done].
  eapply step_mono; [| |exact Hs].
  - intros m ->. by left.
  - apply pkg_bind_reexport.
Qed.

Lemma reexports_sibling sub w w' :
  sibling sub ∈ siblings →
  step (λ m, m ∈ [pkg_name; sibling sub]) reexport_event w w' →
  grows w w' → stable w w' → cached pkg_name w' = true → reexports w w'.
Proof.
  intros Hsib Hs Hg Hst Hc. split_and!; [|done..].
  eapply step_mono; [| |exact Hs]; [|done].
  intros m [->|[->|[]%elem_of_nil]%elem_of_cons]%elem_of_cons; [by left|by right].
Qed.

Lemma import_sibling_stable sub w r w' :
  split_dots sub = [sub] → sibling sub ∈ siblings → cached pkg_name w = true →
  import_name E (ext_body E) (sibling sub) w = (r, w') →
  step (λ m, m ∈ [pkg_name; sibling sub]) reexport_event w w' ∧
  grows w w' ∧ stable w w' ∧ cached pkg_name w' = true.
Proof.
  intros Hsub Hsib Hpkg Himp. destruct r as [e|[]].
  - pose proof (import_sibling_raises _ _ _ _ Hsub Hsib Hpkg Himp) as (Hs & Hd & Hc & Hc').
    split_and!; [done|by apply grows_eq| |done].
    intros m Hm Hcm. apply Hs. rewrite !not_elem_of_cons. split_and!; [done| |apply not_elem_of_nil].
    intros ->. destruct (cached (sibling sub) w) eqn:Hcs; [|done].
    apply import_sibling in Himp; [|done..].
    destruct Himp as [(_ & ? & _)|[(? & _)|[(? & _)|(? & _)]]]; congruence.
  - pose proof (import_sibling_ok _ _ _ Hsub Hsib Hpkg Himp)
      as (Hs & Hg & Hc & _ & _ & Hsame & _).
    split_and!; [done..| |done].
    intros m Hm Hcm. destruct (decide (m = sibling sub)) as [->|Hne].
    + by rewrite (Hsame Hcm).
    + apply Hs. rewrite !not_elem_of_cons. split_and!; [done..|apply not_elem_of_nil].
Qed.

(** *** Line 9: [from ._library import *] *)

Lemma exported_items_dict m w w' :
  module_dict m w' = module_dict m w →
  ∀ items, exported_items m w = (inr items, w) → exported_items m w' = (inr items, w').
Proof.
  unfold exported_items. intros ->.
  destruct (module_dict m w !! "__all__") as [[| | | | |]|]; intros; by simplify_eq.
Qed.

Lemma from_import_star_ok w w' :
  cached pkg_name w = true →
  from_import_star E "_library" w = (inr (), w') →
  step (λ m, m ∈ [pkg_name; sibling "_library"]) reexport_event w w' ∧
  reexports w w' ∧ cached (sibling "_library") w' = true ∧
  ∃ items, exported_items (sibling "_library") w' = (inr items, w') ∧
    ∀ k, k ≠ "_library" → VStr k ∉ items →
      module_dict pkg_name w' !! k = module_dict pkg_name w !! k.
Proof.
  intros Hpkg. unfold from_import_star.
  intros ([] & w1 & Himp & H1)%bind_ok.
  apply bind_ok in H1 as (items & w2 & Hitems & Hfor).
  assert (sibling "_library" ∈ siblings) as Hsib by (by left).
  pose proof (import_sibling_stable "_library" _ _ _ eq_refl Hsib Hpkg Himp) as (Hs1 & Hg1 & Hst1 & Hc1).
  apply import_sibling_ok in Himp as (_ & _ & _ & Hcl & Hkeep1 & _); [|done..].
  assert (w2 = w1) as ->.
  { unfold exported_items in Hitems.
    destruct (module_dict _ w1 !! "__all__") as [[| | | | |]|]; by simplify_eq. }
  apply import_items_step in Hfor as (Hs2 & Hg2 & Hkeep2 & Hc2); [|apply sibling_ne].
  assert (step (λ m, m ∈ [pkg_name; sibling "_library"]) reexport_event w w') as Hs.
  { eapply step_trans; [exact Hs1|]. eapply step_mono; [| |exact Hs2].
    - intros m ->. by left.
    - apply pkg_bind_reexport. }
  split; [done|]. split_and!.
  - eapply reexports_sibling; [exact Hsib|done|by eapply grows_trans| |by auto].
    eapply stable_trans; [done|by eapply stable_pkg].
  - apply cached_true. apply cached_true in Hcl. destruct Hs2 as [Hf2 _].
    by rewrite Hf2 by apply sibling_ne.
  - exists items. split.
    + eapply exported_items_dict; [|done].
      eapply module_dict_frame; [exact Hs2|apply sibling_ne].
    + intros k Hk Hitem. by rewrite Hkeep2, Hkeep1.
Qed.

(** *** Line 10: [from . import version] *)

Lemma handle_fromlist_version w r w' :
  cached pkg_name w = true →
  handle_fromlist E pkg_name "version" w = (r, w') →
  step (λ m, m ∈ [pkg_name; sibling "version"]) reexport_event w w' ∧
  grows w w' ∧ stable w w' ∧ cached pkg_name w' = true ∧
  (∀ k, k ≠ "version" → module_dict pkg_name w' !! k = module_dict pkg_name w !! k) ∧
  (r = inr () → cached (sibling "version") w = false →
     cached (sibling "version") w' = true →
     module_dict pkg_name w' !! "version" = Some (VModule (sibling "version"))).
Proof.
  intros Hpkg. unfold handle_fromlist.
  assert (sibling "version" ∈ siblings) as Hsib by (right; by left).
  destruct (module_dict pkg_name w !! "version") as [v|] eqn:Hattr.
  { intros [= <- <-].
    split_and!; [apply step_refl|apply grows_refl|apply stable_refl|done..|]; congruence. }
  change (pkg_name +:+ "." +:+ "version") with (sibling "version").
  destruct (import_name E (ext_body E) (sibling "version") w) as [[e|[]] w1] eqn:Himp.
  - pose proof (import_sibling_stable "version" _ _ _ eq_refl Hsib Hpkg Himp)
      as (Hs & Hg & Hst & Hc).
    pose proof (import_sibling_raises "version" _ _ _ eq_refl Hsib Hpkg Himp)
      as (_ & Hd & _ & Hcv).
    intros Hr. assert (w' = w1) as -> by (case_decide; by simplify_eq).
    split_and!; [done..|by rewrite Hd|intros; congruence].
  - pose proof (import_sibling_stable "version" _ _ _ eq_refl Hsib Hpkg Himp)
      as (Hs & Hg & Hst & Hc).
    pose proof (import_sibling_ok "version" _ _ eq_refl Hsib Hpkg Himp)
      as (_ & _ & _ & Hcv & Hkeep & Hsame & Hbound).
    intros [= <- <-]. split_and!; [done..|].
    intros _ Hnc _. by apply Hbound.
Qed.

Lemma from_package_import_ok w w' :
  cached pkg_name w = true →
  from_package_import E "version" w = (inr (), w') →
  step (λ m, m ∈ [pkg_name; sibling "version"]) reexport_event w w' ∧
  reexports w w' ∧
  (∀ k, k ≠ "version" → module_dict pkg_name w' !! k = module_dict pkg_name w !! k) ∧
  is_Some (module_dict pkg_name w' !! "version") ∧
  (cached (sibling "version") w = false → cached (sibling "version") w' = true →
     module_dict pkg_name w' !! "version" = Some (VModule (sibling "version"))).
Proof.
  intros Hpkg. unfold from_package_import.
  intros ([] & w0 & Hself & H1)%bind_ok.
  rewrite import_package_cached in Hself by done. injection Hself as <-.
  apply bind_ok in H1 as ([] & w1 & Hfl & H2).
  apply bind_ok in H2 as (v & w2 & Hfrom & Hst).
  apply handle_fromlist_version in Hfl as (Hs & Hg & Hstab & Hc & Hkeep & Hmod); [|done].
  assert (w2 = w1) as ->.
  { unfold import_from in Hfrom. destruct (module_dict pkg_name w1 !! "version").
    - by simplify_eq.
    - destruct (cached (pkg_name +:+ "." +:+ "version") w1); by simplify_eq. }
  pose proof Hst as (_ & Hd & Hother & _ & Hc')%store_global_inv.
  assert (step (λ m, m ∈ [pkg_name; sibling "version"]) reexport_event w w') as Hstep.
  { eapply step_trans; [exact Hs|].
    eapply store_global_step; [by left|done|exact Hst]. }
  split; [done|]. split_and!.
  - eapply (reexports_sibling "version"); [right; by left|done| | |done].
    + eapply grows_trans; [done|by eapply grows_store].
    + eapply stable_trans; [done|]. intros m Hm _. by apply Hother.
  - intros k Hk. by rewrite Hd, lookup_insert_ne, Hkeep.
  - by rewrite Hd, lookup_insert_eq.
  - intros Hnc Hcv. rewrite Hd, lookup_insert_eq. f_equal.
    assert (cached (sibling "version") w1 = true) as Hcv1.
    { apply cached_true. apply cached_true in Hcv.
      by rewrite Hother in Hcv by apply sibling_ne. }
    specialize (Hmod eq_refl Hnc Hcv1).
    unfold import_from in Hfrom. rewrite Hmod in Hfrom. by simplify_eq.
Qed.

(** *** Lines 11 to 13: [from .version import ...], [from .auxiliar import ...] *)

Lemma from_import_ok sub names w w' :
  split_dots sub = [sub] → sibling sub ∈ siblings → cached pkg_name w = true →
  from_import E sub names w = (inr (), w') →
  step (λ m, m ∈ [pkg_name; sibling sub]) reexport_event w w' ∧
  reexports w w' ∧ cached (sibling sub) w' = true ∧
  (∀ k, k ≠ sub → k ∉ names.*2 →
     module_dict pkg_name w' !! k = module_dict pkg_name w !! k) ∧
  (cached (sibling sub) w = true → ∀ k, k ∉ names.*2 →
     module_dict pkg_name w' !! k = module_dict pkg_name w !! k) ∧
  (cached (sibling sub) w = false → sub ∉ names.*2 →
     module_dict pkg_name w' !! sub = Some (VModule (sibling sub))) ∧
  (NoDup names.*2 → ∀ n a, (n, a) ∈ names →
     is_Some (module_dict pkg_name w' !! a) ∧
     ∀ f, module_dict (sibling sub) w' !! n = Some f →
          module_dict pkg_name w' !! a = Some f).
Proof.
  intros Hsub Hsib Hpkg. unfold from_import.
  intros ([] & w1 & Himp & Hfor)%bind_ok.
  pose proof (import_sibling_stable sub _ _ _ Hsub Hsib Hpkg Himp)
    as (Hs1 & Hg1 & Hst1 & Hc1).
  pose proof (import_sibling_ok sub _ _ Hsub Hsib Hpkg Himp)
    as (_ & _ & _ & Hcs & Hkeep1 & Hsame & Hbound).
  apply import_names_ok in Hfor as (Hs2 & Hg2 & Hc2 & Hkeep2 & Hget); [|apply sibling_ne].
  assert (∀ m, m ≠ pkg_name → sys_modules w' !! m = sys_modules w1 !! m) as Hother.
  { intros m Hm. by apply Hs2. }
  assert (step (λ m, m ∈ [pkg_name; sibling sub]) reexport_event w w') as Hs.
  { eapply step_trans; [exact Hs1|]. eapply step_mono; [| |exact Hs2].
    - intros m ->. by left.
    - apply pkg_bind_reexport. }
  split; [done|]. split_and!.
  - eapply reexports_sibling; [exact Hsib|done|by eapply grows_trans| |by auto].
    eapply stable_trans; [done|by eapply stable_pkg].
  - apply cached_true. rewrite Hother by apply sibling_ne. by apply cached_true.
  - intros k Hk1 Hk2. by rewrite Hkeep2, Hkeep1.
  - intros Hcw k Hk. rewrite Hkeep2 by done. by rewrite (Hsame Hcw).
  - intros Hnc Hk. rewrite Hkeep2 by done. by apply Hbound.
  - intros Hnd n a Hin. destruct (Hget Hnd n a Hin) as [Hsome Hf]. split; [done|].
    intros f Hmf. apply Hf. unfold module_dict in *.
    by rewrite Hother in Hmf by apply sibling_ne.
Qed.

(** *** Lines 15 and 22: [def get_config], [__all__ = ...] *)

Lemma def_get_config_ok w u w' :
  def_get_config w = (u, w') →
  u = inr () ∧ reexports w w' ∧
  module_dict pkg_name w' = <["get_config" := VDef "get_config"]> (module_dict pkg_name w).
Proof.
  unfold def_get_config. intros Hst.
  pose proof Hst as (-> & Hd & _ & _ & Hc)%store_global_inv. split_and!; [done| |done].
  apply reexports_pkg; [|by eapply grows_store|done].
  eapply store_global_step; [done| |exact Hst]. by eexists.
Qed.

Lemma assign_all_ok w u w' :
  assign_all w = (u, w') →
  u = inr () ∧ reexports w w' ∧
  module_dict pkg_name w' =
    <["__all__" := VList (VStr <$> filter public (dir (module_dict pkg_name w)))]>
      (module_dict pkg_name w).
Proof.
  unfold assign_all. intros Hst.
  pose proof Hst as (-> & Hd & _ & _ & Hc)%store_global_inv. split_and!; [done| |done].
  apply reexports_pkg; [|by eapply grows_store|done].
  eapply store_global_step; [done| |exact Hst]. by eexists.
Qed.

(** *** A whole import of the package *)

Lemma find_and_load_cons exec c c' rp w :
  find_and_load E exec (c :: c' :: rp) w =
  let name := dotted (reverse (c :: c' :: rp)) in
  let parent := dotted (reverse (c' :: rp)) in
  if cached name w then (inr (), w) else
  match (if cached parent w then (inr (), w) else find_and_load E exec (c' :: rp) w) with
  | (inl e, w1) => (inl e, w1)
  | (inr _, w1) =>
      if cached name w1 then (inr (), w1) else
      if find_spec E name then
        match load_unlocked E exec name w1 with
        | (inl e, w2) => (inl e, w2)
        | (inr _, w2) => setattr parent c (VModule name) w2
        end
      else (inl (Exn "ModuleNotFoundError" name), w1)
  end.
Proof. reflexivity. Qed.

Lemma run_body_foreign m :
  m ∈ path_names ["ip"; "bob"] → run_body E m = ext_body E m.
Proof.
  intros Hm. unfold run_body. case_decide as Heq; [|done]. subst m.
  assert (pkg_name ∉ path_names ["ip"; "bob"]) as Hnot; [|done].
  apply (bool_decide_unpack _). by vm_compute.
Qed.

Lemma import_package_inv w0 r w1 :
  cached pkg_name w0 = false →
  import_package E w0 = (r, w1) →
  ∃ wp, step (λ m, m ∈ ["bob.ip"; "bob"]) (ev_on (λ m, m ∈ ["bob.ip"; "bob"])) w0 wp ∧
        cached pkg_name wp = false ∧
        (∀ m, cached m w0 = true → cached m wp = true) ∧
        (cached "bob.ip" w0 = true → wp = w0) ∧
    ((∃ e, r = inl e ∧ w1 = wp) ∨
     (find_spec E pkg_name = true ∧ cached "bob.ip" wp = true ∧
      ∃ rb wb, module_body E (entry E wp) = (rb, wb) ∧
        match rb with
        | inl e => r = inl e ∧ w1 = unregister wb
        | inr _ => r = inr () ∧ w1 = registered wb
        end)).
Proof.
  intros Hc0 Himp. unfold import_package, import_name in Himp.
  change (reverse (split_dots pkg_name)) with ["gabor"; "ip"; "bob"] in Himp.
  rewrite find_and_load_cons in Himp.
  change (dotted (reverse ["gabor"; "ip"; "bob"])) with pkg_name in Himp.
  change (dotted (reverse ["ip"; "bob"])) with "bob.ip" in Himp.
  cbv zeta in Himp. rewrite Hc0 in Himp.
  assert (∃ rp wp,
    (if cached "bob.ip" w0 then (inr (), w0)
     else find_and_load E (run_body E) ["ip"; "bob"] w0) = (rp, wp) ∧
    step (λ m, m ∈ ["bob.ip"; "bob"]) (ev_on (λ m, m ∈ ["bob.ip"; "bob"])) w0 wp ∧
    (∀ m, cached m w0 = true → cached m wp = true) ∧
    (cached "bob.ip" w0 = true → wp = w0) ∧
    (rp = inr () → cached "bob.ip" wp = true))
    as (rp & wp & Hp & Hstep & Hmono & Hsame & Hcp).
  { destruct (cached "bob.ip" w0) eqn:Hip.
    - exists (inr ()), w0. split_and!; [done|apply step_refl|done..].
    - destruct (find_and_load E (run_body E) ["ip"; "bob"] w0) as [rp wp] eqn:Hp.
      exists rp, wp. split; [done|].
      pose proof (find_and_load_step _ _ _ _ _ run_body_foreign Hp) as [Hs Hc].
      pose proof (find_and_load_mono _ _ _ _ _ run_body_foreign Hp) as Hm.
      done. }
  rewrite Hp in Himp. exists wp.
  assert (cached pkg_name wp = false) as Hcp0.
  { apply cached_false. apply cached_false in Hc0. destruct Hstep as [Hf _].
    rewrite Hf; [done|]. apply (bool_decide_unpack _). by vm_compute. }
  split_and!; [done..|].
  destruct rp as [e|[]]; [left; exists e; by simplify_eq|].
  rewrite Hcp0 in Himp.
  destruct (find_spec E pkg_name) eqn:Hfs; [|left; eexists; by simplify_eq].
  right. split_and!; [done|by apply Hcp|].
  unfold load_unlocked in Himp. fold (entry E wp) in Himp.
  assert (run_body E pkg_name = module_body E) as Hrun.
  { unfold run_body. by case_decide. }
  rewrite Hrun in Himp.
  destruct (module_body E (entry E wp)) as [[e|[]] wb] eqn:Hbody.
  - exists (inl e), wb. split; [done|]. unfold unregister. by simplify_eq.
  - exists (inr ()), wb. split; [done|]. unfold registered.
    pose proof Himp as [-> _]%setattr_dict. by rewrite Himp.
Qed.

Lemma module_body_inv wa wb :
  module_body E wa = (inr (), wb) →
  ∃ w1 w2 w3 w4 w5 w6 w7 w8 w9 w10,
    import_stmt E "bob.io.base" wa = (inr (), w1) ∧
    import_stmt E "bob.sp" w1 = (inr (), w2) ∧
    import_stmt E "bob.extension" w2 = (inr (), w3) ∧
    attach_library E w3 = (inr (), w4) ∧
    from_import_star E "_library" w4 = (inr (), w5) ∧
    from_package_import E "version" w5 = (inr (), w6) ∧
    from_import E "version" [("module", "__version__")] w6 = (inr (), w7) ∧
    from_import E "version" [("api", "__api_version__")] w7 = (inr (), w8) ∧
    from_import E "auxiliar" [("load_jets", "load_jets"); ("save_jets", "save_jets")] w8
      = (inr (), w9) ∧
    def_get_config w9 = (inr (), w10) ∧
    assign_all w10 = (inr (), wb).
Proof.
  unfold module_body, statements, preamble. cbn [app exec_stmts].
  intros ([] & w1 & H1 & H)%bind_ok.
  apply bind_ok in H as ([] & w2 & H2 & H).
  apply bind_ok in H as ([] & w3 & H3 & H).
  apply bind_ok in H as ([] & w4 & H4 & H).
  apply bind_ok in H as ([] & w5 & H5 & H).
  apply bind_ok in H as ([] & w6 & H6 & H).
  apply bind_ok in H as ([] & w7 & H7 & H).
  apply bind_ok in H as ([] & w8 & H8 & H).
  apply bind_ok in H as ([] & w9 & H9 & H).
  apply bind_ok in H as ([] & w10 & H10 & H).
  apply bind_ok in H as ([] & w11 & H11 & [= <-]).
  by exists w1, w2, w3, w4, w5, w6, w7, w8, w9, w10.
Qed.

End Proofs.

(** ** Bindings on the trace *)

Lemma bindings_app n t1 t2 : bindings n (t1 ++ t2) = bindings n t1 + bindings n t2.
Proof. unfold bindings. by rewrite filter_app, length_app. Qed.

Lemma bindings_bind n m k t :
  bindings n (Bind m k :: t) =
  (if bool_decide (m = pkg_name ∧ k = n) then 1 else 0) + bindings n t.
Proof.
  unfold bindings. rewrite filter_cons. simpl.
  destruct (bool_decide (m = pkg_name ∧ k = n)); by case_decide.
Qed.

Lemma bindings_other n ev t :
  (∀ k, ev ≠ Bind pkg_name k) → bindings n (ev :: t) = bindings n t.
Proof.
  intros Hev. unfold bindings. rewrite filter_cons. case_decide as Hb; [|done].
  destruct ev as [| |m k]; try done. simpl in Hb.
  apply bool_decide_eq_true in Hb as [-> ->]. by destruct (Hev n).
Qed.

Lemma bindings_ev_on (P : string → Prop) n t :
  ¬ P pkg_name → Forall (ev_on P) t → bindings n t = 0.
Proof.
  intros HP. induction 1 as [|ev t Hev _ IH]; [done|].
  rewrite bindings_other; [done|]. intros k ->. by apply HP.
Qed.

Lemma logged_refl w : logged w w.
Proof. exists []. by rewrite app_nil_r. Qed.

Lemma logged_trans w1 w2 w3 : logged w1 w2 → logged w2 w3 → logged w1 w3.
Proof.
  intros (t1 & Ht1 & H1) (t2 & Ht2 & H2). exists (t1 ++ t2). split.
  - by rewrite Ht2, Ht1, app_assoc.
  - intros n Hn. rewrite bindings_app in Hn. rewrite H2, H1; [done|lia..].
Qed.

Lemma logged_same w w' t :
  trace w' = trace w ++ t → module_dict pkg_name w' = module_dict pkg_name w →
  logged w w'.
Proof. intros Ht Hd. exists t. split; [done|]. intros n _. by rewrite Hd. Qed.

Lemma logged_store n v w u w' : store_global n v w = (u, w') → logged w w'.
Proof.
  intros (_ & Hd & _ & Ht & _)%store_global_inv. exists [Bind pkg_name n].
  split; [done|]. intros k Hk. rewrite bindings_bind in Hk.
  case_bool_decide as Hdec; [done|]. rewrite Hd. apply lookup_insert_ne.
  intros ->. by apply Hdec.
Qed.

Section Logging.

Variable E : env.

Lemma Logged_ret {A} (x : A) : Logged (mret x).
Proof. intros w r w' Hc [= <- <-]. split; [apply logged_refl|done]. Qed.

Lemma Logged_raise {A} e : Logged (raise (A := A) e).
Proof. intros w r w' Hc [= <- <-]. split; [apply logged_refl|done]. Qed.

Lemma Logged_bind {A B} (c : M A) (f : A → M B) :
  Logged c → (∀ x, Logged (f x)) → Logged (c ≫= f).
Proof.
  intros Hc Hf w r w' Hpkg [(e & Hcw & ->)|(x & w1 & Hcw & Hfw)]%bind_inv.
  - by eapply Hc.
  - destruct (Hc _ _ _ Hpkg Hcw) as [Hl1 Hc1].
    destruct (Hf x _ _ _ Hc1 Hfw) as [Hl2 Hc2].
    split; [by eapply logged_trans|done].
Qed.

Lemma Logged_pure {A} (c : M A) :
  (∀ w r w', c w = (r, w') → w' = w) → Logged c.
Proof. intros Hc w r w' Hpkg ->%Hc. split; [apply logged_refl|done]. Qed.

Lemma Logged_for_each {A} (f : A → M unit) xs :
  (∀ x, Logged (f x)) → Logged (for_each f xs).
Proof.
  intros Hf. induction xs as [|x xs IH]; simpl; [apply Logged_ret|].
  apply Logged_bind; [apply Hf|]. by intros [].
Qed.

Lemma Logged_exec_stmts ss : Forall Logged ss → Logged (exec_stmts ss).
Proof.
  induction 1 as [|s ss Hs _ IH]; simpl; [apply Logged_ret|].
  apply Logged_bind; [done|]. by intros [].
Qed.

Lemma Logged_store n v : Logged (store_global n v).
Proof.
  intros w r w' _ Hst. split; [by eapply logged_store|].
  by apply store_global_inv in Hst as (_ & _ & _ & _ & ?).
Qed.

Lemma Logged_load_global n : Logged (load_global n).
Proof. apply Logged_pure. by intros w r w' [-> _]%load_global_inv. Qed.

Lemma Logged_getattr o n : Logged (getattr E o n).
Proof. apply Logged_pure. by intros w r w' [-> _]%getattr_inv. Qed.

Lemma Logged_import_from m n : Logged (import_from m n).
Proof.
  apply Logged_pure. intros w r w'. unfold import_from.
  destruct (module_dict m w !! n); [by intros [= _ <-]|].
  destruct (cached _ w); by intros [= _ <-].
Qed.

Lemma Logged_exported_items m : Logged (exported_items m).
Proof.
  apply Logged_pure. intros w r w'. unfold exported_items.
  destruct (module_dict m w !! "__all__") as [[| | | | |]|]; by intros [= _ <-].
Qed.

Lemma Logged_call_foreign f args : Logged (call_foreign E f args).
Proof.
  intros w r w' Hpkg [(h & _ & _ & ->)|(-> & _)]%call_foreign_inv.
  - split; [by eapply logged_same|done].
  - split; [apply logged_refl|done].
Qed.

Lemma Logged_import_sibling sub :
  split_dots sub = [sub] → Logged (import_name E (ext_body E) (sibling sub)).
Proof.
  intros Hsub w r w' Hpkg Himp. apply import_sibling in Himp; [|done..].
  destruct Himp as [(_ & _ & ->)|[(_ & _ & _ & ->)|
                    [(_ & _ & e & _ & _ & ->)|(_ & _ & d & _ & _ & ->)]]].
  - split; [apply logged_refl|done].
  - split; [apply logged_refl|done].
  - split.
    + eapply logged_same; [done|]. unfold module_dict. simpl.
      by rewrite lookup_delete_ne by apply sibling_ne.
    + apply cached_true. apply cached_true in Hpkg. simpl.
      by rewrite lookup_delete_ne by apply sibling_ne.
  - split.
    + exists [Exec (sibling sub); Bind pkg_name sub]. split; [done|].
      intros n Hn. rewrite bindings_other, bindings_bind in Hn by done.
      case_bool_decide as Hdec; [done|].
      unfold module_dict at 1. simpl. rewrite lookup_insert_eq. simpl.
      apply lookup_insert_ne. intros ->. by apply Hdec.
    + apply cached_true. simpl. by rewrite lookup_insert_eq.
Qed.

Lemma Logged_import_self : Logged (import_name E (ext_body E) pkg_name).
Proof.
  intros w r w' Hpkg Himp. rewrite import_package_cached in Himp by done.
  injection Himp as <- <-. split; [apply logged_refl|done].
Qed.

Lemma Logged_import_dep name :
  Forall (λ m, m ∈ dep_modules ∧ m ≠ pkg_name) (path_names (reverse (split_dots name))) →
  Logged (import_name E (ext_body E) name).
Proof.
  intros Hpaths w r w' Hpkg Himp.
  pose proof (import_dep E _ _ _ _ Hpaths Himp) as ([_ (t & Ht & _)] & _ & Hd & Hc & _).
  split; [by eapply logged_same|congruence].
Qed.

Lemma Logged_import_stmt name :
  name ∈ ["bob.io.base"; "bob.sp"; "bob.extension"] → Logged (import_stmt E name).
Proof.
  intros (Htop & _ & _ & Hpaths)%dep_path_names. unfold import_stmt. rewrite Htop.
  apply Logged_bind; [by apply Logged_import_dep|intros _].
  apply Logged_bind; [|intros; apply Logged_store].
  apply Logged_import_dep. apply (bool_decide_unpack _). by vm_compute.
Qed.

Lemma Logged_handle_fromlist : Logged (handle_fromlist E pkg_name "version").
Proof.
  intros w r w' Hpkg. unfold handle_fromlist.
  destruct (module_dict pkg_name w !! "version").
  { intros [= <- <-]. split; [apply logged_refl|done]. }
  change (pkg_name +:+ "." +:+ "version") with (sibling "version").
  destruct (import_name E (ext_body E) (sibling "version") w) as [[e|[]] w1] eqn:Himp;
    apply (Logged_import_sibling "version") in Himp; try done.
  - case_decide; by intros [= <- <-].
  - by intros [= <- <-].
Qed.

Lemma Logged_statements : Forall Logged (statements E).
Proof.
  unfold statements, preamble. repeat apply Forall_cons_2; try apply Forall_nil_2.
  - apply Logged_import_stmt. by left.
  - apply Logged_import_stmt. right. by left.
  - apply Logged_import_stmt. right. right. by left.
  - unfold attach_library.
    repeat (apply Logged_bind; [|intros ?]);
      auto using Logged_load_global, Logged_getattr, Logged_call_foreign, Logged_ret.
  - unfold from_import_star. apply Logged_bind; [by apply Logged_import_sibling|intros _].
    apply Logged_bind; [apply Logged_exported_items|intros items].
    apply Logged_for_each. intros [| n | | | |]; simpl; try apply Logged_raise.
    apply Logged_bind; [apply Logged_getattr|intros; apply Logged_store].
  - unfold from_package_import.
    apply Logged_bind; [apply Logged_import_self|intros _].
    apply Logged_bind; [apply Logged_handle_fromlist|intros _].
    apply Logged_bind; [apply Logged_import_from|intros; apply Logged_store].
  - unfold from_import. apply Logged_bind; [by apply Logged_import_sibling|intros _].
    apply Logged_for_each. intros na.
    apply Logged_bind; [apply Logged_import_from|intros; apply Logged_store].
  - unfold from_import. apply Logged_bind; [by apply Logged_import_sibling|intros _].
    apply Logged_for_each. intros na.
    apply Logged_bind; [apply Logged_import_from|intros; apply Logged_store].
  - unfold from_import. apply Logged_bind; [by apply Logged_import_sibling|intros _].
    apply Logged_for_each. intros na.
    apply Logged_bind; [apply Logged_import_from|intros; apply Logged_store].
  - apply Logged_store.
  - intros w r w'. unfold assign_all. apply Logged_store.
Qed.

Lemma Logged_module_body : Logged (module_body E).
Proof. apply Logged_exec_stmts, Logged_statements. Qed.

End Logging.

(** ** Successful imports *)

Section Runs.

Variable E : env.

Lemma entry_dict w : module_dict pkg_name (entry E w) = new_module E pkg_name.
Proof. unfold module_dict, entry. simpl. by rewrite lookup_insert_eq. Qed.

Lemma entry_cached w : cached pkg_name (entry E w) = true.
Proof. apply cached_true. unfold entry. simpl. by rewrite lookup_insert_eq. Qed.

Lemma entry_other w m :
  m ≠ pkg_name → sys_modules (entry E w) !! m = sys_modules w !! m.
Proof. intros Hm. unfold entry. simpl. by rewrite lookup_insert_ne. Qed.

Lemma registered_other w m :
  m ≠ "bob.ip" → sys_modules (registered w) !! m = sys_modules w !! m.
Proof. intros Hm. unfold registered. simpl. by rewrite lookup_insert_ne. Qed.

Lemma registered_dict w m :
  m ≠ "bob.ip" → module_dict m (registered w) = module_dict m w.
Proof. intros Hm. unfold module_dict. by rewrite registered_other. Qed.

Lemma registered_trace w :
  trace (registered w) = trace w ++ [Bind "bob.ip" "gabor"].
Proof. done. Qed.

Lemma import_package_ok w0 w1 :
  cached pkg_name w0 = false →
  import_package E w0 = (inr (), w1) →
  ∃ wp wb,
    step (λ m, m ∈ ["bob.ip"; "bob"]) (ev_on (λ m, m ∈ ["bob.ip"; "bob"])) w0 wp ∧
    (∀ m, cached m w0 = true → cached m wp = true) ∧
    module_body E (entry E wp) = (inr (), wb) ∧ w1 = registered wb.
Proof.
  intros Hc Himp.
  apply import_package_inv in Himp as (wp & Hstep & _ & Hmono & _ & Hcases); [|done].
  destruct Hcases as [(e & ? & _)|(_ & _ & rb & wb & Hbody & Hrb)]; [done|].
  destruct rb as [e|[]]; [by destruct Hrb|]. destruct Hrb as [_ ->].
  by exists wp, wb.
Qed.

Lemma module_body_split wa wb :
  module_body E wa = (inr (), wb) →
  ∃ w10, exec_stmts (preamble E) wa = (inr (), w10) ∧ assign_all w10 = (inr (), wb).
Proof.
  unfold module_body, statements. rewrite exec_stmts_app.
  destruct (exec_stmts (preamble E) wa) as [[e|[]] w10]; [done|].
  simpl. intros ([] & w & Hall & [= <-])%bind_ok. by exists w10.
Qed.

(** Lines 2 to 6 together. *)
Lemma deps_ok wa w1 w2 w3 :
  import_stmt E "bob.io.base" wa = (inr (), w1) →
  import_stmt E "bob.sp" w1 = (inr (), w2) →
  import_stmt E "bob.extension" w2 = (inr (), w3) →
  step (λ m, m ∈ pkg_name :: dep_modules) dep_event wa w3 ∧
  (∀ m, cached m wa = true → cached m w3 = true) ∧
  module_dict pkg_name w3 = <["bob" := VModule "bob"]> (module_dict pkg_name wa) ∧
  cached "bob.io.base" w3 = true ∧ cached "bob.sp" w3 = true ∧
  cached "bob.extension" w3 = true ∧ cached pkg_name w3 = true ∧
  ∃ ta tb tc, trace w3 = trace wa ++ ta ++ [Bind pkg_name "bob"] ++ tb ++
                         [Bind pkg_name "bob"] ++ tc ++ [Bind pkg_name "bob"].
Proof.
  intros H1 H2 H3.
  apply import_stmt_dep in H1 as (Hs1 & Hm1 & Hok1); [|by left].
  apply import_stmt_dep in H2 as (Hs2 & Hm2 & Hok2); [|right; by left].
  apply import_stmt_dep in H3 as (Hs3 & Hm3 & Hok3); [|right; right; by left].
  destruct (Hok1 eq_refl) as (Hc1 & _ & Hd1 & ta & Ht1).
  destruct (Hok2 eq_refl) as (Hc2 & _ & Hd2 & tb & Ht2).
  destruct (Hok3 eq_refl) as (Hc3 & Hcp & Hd3 & tc & Ht3).
  split_and!; [|by auto|..|by auto|by auto|done|done|].
  - eapply step_trans; [exact Hs1|]. by eapply step_trans.
  - by rewrite Hd3, Hd2, Hd1, !insert_insert_eq.
  - exists ta, tb, tc. rewrite Ht3, Ht2, Ht1. by rewrite <-!app_assoc.
Qed.

(** The states between the statements of a successful run of the body. *)
Lemma body_states wa wb :
  cached pkg_name wa = true →
  module_body E wa = (inr (), wb) →
  ∃ w1 w2 w3 w4 w5 w6 w7 w8 w9 w10,
    import_stmt E "bob.io.base" wa = (inr (), w1) ∧
    import_stmt E "bob.sp" w1 = (inr (), w2) ∧
    import_stmt E "bob.extension" w2 = (inr (), w3) ∧
    attach_library E w3 = (inr (), w4) ∧
    from_import_star E "_library" w4 = (inr (), w5) ∧
    from_package_import E "version" w5 = (inr (), w6) ∧
    from_import E "version" [("module", "__version__")] w6 = (inr (), w7) ∧
    from_import E "version" [("api", "__api_version__")] w7 = (inr (), w8) ∧
    from_import E "auxiliar" [("load_jets", "load_jets"); ("save_jets", "save_jets")] w8
      = (inr (), w9) ∧
    def_get_config w9 = (inr (), w10) ∧
    assign_all w10 = (inr (), wb) ∧
    cached pkg_name w3 = true ∧ cached pkg_name w4 = true ∧
    cached pkg_name w5 = true ∧ cached pkg_name w6 = true ∧
    cached pkg_name w7 = true ∧ cached pkg_name w8 = true ∧
    cached pkg_name w9 = true ∧ cached pkg_name w10 = true ∧
    reexports w4 w5 ∧ reexports w5 w6 ∧ reexports w6 w7 ∧ reexports w7 w8 ∧
    reexports w8 w9 ∧ reexports w9 w10 ∧ reexports w10 wb.
Proof.
  intros Hca (w1 & w2 & w3 & w4 & w5 & w6 & w7 & w8 & w9 & w10 &
              H1 & H2 & H3 & H4 & H5 & H6 & H7 & H8 & H9 & H10 & H11)%module_body_inv.
  exists w1, w2, w3, w4, w5, w6, w7, w8, w9, w10.
  pose proof (deps_ok _ _ _ _ H1 H2 H3) as (_ & _ & _ & _ & _ & _ & Hc3 & _).
  assert (cached pkg_name w4 = true) as Hc4.
  { unfold cached. by rewrite (attach_library_frame E _ _ _ H4). }
  pose proof (from_import_star_ok E _ _ Hc4 H5) as (_ & R5 & _).
  pose proof R5 as (_ & _ & _ & Hc5).
  pose proof (from_package_import_ok E _ _ Hc5 H6) as (_ & R6 & _).
  pose proof R6 as (_ & _ & _ & Hc6).
  assert (sibling "version" ∈ siblings) as Hsv by (right; by left).
  assert (sibling "auxiliar" ∈ siblings) as Hsa by (right; right; by left).
  pose proof (from_import_ok E "version" _ _ _ eq_refl Hsv Hc6 H7) as (_ & R7 & _).
  pose proof R7 as (_ & _ & _ & Hc7).
  pose proof (from_import_ok E "version" _ _ _ eq_refl Hsv Hc7 H8) as (_ & R8 & _).
  pose proof R8 as (_ & _ & _ & Hc8).
  pose proof (from_import_ok E "auxiliar" _ _ _ eq_refl Hsa Hc8 H9) as (_ & R9 & _).
  pose proof R9 as (_ & _ & _ & Hc9).
  pose proof (def_get_config_ok _ _ _ H10) as (_ & R10 & _).
  pose proof R10 as (_ & _ & _ & Hc10).
  pose proof (assign_all_ok _ _ _ H11) as (_ & R11 & _).
  split_and!; done.
Qed.

End Runs.

Ltac by_computation := apply (bool_decide_unpack _); by vm_compute.

Section Bindings.

Variable E : env.

(** What lines 12 to 22 keep once line 11 has run: the names they do not
    bind themselves, the name [version], and the loaded modules. *)
Lemma tail_keeps w7 w8 w9 w10 wb :
  cached pkg_name w7 = true → cached (sibling "version") w7 = true →
  from_import E "version" [("api", "__api_version__")] w7 = (inr (), w8) →
  from_import E "auxiliar" [("load_jets", "load_jets"); ("save_jets", "save_jets")] w8
    = (inr (), w9) →
  def_get_config w9 = (inr (), w10) →
  assign_all w10 = (inr (), wb) →
  cached (sibling "auxiliar") w9 = true ∧ stable w7 wb ∧ stable w8 wb ∧ stable w9 wb ∧
  (∀ k, k ∉ ["__api_version__"; "auxiliar"; "load_jets"; "save_jets";
             "get_config"; "__all__"] →
        module_dict pkg_name wb !! k = module_dict pkg_name w7 !! k) ∧
  (∀ k, k ∉ ["auxiliar"; "load_jets"; "save_jets"; "get_config"; "__all__"] →
        module_dict pkg_name wb !! k = module_dict pkg_name w8 !! k) ∧
  (∀ k, k ∉ ["get_config"; "__all__"] →
        module_dict pkg_name wb !! k = module_dict pkg_name w9 !! k).
Proof.
  intros Hc7 Hcv7 H8 H9 H10 H11.
  assert (sibling "version" ∈ siblings) as Hsv by (right; by left).
  assert (sibling "auxiliar" ∈ siblings) as Hsa by (right; right; by left).
  pose proof (from_import_ok E "version" _ _ _ eq_refl Hsv Hc7 H8)
    as (_ & R8 & _ & _ & K8 & _).
  specialize (K8 Hcv7).
  pose proof R8 as (_ & _ & St8 & Hc8).
  pose proof (from_import_ok E "auxiliar" _ _ _ eq_refl Hsa Hc8 H9)
    as (_ & R9 & Hca9 & K9 & _).
  pose proof R9 as (_ & _ & St9 & Hc9).
  pose proof (def_get_config_ok _ _ _ H10) as (_ & (_ & _ & St10 & _) & Hd10).
  pose proof (assign_all_ok _ _ _ H11) as (_ & (_ & _ & St11 & _) & Hdb).
  assert (∀ k, k ∉ ["get_config"; "__all__"] →
               module_dict pkg_name wb !! k = module_dict pkg_name w9 !! k) as Kb.
  { intros k Hk. rewrite !not_elem_of_cons in Hk. destruct Hk as (? & ? & _).
    by rewrite Hdb, lookup_insert_ne, Hd10, lookup_insert_ne. }
  assert (∀ k, k ∉ ["auxiliar"; "load_jets"; "save_jets"; "get_config"; "__all__"] →
               module_dict pkg_name wb !! k = module_dict pkg_name w8 !! k) as K8b.
  { intros k Hk. rewrite !not_elem_of_cons in Hk.
    destruct Hk as (? & ? & ? & ? & ? & _).
    rewrite Kb, K9; [done..| |].
    - simpl. rewrite !not_elem_of_cons. split_and!; [done..|apply not_elem_of_nil].
    - rewrite !not_elem_of_cons. split_and!; [done..|apply not_elem_of_nil]. }
  assert (stable w9 wb) as St9b by (by eapply stable_trans).
  assert (stable w8 wb) as St8b by (by eapply stable_trans).
  split_and!; [done|by eapply stable_trans|done|done| |done|done].
  intros k Hk. rewrite !not_elem_of_cons in Hk.
  destruct Hk as (? & ? & ? & ? & ? & ? & _).
  rewrite K8b, K8; [done| |].
  - simpl. rewrite !not_elem_of_cons. split_and!; [done..|apply not_elem_of_nil].
  - rewrite !not_elem_of_cons. split_and!; [done..|apply not_elem_of_nil].
Qed.

(** Lines 10 and 11 bind [version] to the sibling module when it was not
    loaded before. *)
Lemma version_module w5 w6 w7 :
  cached pkg_name w5 = true → cached (sibling "version") w5 = false →
  from_package_import E "version" w5 = (inr (), w6) →
  from_import E "version" [("module", "__version__")] w6 = (inr (), w7) →
  module_dict pkg_name w7 !! "version" = Some (VModule (sibling "version")).
Proof.
  intros Hc5 Hnc5 H6 H7.
  assert (sibling "version" ∈ siblings) as Hsv by (right; by left).
  pose proof (from_package_import_ok E _ _ Hc5 H6) as (_ & (_ & _ & _ & Hc6) & _ & _ & Hmod).
  pose proof (from_import_ok E "version" _ _ _ eq_refl Hsv Hc6 H7)
    as (_ & _ & _ & _ & Kc & Kn & _).
  destruct (cached (sibling "version") w6) eqn:Hcv6.
  - rewrite (Kc eq_refl) by by_computation. by apply Hmod.
  - apply Kn; [done|]. by_computation.
Qed.

(** A sibling that was not loaded before the import is not loaded before
    line 10 either, unless it is the native library. *)
Lemma fresh_sibling m wp w1 w2 w3 w4 w5 w0 :
  m ∉ pkg_name :: sibling "_library" :: "bob.ip" :: dep_modules →
  step (λ m, m ∈ ["bob.ip"; "bob"]) (ev_on (λ m, m ∈ ["bob.ip"; "bob"])) w0 wp →
  import_stmt E "bob.io.base" (entry E wp) = (inr (), w1) →
  import_stmt E "bob.sp" w1 = (inr (), w2) →
  import_stmt E "bob.extension" w2 = (inr (), w3) →
  attach_library E w3 = (inr (), w4) →
  cached pkg_name w4 = true →
  from_import_star E "_library" w4 = (inr (), w5) →
  sys_modules w5 !! m = sys_modules w0 !! m.
Proof.
  intros Hm Hstep H1 H2 H3 H4 Hc4 H5. rewrite !not_elem_of_cons in Hm.
  destruct Hm as (? & ? & ? & Hdep).
  pose proof (deps_ok _ _ _ _ _ H1 H2 H3) as ([Hdeps _] & _).
  pose proof (from_import_star_ok E _ _ Hc4 H5) as ([Hstar _] & _).
  destruct Hstep as [Hpar _].
  rewrite Hstar, (attach_library_frame _ _ _ _ H4), Hdeps, entry_other, Hpar; [done| |done|..].
  - rewrite !not_elem_of_cons. split_and!; [done| |apply not_elem_of_nil].
    intros ->. apply Hdep. by left.
  - rewrite not_elem_of_cons. done.
  - rewrite !not_elem_of_cons. split_and!; [done..|apply not_elem_of_nil].
Qed.

(** The states of a successful import of a package that was not in
    [sys.modules]: the state [wp] after the parents are imported and the
    states between the statements of the body. *)
Lemma import_states w0 w1 :
  cached pkg_name w0 = false →
  import_package E w0 = (inr (), w1) →
  ∃ wp wa1 wa2 w3 w4 w5 w6 w7 w8 w9 w10 wb,
    w1 = registered wb ∧
    module_body E (entry E wp) = (inr (), wb) ∧
    step (λ m, m ∈ ["bob.ip"; "bob"]) (ev_on (λ m, m ∈ ["bob.ip"; "bob"])) w0 wp ∧
    (∀ m, cached m w0 = true → cached m wp = true) ∧
    import_stmt E "bob.io.base" (entry E wp) = (inr (), wa1) ∧
    import_stmt E "bob.sp" wa1 = (inr (), wa2) ∧
    import_stmt E "bob.extension" wa2 = (inr (), w3) ∧
    attach_library E w3 = (inr (), w4) ∧
    from_import_star E "_library" w4 = (inr (), w5) ∧
    from_package_import E "version" w5 = (inr (), w6) ∧
    from_import E "version" [("module", "__version__")] w6 = (inr (), w7) ∧
    from_import E "version" [("api", "__api_version__")] w7 = (inr (), w8) ∧
    from_import E "auxiliar" [("load_jets", "load_jets"); ("save_jets", "save_jets")] w8
      = (inr (), w9) ∧
    def_get_config w9 = (inr (), w10) ∧
    assign_all w10 = (inr (), wb) ∧
    cached pkg_name w3 = true ∧ cached pkg_name w4 = true ∧
    cached pkg_name w5 = true ∧ cached pkg_name w6 = true ∧
    cached pkg_name w7 = true ∧ cached pkg_name w8 = true ∧
    cached pkg_name w9 = true ∧ cached pkg_name w10 = true ∧
    reexports w4 w5 ∧ reexports w5 w6 ∧ reexports w6 w7 ∧ reexports w7 w8 ∧
    reexports w8 w9 ∧ reexports w9 w10 ∧ reexports w10 wb.
Proof.
  intros Hc Himp.
  apply import_package_ok in Himp as (wp & wb & Hstep & Hmono & Hbody & ->); [|done].
  pose proof Hbody as Hstates. apply body_states in Hstates
    as (w1 & w2 & w3 & w4 & w5 & w6 & w7 & w8 & w9 & w10 & Hstates); [|apply entry_cached].
  exists wp, w1, w2, w3, w4, w5, w6, w7, w8, w9, w10, wb.
  do 4 (split; [done|]). exact Hstates.
Qed.

End Bindings.

Section Order.

Variable E : env.

Lemma import_names_trace m (names : list (string * string)) w w' :
  for_each (λ na, v ← import_from m na.1 ; store_global na.2 v) names w = (inr (), w') →
  trace w' = trace w ++ (Bind pkg_name <$> names.*2).
Proof.
  revert w. induction names as [|[n0 a0] names IH]; intros w; simpl.
  { intros [= <-]. by rewrite app_nil_r. }
  intros ([] & w1 & Hone & Hrest)%bind_ok.
  apply bind_ok in Hone as (v & wx & Hfrom & Hst).
  assert (wx = w) as ->.
  { unfold import_from in Hfrom. destruct (module_dict m w !! n0); [by simplify_eq|].
    destruct (cached (m +:+ "." +:+ n0) w); by simplify_eq. }
  apply store_global_inv in Hst as (_ & _ & _ & Ht & _).
  rewrite (IH _ Hrest), Ht. by rewrite <-app_assoc.
Qed.

Lemma from_import_trace sub names w w' :
  split_dots sub = [sub] → sibling sub ∈ siblings → cached pkg_name w = true →
  from_import E sub names w = (inr (), w') →
  ∃ t, trace w' = trace w ++ t ++ (Bind pkg_name <$> names.*2).
Proof.
  intros Hsub Hsib Hpkg. unfold from_import.
  intros ([] & w1 & Himp & Hfor)%bind_ok.
  pose proof (import_sibling_stable E sub _ _ _ Hsub Hsib Hpkg Himp)
    as ([_ (t & Ht & _)] & _).
  exists t. by rewrite (import_names_trace _ _ _ _ Hfor), Ht, app_assoc.
Qed.

End Order.

(** ** The namespace and the trace of a successful import *)

Lemma binds_app t1 t2 : binds (t1 ++ t2) = binds t1 ++ binds t2.
Proof. apply omap_app. Qed.

Lemma binds_bind n t : binds (Bind pkg_name n :: t) = n :: binds t.
Proof. reflexivity. Qed.

Lemma binds_other ev t : (∀ k, ev ≠ Bind pkg_name k) → binds (ev :: t) = binds t.
Proof.
  intros Hev. destruct ev as [m| |m k]; [done..|].
  unfold binds. simpl. case_decide as Hm; [|done]. subst m. by destruct (Hev k).
Qed.

Lemma binds_binds (l : list string) : binds (Bind pkg_name <$> l) = l.
Proof. induction l as [|n l IH]; [done|]. rewrite fmap_cons, binds_bind. by f_equal. Qed.

Lemma binds_ev_on (P : string → Prop) t :
  ¬ P pkg_name → Forall (ev_on P) t → binds t = [].
Proof.
  intros HP. induction 1 as [|ev t Hev _ IH]; [done|].
  rewrite binds_other; [done|]. intros k ->. by apply HP.
Qed.

Lemma bindings_binds n t : bindings n t = length (filter (λ k, k = n) (binds t)).
Proof.
  induction t as [|ev t IH]; [done|]. destruct ev as [m| |m k].
  - by rewrite bindings_other, binds_other.
  - by rewrite bindings_other, binds_other.
  - destruct (decide (m = pkg_name)) as [->|Hm].
    + rewrite bindings_bind, binds_bind, filter_cons, IH.
      case_bool_decide as Hb; case_decide as Hk; simpl; try done.
      * by destruct Hb as [_ ?].
      * destruct Hb. by split.
    + rewrite bindings_other, binds_other, IH; [done|..]; by intros k' [=].
Qed.

Lemma filter_eq_not_elem_of (n : string) l : n ∉ l → filter (λ k, k = n) l = [].
Proof.
  induction l as [|k l IH]; [done|]. intros [Hk Hn]%not_elem_of_cons.
  rewrite filter_cons, decide_False by (by intros ->). by apply IH.
Qed.

Section Namespace.

Variable E : env.

(** The loop of the star import reads every item off the module and binds
    it under its name. *)
Lemma import_items_bound m items w w' :
  m ≠ pkg_name →
  for_each (import_item E m) items w = (inr (), w') →
  module_dict m w' = module_dict m w ∧
  (∀ item, item ∈ items → ∃ k v, item = VStr k ∧ module_dict m w !! k = Some v) ∧
  (∀ k, VStr k ∈ items ∨ module_dict pkg_name w !! k = module_dict m w !! k →
        module_dict pkg_name w' !! k = module_dict m w !! k).
Proof.
  intros Hm. revert w. induction items as [|item items IH]; intros w; simpl.
  { intros [= <-]. split_and!; [done| |].
    - by intros item ?%elem_of_nil.
    - by intros k [?%elem_of_nil|?]. }
  intros ([] & w1 & Hitem & Hrest)%bind_ok.
  destruct item as [|n| | | |]; try done. simpl in Hitem.
  apply bind_ok in Hitem as (v & w0 & Hget & Hst).
  apply getattr_inv in Hget
    as [-> [(m' & v' & [= <-] & Hv & [= <-])|[(h & [=] & _)|[=]]]].
  apply store_global_inv in Hst as (_ & Hd & Hother & _ & _).
  assert (module_dict m w1 = module_dict m w) as Hm1.
  { unfold module_dict. by rewrite Hother. }
  apply IH in Hrest as (Hmd & Hall & Hsync). rewrite Hm1 in Hmd, Hall, Hsync.
  split_and!; [done| |].
  - intros item [->|Hin]%elem_of_cons; [by eauto|by apply Hall].
  - intros k Hk. apply Hsync. destruct (decide (k = n)) as [->|Hne].
    + right. by rewrite Hd, lookup_insert_eq, Hv.
    + destruct Hk as [[[= ?]|Hin]%elem_of_cons|Hs]; [done|by left|].
      right. by rewrite Hd, lookup_insert_ne.
Qed.

Lemma from_import_star_binds w w' items :
  cached pkg_name w = true →
  from_import_star E "_library" w = (inr (), w') →
  exported_items (sibling "_library") w' = (inr items, w') →
  (∀ item, item ∈ items → ∃ k v, item = VStr k ∧
      module_dict (sibling "_library") w' !! k = Some v ∧
      module_dict pkg_name w' !! k = Some v) ∧
  (VStr "_library" ∉ items →
     (cached (sibling "_library") w = false →
        module_dict pkg_name w' !! "_library" = Some (VModule (sibling "_library"))) ∧
     (cached (sibling "_library") w = true →
        module_dict pkg_name w' !! "_library" = module_dict pkg_name w !! "_library")).
Proof.
  intros Hpkg. unfold from_import_star.
  intros ([] & w1 & Himp & H1)%bind_ok Hex.
  apply bind_ok in H1 as (items' & w2 & Hitems & Hfor).
  assert (w2 = w1) as ->.
  { unfold exported_items in Hitems.
    destruct (module_dict _ w1 !! "__all__") as [[| | | | |]|]; by simplify_eq. }
  assert (sibling "_library" ∈ siblings) as Hsib by (by left).
  apply import_sibling_ok in Himp as (_ & _ & _ & _ & _ & Hstale & Hfresh); [|done..].
  pose proof (import_items_step E _ _ _ _ _ (sibling_ne _) Hfor) as (_ & _ & Hkeep & _).
  apply import_items_bound in Hfor as (Hmd & Hall & Hsync); [|apply sibling_ne].
  assert (items' = items) as ->.
  { eapply exported_items_dict in Hitems; [|exact Hmd]. rewrite Hex in Hitems.
    by simplify_eq. }
  split.
  - intros item Hin. destruct (Hall _ Hin) as (k & v & -> & Hv). exists k, v.
    rewrite Hmd. split_and!; [done..|]. rewrite Hsync by (by left). done.
  - intros Hno. split; intros Hc; rewrite Hkeep by done.
    + by apply Hfresh.
    + by rewrite (Hstale Hc).
Qed.

(** The states of a successful import the theorems below look at: after
    the loader, after the star import, before and after the import of
    [auxiliar], and before line 22. *)
Lemma import_chain w0 w1 :
  cached pkg_name w0 = false →
  import_package E w0 = (inr (), w1) →
  ∃ w4 w5 w8 w9 w10,
    (∀ m, m ∉ "bob.ip" :: pkg_name :: dep_modules →
          sys_modules w4 !! m = sys_modules w0 !! m) ∧
    cached pkg_name w4 = true ∧
    module_dict pkg_name w4 = <["bob" := VModule "bob"]> (new_module E pkg_name) ∧
    from_import_star E "_library" w4 = (inr (), w5) ∧
    (∀ m, m ∉ [pkg_name; sibling "_library"] →
          sys_modules w5 !! m = sys_modules w4 !! m) ∧
    (∀ m, m ∉ [pkg_name; sibling "version"] →
          sys_modules w8 !! m = sys_modules w5 !! m) ∧
    (∀ k, k ∉ ["version"; "__version__"; "__api_version__"] →
          module_dict pkg_name w8 !! k = module_dict pkg_name w5 !! k) ∧
    cached pkg_name w8 = true ∧
    from_import E "auxiliar" [("load_jets", "load_jets"); ("save_jets", "save_jets")] w8
      = (inr (), w9) ∧
    module_dict pkg_name w10
      = <["get_config" := VDef "get_config"]> (module_dict pkg_name w9) ∧
    module_dict pkg_name w1
      = <["__all__" := VList (VStr <$> filter public (dir (module_dict pkg_name w10)))]>
          (module_dict pkg_name w10) ∧
    module_dict (sibling "_library") w1 = module_dict (sibling "_library") w5.
Proof.
  intros Hc0 Himp.
  apply import_states in Himp
    as (wp & wa1 & wa2 & w3 & w4 & w5 & w6 & w7 & w8 & w9 & w10 & wb & -> & Hbody &
        Hstep & Hmono & H1 & H2 & H3 & H4 & H5 & H6 & H7 & H8 & H9 & H10 & H11 &
        Hc3 & Hc4 & Hc5 & Hc6 & Hc7 & Hc8 & Hc9 & Hc10 &
        R5 & R6 & R7 & R8 & R9 & R10 & R11); [|done].
  exists w4, w5, w8, w9, w10.
  pose proof (deps_ok E _ _ _ _ H1 H2 H3) as ([Hdeps _] & _ & Hd3 & _).
  pose proof (attach_library_frame E _ _ _ H4) as Hsm4.
  pose proof (from_import_star_ok E _ _ Hc4 H5) as ([Hf5 _] & _ & Hcl5 & _).
  pose proof (from_package_import_ok E _ _ Hc5 H6) as ([Hf6 _] & _ & Hk6 & _).
  assert (sibling "version" ∈ siblings) as Hsv by (right; by left).
  pose proof (from_import_ok E "version" _ _ _ eq_refl Hsv Hc6 H7)
    as ([Hf7 _] & _ & _ & Hk7 & _).
  pose proof (from_import_ok E "version" _ _ _ eq_refl Hsv Hc7 H8)
    as ([Hf8 _] & _ & _ & Hk8 & _).
  apply def_get_config_ok in H10 as (_ & _ & Hd10).
  apply assign_all_ok in H11 as (_ & _ & Hd11).
  destruct Hstep as [Hpar _].
  split_and!; [|done| |done|done| | |done|done|done| |].
  - intros m Hm. rewrite !not_elem_of_cons in Hm. destruct Hm as (Hip & Hpkg & Hdep).
    rewrite Hsm4, Hdeps, entry_other, Hpar; [done| |done|].
    + rewrite !not_elem_of_cons. split_and!; [done| |apply not_elem_of_nil].
      intros ->. apply Hdep. by left.
    + rewrite not_elem_of_cons. done.
  - unfold module_dict at 1. rewrite Hsm4. fold (module_dict pkg_name w3).
    by rewrite Hd3, entry_dict.
  - intros m Hm. by rewrite Hf8, Hf7, Hf6.
  - intros k Hk. rewrite !not_elem_of_cons in Hk. destruct Hk as (? & ? & ? & _).
    rewrite Hk8, Hk7, Hk6;
      first [done|simpl; rewrite !not_elem_of_cons; split; [done|apply not_elem_of_nil]].
  - rewrite registered_dict by done. exact Hd11.
  - rewrite registered_dict by done.
    pose proof (reexports_trans _ _ _ R6
                  (reexports_trans _ _ _ R7
                     (reexports_trans _ _ _ R8
                        (reexports_trans _ _ _ R9
                           (reexports_trans _ _ _ R10 R11))))) as (_ & _ & Hst & _).
    unfold module_dict. rewrite Hst; [done|apply sibling_ne|done].
Qed.

(** What lines 10 to 22 leave of the namespace as line 9 made it. *)
Lemma import_chain_keeps w8 w9 w10 w1 k :
  cached pkg_name w8 = true →
  from_import E "auxiliar" [("load_jets", "load_jets"); ("save_jets", "save_jets")] w8
    = (inr (), w9) →
  module_dict pkg_name w10
    = <["get_config" := VDef "get_config"]> (module_dict pkg_name w9) →
  module_dict pkg_name w1
    = <["__all__" := VList (VStr <$> filter public (dir (module_dict pkg_name w10)))]>
        (module_dict pkg_name w10) →
  k ∉ ["auxiliar"; "load_jets"; "save_jets"; "get_config"; "__all__"] →
  module_dict pkg_name w1 !! k = module_dict pkg_name w8 !! k.
Proof.
  intros Hc8 H9 Hd10 Hd1 Hk. rewrite !not_elem_of_cons in Hk.
  destruct Hk as (? & ? & ? & ? & ? & _).
  assert (sibling "auxiliar" ∈ siblings) as Hsa by (right; right; by left).
  pose proof (from_import_ok E "auxiliar" _ _ _ eq_refl Hsa Hc8 H9)
    as (_ & _ & _ & Hk9 & _).
  rewrite Hd1, lookup_insert_ne, Hd10, lookup_insert_ne, Hk9;
    first [done|simpl; rewrite !not_elem_of_cons; split_and!; [done..|apply not_elem_of_nil]].
Qed.


(** *** The trace of each statement of lines 9 to 13 *)

Lemma import_sibling_trace sub w w' :
  split_dots sub = [sub] → sibling sub ∈ siblings → cached pkg_name w = true →
  import_name E (ext_body E) (sibling sub) w = (inr (), w') →
  cached (sibling sub) w' = true ∧
  trace w' = trace w ++
    (if cached (sibling sub) w then [] else [Exec (sibling sub); Bind pkg_name sub]).
Proof.
  intros Hsub Hsib Hpkg Himp.
  pose proof (import_sibling_ok E sub _ _ Hsub Hsib Hpkg Himp) as (_ & _ & _ & Hc & _).
  split; [done|]. apply import_sibling in Himp; [|done..].
  destruct Himp as [(-> & _ & ->)|[(_ & _ & ? & _)|[(_ & _ & e & _ & ? & _)|
                    (-> & _ & d & _ & _ & ->)]]]; [|done..].
  by rewrite app_nil_r.
Qed.

Lemma import_items_trace m items w w' :
  for_each (import_item E m) items w = (inr (), w') →
  ∃ names, items = VStr <$> names ∧ trace w' = trace w ++ (Bind pkg_name <$> names).
Proof.
  revert w. induction items as [|item items IH]; intros w; simpl.
  { intros [= <-]. exists []. by rewrite app_nil_r. }
  intros ([] & w1 & Hitem & Hrest)%bind_ok.
  destruct item as [|n| | | |]; try done. simpl in Hitem.
  apply bind_ok in Hitem as (v & w0 & [-> _]%getattr_inv & Hst).
  apply store_global_inv in Hst as (_ & _ & _ & Ht & _).
  apply IH in Hrest as (names & -> & Hrest).
  exists (n :: names). split; [done|]. rewrite Hrest, Ht. by rewrite <-app_assoc.
Qed.

Lemma from_import_star_trace w w' :
  cached pkg_name w = true →
  from_import_star E "_library" w = (inr (), w') →
  ∃ names,
    exported_items (sibling "_library") w' = (inr (VStr <$> names), w') ∧
    trace w' = trace w ++
      (if cached (sibling "_library") w then []
       else [Exec (sibling "_library"); Bind pkg_name "_library"]) ++
      (Bind pkg_name <$> names).
Proof.
  intros Hpkg. unfold from_import_star.
  intros ([] & w1 & Himp & H1)%bind_ok.
  apply bind_ok in H1 as (items & w2 & Hitems & Hfor).
  assert (w2 = w1) as ->.
  { unfold exported_items in Hitems.
    destruct (module_dict _ w1 !! "__all__") as [[| | | | |]|]; by simplify_eq. }
  apply import_sibling_trace in Himp as (_ & Ht1); [|done|by left|done].
  pose proof (import_items_bound _ _ _ _ (sibling_ne _) Hfor) as (Hmd & _).
  apply import_items_trace in Hfor as (names & -> & Ht2).
  exists names. split.
  - eapply exported_items_dict; [exact Hmd|exact Hitems].
  - rewrite Ht2, Ht1. by rewrite <-app_assoc.
Qed.

Lemma from_import_exact sub names w w' :
  split_dots sub = [sub] → sibling sub ∈ siblings → cached pkg_name w = true →
  from_import E sub names w = (inr (), w') →
  cached (sibling sub) w' = true ∧
  trace w' = trace w ++
    (if cached (sibling sub) w then [] else [Exec (sibling sub); Bind pkg_name sub]) ++
    (Bind pkg_name <$> names.*2).
Proof.
  intros Hsub Hsib Hpkg Hfi.
  pose proof (from_import_ok E sub _ _ _ Hsub Hsib Hpkg Hfi) as (_ & _ & Hc & _).
  split; [done|]. unfold from_import in Hfi.
  apply bind_ok in Hfi as ([] & w1 & Himp & Hfor).
  apply import_sibling_trace in Himp as (_ & Ht); [|done..].
  apply import_names_trace in Hfor. rewrite Hfor, Ht. by rewrite <-app_assoc.
Qed.

(** Line 10: the module [version] is loaded when the package has no such
    attribute yet and the module is not in [sys.modules]; the name is bound
    to what is found, which is the module when the package had no such
    attribute. *)
Lemma from_package_import_trace w w' :
  cached pkg_name w = true →
  from_package_import E "version" w = (inr (), w') →
  ∃ tv, trace w' = trace w ++ tv ++ [Bind pkg_name "version"] ∧
    ((tv = [] ∧ cached (sibling "version") w' = cached (sibling "version") w) ∨
     (tv = [Exec (sibling "version"); Bind pkg_name "version"] ∧
      cached (sibling "version") w = false ∧ cached (sibling "version") w' = true)) ∧
    (module_dict pkg_name w !! "version" = None →
       module_dict pkg_name w' !! "version" = Some (VModule (sibling "version")) ∧
       cached (sibling "version") w' = true).
Proof.
  intros Hpkg. unfold from_package_import.
  intros ([] & w0 & Hself & H1)%bind_ok.
  rewrite import_package_cached in Hself by done. injection Hself as <-.
  apply bind_ok in H1 as ([] & w1 & Hfl & H2).
  apply bind_ok in H2 as (v & w2 & Hfrom & Hst).
  assert (sibling "version" ∈ siblings) as Hsib by (right; by left).
  assert (w2 = w1) as ->.
  { unfold import_from in Hfrom. destruct (module_dict pkg_name w1 !! "version").
    - by simplify_eq.
    - destruct (cached (pkg_name +:+ "." +:+ "version") w1); by simplify_eq. }
  apply store_global_inv in Hst as (_ & Hd & Hother & Htr & _).
  assert (cached (sibling "version") w' = cached (sibling "version") w1) as Hcv.
  { unfold cached. by rewrite Hother by apply sibling_ne. }
  unfold handle_fromlist in Hfl.
  destruct (module_dict pkg_name w !! "version") as [v0|] eqn:Hattr.
  { injection Hfl as <-. exists []. split; [done|]. split; [by left|]. by intros [=]. }
  change (pkg_name +:+ "." +:+ "version") with (sibling "version") in Hfl.
  destruct (import_name E (ext_body E) (sibling "version") w) as [[e|[]] wi] eqn:Himp.
  - assert (w1 = wi) as -> by (case_decide; by simplify_eq).
    apply import_sibling_raises in Himp as (_ & Hdi & _ & Hnc); [|done..].
    unfold import_from in Hfrom. rewrite Hdi, Hattr in Hfrom.
    change (pkg_name +:+ "." +:+ "version") with (sibling "version") in Hfrom.
    by rewrite Hnc in Hfrom.
  - injection Hfl as <-.
    pose proof (import_sibling_ok E "version" _ _ eq_refl Hsib Hpkg Himp)
      as (_ & _ & _ & _ & _ & Hstale & Hfresh).
    apply import_sibling_trace in Himp as (Hc & Ht); [|done..].
    assert (v = VModule (sibling "version")) as ->.
    { unfold import_from in Hfrom.
      change (pkg_name +:+ "." +:+ "version") with (sibling "version") in Hfrom.
      destruct (cached (sibling "version") w) eqn:Hcw.
      - rewrite (Hstale eq_refl) in Hfrom. rewrite Hattr, Hcw in Hfrom. by simplify_eq.
      - rewrite (Hfresh eq_refl) in Hfrom. by simplify_eq. }
    exists (if cached (sibling "version") w then []
            else [Exec (sibling "version"); Bind pkg_name "version"]).
    split; [by rewrite Htr, Ht, <-app_assoc|]. split.
    + rewrite Hcv, Hc. destruct (cached (sibling "version") w); [by left|by right].
    + intros _. split; [by rewrite Hd, lookup_insert_eq|by rewrite Hcv].
Qed.

(** *** Lines 2 to 6 bind [bob] and nothing else in the package *)

Lemma import_dep_binds name w r w' :
  Forall (λ m, m ∈ dep_modules ∧ m ≠ pkg_name) (path_names (reverse (split_dots name))) →
  import_name E (ext_body E) name w = (r, w') →
  ∃ t, trace w' = trace w ++ t ∧ binds t = [].
Proof.
  intros Hpaths Himp. unfold import_name in Himp.
  apply find_and_load_step in Himp as [[_ (t & Ht & Hev)] _]; [|done].
  exists t. split; [done|]. eapply binds_ev_on; [|exact Hev].
  intros Hin. rewrite Forall_forall in Hpaths. by apply Hpaths in Hin as [_ ?].
Qed.

Lemma import_stmt_binds name w w' :
  name ∈ ["bob.io.base"; "bob.sp"; "bob.extension"] →
  import_stmt E name w = (inr (), w') →
  ∃ t, trace w' = trace w ++ t ∧ binds t = ["bob"].
Proof.
  intros (Htop & Hname & Hne & Hpaths)%dep_path_names. unfold import_stmt.
  rewrite Htop.
  assert (Forall (λ m, m ∈ dep_modules ∧ m ≠ pkg_name)
                 (path_names (reverse (split_dots "bob")))) as Hbob.
  { apply (bool_decide_unpack _). by vm_compute. }
  intros ([] & w1 & H1 & Hrest)%bind_ok.
  apply bind_ok in Hrest as ([] & w2 & H2 & Hst).
  apply import_dep_binds in H1 as (t1 & Ht1 & Hb1); [|done].
  apply import_dep_binds in H2 as (t2 & Ht2 & Hb2); [|done].
  apply store_global_inv in Hst as (_ & _ & _ & Ht & _).
  exists (t1 ++ t2 ++ [Bind pkg_name "bob"]). split.
  - by rewrite Ht, Ht2, Ht1, <-!app_assoc.
  - by rewrite !binds_app, Hb1, Hb2, binds_bind.
Qed.

(** *** The names a successful import binds, in order *)

Lemma import_binds w0 w1 :
  cached pkg_name w0 = false →
  import_package E w0 = (inr (), w1) →
  ∃ wp w4 w5 w8 names t,
    exec_stmts (take 4 (statements E)) (entry E wp) = (inr (), w4) ∧
    exec_stmts (take 5 (statements E)) (entry E wp) = (inr (), w5) ∧
    exec_stmts (take 8 (statements E)) (entry E wp) = (inr (), w8) ∧
    exported_items (sibling "_library") w1 = (inr (VStr <$> names), w1) ∧
    trace w1 = trace w0 ++ t ∧
    binds t =
      ["bob"; "bob"; "bob"] ++
      (if cached (sibling "_library") w4 then [] else ["_library"]) ++ names ++
      "version" :: (if cached (sibling "version") w5 then [] else ["version"]) ++
      ["__version__"; "__api_version__"] ++
      (if cached (sibling "auxiliar") w8 then [] else ["auxiliar"]) ++
      ["load_jets"; "save_jets"; "get_config"; "__all__"].
Proof.
  intros Hc0 Himp.
  apply import_states in Himp
    as (wp & wa1 & wa2 & w3 & w4 & w5 & w6 & w7 & w8 & w9 & w10 & wb & -> & Hbody &
        [_ (tp & Htp & Hevp)] & _ & H1 & H2 & H3 & H4 & H5 & H6 & H7 & H8 & H9 &
        H10 & H11 & Hc3 & Hc4 & Hc5 & Hc6 & Hc7 & Hc8 & Hc9 & Hc10 &
        R5 & R6 & R7 & R8 & R9 & R10 & R11); [|done].
  assert (sibling "version" ∈ siblings) as Hsv by (right; by left).
  assert (sibling "auxiliar" ∈ siblings) as Hsa by (right; right; by left).
  exists wp, w4, w5, w8.
  assert (exec_stmts (take 4 (statements E)) (entry E wp) = (inr (), w4)) as P4.
  { change (take 4 (statements E))
      with [import_stmt E "bob.io.base"; import_stmt E "bob.sp";
            import_stmt E "bob.extension"; attach_library E].
    simpl. rewrite (bind_step _ _ _ _ _ H1), (bind_step _ _ _ _ _ H2).
    by rewrite (bind_step _ _ _ _ _ H3), (bind_step _ _ _ _ _ H4). }
  assert (exec_stmts (take 5 (statements E)) (entry E wp) = (inr (), w5)) as P5.
  { change (take 5 (statements E))
      with (take 4 (statements E) ++ [from_import_star E "_library"]).
    rewrite exec_stmts_app, P4. simpl. by rewrite (bind_step _ _ _ _ _ H5). }
  assert (exec_stmts (take 8 (statements E)) (entry E wp) = (inr (), w8)) as P8.
  { change (take 8 (statements E))
      with (take 5 (statements E) ++
            [from_package_import E "version";
             from_import E "version" [("module", "__version__")];
             from_import E "version" [("api", "__api_version__")]]).
    rewrite exec_stmts_app, P5. simpl.
    rewrite (bind_step _ _ _ _ _ H6), (bind_step _ _ _ _ _ H7).
    by rewrite (bind_step _ _ _ _ _ H8). }
  pose proof (from_import_star_ok E _ _ Hc4 H5) as (_ & _ & Hcl5 & _).
  assert (module_dict (sibling "_library") (registered wb)
          = module_dict (sibling "_library") w5) as Hlib.
  { rewrite registered_dict by done.
    pose proof (reexports_trans _ _ _ R6
                  (reexports_trans _ _ _ R7
                     (reexports_trans _ _ _ R8
                        (reexports_trans _ _ _ R9
                           (reexports_trans _ _ _ R10 R11))))) as (_ & _ & Hst & _).
    unfold module_dict. rewrite Hst; [done|apply sibling_ne|done]. }
  apply import_stmt_binds in H1 as (t1 & Ht1 & Hb1); [|by left].
  apply import_stmt_binds in H2 as (t2 & Ht2 & Hb2); [|right; by left].
  apply import_stmt_binds in H3 as (t3 & Ht3 & Hb3); [|right; right; by left].
  apply attach_library_ok in H4 as (_ & b & ev & h & file & _ & _ & _ & _ & _ & Ht4).
  apply from_import_star_trace in H5 as (names & Hex & Ht5); [|done].
  apply from_package_import_trace in H6 as (tv & Ht6 & Hv6 & _); [|done].
  apply from_import_exact in H7 as (Hv7 & Ht7); [|done..].
  apply from_import_exact in H8 as (_ & Ht8); [|done..].
  apply from_import_exact in H9 as (_ & Ht9); [|done..].
  apply store_global_inv in H10 as (_ & _ & _ & Ht10 & _).
  unfold assign_all in H11. apply store_global_inv in H11 as (_ & _ & _ & Ht11 & _).
  rewrite Hv7 in Ht8.
  assert (pkg_name ∉ ["bob.ip"; "bob"]) as Hnot by by_computation.
  exists names.
  destruct Hv6 as [[-> Hsame]|(-> & Hfr & Hc6')].
  - rewrite Hsame in Ht7. eexists. split_and!; [done..| | |].
    + eapply exported_items_dict; [exact Hlib|exact Hex].
    + rewrite registered_trace, Ht11, Ht10, Ht9, Ht8, Ht7, Ht6, Ht5, Ht4, Ht3, Ht2, Ht1.
      unfold entry. simpl. rewrite Htp. rewrite <-!app_assoc. reflexivity.
    + rewrite !binds_app, (binds_ev_on _ tp Hnot Hevp), Hb1, Hb2, Hb3, !binds_binds.
      destruct (cached (sibling "_library") w4), (cached (sibling "version") w5),
        (cached (sibling "auxiliar") w8); simpl; rewrite <-?app_assoc; reflexivity.
  - rewrite Hc6' in Ht7. rewrite Hfr. eexists. split_and!; [done..| | |].
    + eapply exported_items_dict; [exact Hlib|exact Hex].
    + rewrite registered_trace, Ht11, Ht10, Ht9, Ht8, Ht7, Ht6, Ht5, Ht4, Ht3, Ht2, Ht1.
      unfold entry. simpl. rewrite Htp. rewrite <-!app_assoc. reflexivity.
    + rewrite !binds_app, (binds_ev_on _ tp Hnot Hevp), Hb1, Hb2, Hb3, !binds_binds.
      destruct (cached (sibling "_library") w4), (cached (sibling "auxiliar") w8);
        simpl; rewrite <-?app_assoc; reflexivity.
Qed.

End Namespace.

(** ** Imports that fail *)

Section Failures.

Variable E : env.

(** The import raises what the first failing statement of the body raises,
    and takes the package out of [sys.modules]. *)
Lemma import_fails_at w0 wb wc (pre post : list (M unit)) s e :
  cached pkg_name w0 = false → cached "bob.ip" w0 = true →
  find_spec E pkg_name = true →
  statements E = pre ++ s :: post →
  exec_stmts pre (entry E w0) = (inr (), wb) →
  s wb = (inl e, wc) →
  import_package E w0 = (inl e, unregister wc).
Proof.
  intros Hc Hip Hfs Hsplit Hpre Hs.
  unfold import_package, import_name.
  change (reverse (split_dots pkg_name)) with ["gabor"; "ip"; "bob"].
  rewrite find_and_load_cons.
  change (dotted (reverse ["gabor"; "ip"; "bob"])) with pkg_name.
  change (dotted (reverse ["ip"; "bob"])) with "bob.ip".
  cbv zeta. rewrite Hc, Hip. cbv beta iota. rewrite Hc, Hfs.
  unfold load_unlocked. fold (entry E w0). unfold run_body.
  rewrite decide_True by done. unfold module_body.
  by rewrite Hsplit, (exec_stmts_fail _ _ _ _ _ _ _ Hpre Hs).
Qed.

Lemma prefix_cached n w wn :
  cached pkg_name w = true →
  exec_stmts (take n (statements E)) w = (inr (), wn) →
  cached pkg_name wn = true.
Proof.
  intros Hc Hrun.
  assert (Logged (exec_stmts (take n (statements E)))) as HL
    by apply Logged_exec_stmts, Forall_take, Logged_statements.
  by destruct (HL _ _ _ Hc Hrun).
Qed.

Lemma import_sibling_fails sub w e :
  split_dots sub = [sub] → cached pkg_name w = true →
  cached (sibling sub) w = false → find_spec E (sibling sub) = true →
  ext_exec E (sibling sub) = inl e →
  import_name E (ext_body E) (sibling sub) w
    = (inl e, World (delete (sibling sub) (sys_modules w))
                    (trace w ++ [Exec (sibling sub)])).
Proof.
  intros Hsub Hpkg Hnc Hspec Herr.
  destruct (import_name E (ext_body E) (sibling sub) w) as [r w'] eqn:Himp.
  apply import_sibling in Himp; [|done..].
  destruct Himp as [(? & _)|[(_ & ? & _)|[(_ & _ & e' & He' & -> & ->)|(_ & _ & d & ? & _)]]];
    congruence.
Qed.

Lemma import_sibling_missing sub w :
  split_dots sub = [sub] → cached pkg_name w = true →
  cached (sibling sub) w = false → find_spec E (sibling sub) = false →
  import_name E (ext_body E) (sibling sub) w
    = (inl (Exn "ModuleNotFoundError" (sibling sub)), w).
Proof.
  intros Hsub Hpkg Hnc Hspec.
  destruct (import_name E (ext_body E) (sibling sub) w) as [r w'] eqn:Himp.
  apply import_sibling in Himp; [|done..].
  destruct Himp as [(? & _)|[(_ & _ & -> & ->)|[(_ & ? & _)|(_ & ? & _)]]];
    congruence.
Qed.

(** Line 10 when the package has no attribute [version] and the module is
    not loaded: an exception of the module's body passes, unless it is a
    [ModuleNotFoundError] for that very module; that one, and a module
    that is not found, end in the [ImportError] of [IMPORT_FROM]. *)
Lemma from_package_import_fails w e :
  cached pkg_name w = true → module_dict pkg_name w !! "version" = None →
  cached (sibling "version") w = false → find_spec E (sibling "version") = true →
  ext_exec E (sibling "version") = inl e →
  from_package_import E "version" w =
    if decide (e = Exn "ModuleNotFoundError" (sibling "version"))
    then (inl (Exn "ImportError" pkg_name),
          World (delete (sibling "version") (sys_modules w))
                (trace w ++ [Exec (sibling "version")]))
    else (inl e, World (delete (sibling "version") (sys_modules w))
                       (trace w ++ [Exec (sibling "version")])).
Proof.
  intros Hpkg Hattr Hnc Hspec Herr. unfold from_package_import.
  rewrite (bind_step _ _ _ _ _ (import_package_cached E _ _ Hpkg)).
  pose proof (import_sibling_fails "version" _ _ eq_refl Hpkg Hnc Hspec Herr) as Himp.
  case_decide as He.
  - assert (handle_fromlist E pkg_name "version" w
            = (inr (), World (delete (sibling "version") (sys_modules w))
                             (trace w ++ [Exec (sibling "version")]))) as Hfl.
    { unfold handle_fromlist. rewrite Hattr.
      change (pkg_name +:+ "." +:+ "version") with (sibling "version").
      rewrite Himp. by rewrite decide_True. }
    rewrite (bind_step _ _ _ _ _ Hfl). apply bind_fail.
    unfold import_from, module_dict, cached. simpl.
    rewrite lookup_delete_ne by apply sibling_ne.
    fold (module_dict pkg_name w). rewrite Hattr.
    change (pkg_name +:+ "." +:+ "version") with (sibling "version").
    by rewrite lookup_delete_eq.
  - apply bind_fail. unfold handle_fromlist. rewrite Hattr.
    change (pkg_name +:+ "." +:+ "version") with (sibling "version").
    rewrite Himp. by rewrite decide_False.
Qed.

Lemma from_package_import_missing w :
  cached pkg_name w = true → module_dict pkg_name w !! "version" = None →
  cached (sibling "version") w = false → find_spec E (sibling "version") = false →
  from_package_import E "version" w = (inl (Exn "ImportError" pkg_name), w).
Proof.
  intros Hpkg Hattr Hnc Hspec. unfold from_package_import.
  rewrite (bind_step _ _ _ _ _ (import_package_cached E _ _ Hpkg)).
  assert (handle_fromlist E pkg_name "version" w = (inr (), w)) as Hfl.
  { unfold handle_fromlist. rewrite Hattr.
    change (pkg_name +:+ "." +:+ "version") with (sibling "version").
    rewrite (import_sibling_missing "version" _ eq_refl Hpkg Hnc Hspec).
    by rewrite decide_True. }
  rewrite (bind_step _ _ _ _ _ Hfl). apply bind_fail.
  unfold import_from. rewrite Hattr.
  change (pkg_name +:+ "." +:+ "version") with (sibling "version").
  by rewrite Hnc.
Qed.

(** The state in which line 7 runs. *)
Lemma loader_state w0 w3 :
  exec_stmts (take 3 (statements E)) (entry E w0) = (inr (), w3) →
  module_dict pkg_name w3 !! "bob" = Some (VModule "bob") ∧
  module_dict pkg_name w3 !! "__file__" = Some (VStr (origin E pkg_name)).
Proof.
  change (take 3 (statements E))
    with [import_stmt E "bob.io.base"; import_stmt E "bob.sp";
          import_stmt E "bob.extension"].
  simpl. intros ([] & w1 & I1 & H1)%bind_ok.
  apply bind_ok in H1 as ([] & w2 & I2 & H1).
  apply bind_ok in H1 as ([] & w3' & I3 & [= <-]).
  pose proof (deps_ok E _ _ _ _ I1 I2 I3) as (_ & _ & Hd3 & _).
  rewrite entry_dict in Hd3. rewrite Hd3. split.
  - by rewrite lookup_insert_eq.
  - rewrite lookup_insert_ne by done. unfold new_module.
    by rewrite lookup_insert_ne, lookup_insert_eq.
Qed.

End Failures.

(** ** The claims *)

(** C1. After a successful import, [__all__] is the list of the names of
    the namespace as it is when line 22 runs, in the order of [dir()],
    that do not start with an underscore: a name is in the list exactly
    when it is bound at that point and public, no name with a leading
    underscore is in it, and no name is listed twice. *)
Theorem all_is_public_names (E : env) (w0 w1 : world) :
  cached pkg_name w0 = false →
  import_package E w0 = (inr (), w1) →
  ∃ wp w10,
    exec_stmts (preamble E) (entry E wp) = (inr (), w10) ∧
    let names := filter public (dir (module_dict pkg_name w10)) in
    module_dict pkg_name w1 =
      <["__all__" := VList (VStr <$> names)]> (module_dict pkg_name w10) ∧
    (∀ n, n ∈ names ↔
          is_Some (module_dict pkg_name w10 !! n) ∧ startswith n "_" = false) ∧
    (∀ n, startswith n "_" = true → n ∉ names) ∧
    NoDup names.
Proof.
  intros Hc Himp.
  apply import_package_ok in Himp as (wp & wb & _ & _ & Hbody & ->); [|done].
  apply module_body_split in Hbody as (w10 & Hpre & Hall).
  apply assign_all_ok in Hall as (_ & _ & Hd).
  exists wp, w10. split; [done|]. simpl. split_and!.
  - by rewrite registered_dict.
  - intros n. rewrite list_elem_of_filter, elem_of_dir. unfold public. tauto.
  - intros n Hn [Hpub _]%list_elem_of_filter. unfold public in Hpub. congruence.
  - apply NoDup_filter, NoDup_dir.
Qed.

Lemma all_is_public_names_witness :
  ∃ wp w10,
    exec_stmts (preamble Sample.host) (entry Sample.host wp) = (inr (), w10) ∧
    let names := filter public (dir (module_dict pkg_name w10)) in
    module_dict pkg_name Sample.imported =
      <["__all__" := VList (VStr <$> names)]> (module_dict pkg_name w10) ∧
    (∀ n, n ∈ names ↔
          is_Some (module_dict pkg_name w10 !! n) ∧ startswith n "_" = false) ∧
    (∀ n, startswith n "_" = true → n ∉ names) ∧
    NoDup names.
Proof.
  apply (all_is_public_names Sample.host Sample.start Sample.imported).
  - vm_compute. reflexivity.
  - vm_compute. reflexivity.
Defined.

(** C2. After the import the name [get_config] is the function of lines
    15 to 18.  It takes no argument and returns what the call of
    [bob.extension.get_config] returns, made with the module's name, the
    [externals] attribute and the [api] attribute of the version module,
    in this order.  The import is the first one of the package in the
    process, and the native library, which defines no [__all__], has no
    attribute [bob] that would shadow the package of that name. *)
Theorem get_config_delegates (E : env) (w0 w1 : world) (e : string) (h : N)
    (x a : value) :
  cached pkg_name w0 = false →
  cached (sibling "version") w0 = false →
  import_package E w0 = (inr (), w1) →
  module_dict (sibling "_library") w1 !! "__all__" = None →
  module_dict (sibling "_library") w1 !! "bob" = None →
  module_dict "bob" w1 !! "extension" = Some (VModule e) →
  module_dict e w1 !! "get_config" = Some (VExt h) →
  module_dict (sibling "version") w1 !! "externals" = Some x →
  module_dict (sibling "version") w1 !! "api" = Some a →
  module_dict pkg_name w1 !! "get_config" = Some (VDef "get_config") ∧
  call E (VDef "get_config") [] w1 = get_config E w1 ∧
  get_config E w1 =
    (ext_call E h [VStr "bob.ip.gabor"; x; a],
     World (sys_modules w1) (trace w1 ++ [Call h [VStr "bob.ip.gabor"; x; a]])).
Proof.
  intros Hc Hfresh Himp Hall Hbob Hext Hgc Hx Ha.
  apply import_states in Himp
    as (wp & wa1 & wa2 & w3 & w4 & w5 & w6 & w7 & w8 & w9 & w10 & wb & -> & Hbody &
        Hstep & Hmono & H1 & H2 & H3 & H4 & H5 & H6 & H7 & H8 & H9 & H10 & H11 &
        Hc3 & Hc4 & Hc5 & Hc6 & Hc7 & Hc8 & Hc9 & Hc10 &
        R5 & R6 & R7 & R8 & R9 & R10 & R11); [|done].
  assert (sibling "version" ∈ siblings) as Hsv by (right; by left).
  pose proof (deps_ok _ _ _ _ _ H1 H2 H3) as (_ & _ & Hd3 & _).
  rewrite entry_dict in Hd3.
  pose proof (attach_library_frame _ _ _ _ H4) as Hsm4.
  pose proof (from_import_star_ok E _ _ Hc4 H5) as (_ & _ & Hcl5 & items & Hitems & K5).
  pose proof (from_package_import_ok E _ _ Hc5 H6) as (_ & _ & K6 & _).
  pose proof (from_import_ok E "version" _ _ _ eq_refl Hsv Hc6 H7)
    as (_ & _ & Hcv7 & K7 & _).
  pose proof (tail_keeps E _ _ _ _ _ Hc7 Hcv7 H8 H9 H10 H11)
    as (_ & _ & _ & _ & K7b & _).
  (* the dictionary of the native library is the one line 9 read *)
  assert (module_dict (sibling "_library") w5 = module_dict (sibling "_library") (registered wb))
    as Hlib.
  { rewrite registered_dict by done. unfold module_dict. f_equal. symmetry.
    destruct R6 as (_ & _ & S6 & _), R7 as (_ & _ & S7 & _), R8 as (_ & _ & S8 & _),
      R9 as (_ & _ & S9 & _), R10 as (_ & _ & S10 & _), R11 as (_ & _ & S11 & _).
    assert (stable w5 wb) as S.
    { repeat (eapply stable_trans; [eassumption|]). apply stable_refl. }
    apply S; [apply sibling_ne|done]. }
  assert (∀ k, startswith k "_" = true ∨ module_dict (sibling "_library") w5 !! k = None →
               VStr k ∉ items) as Hnot.
  { intros k Hk. unfold exported_items in Hitems. rewrite Hlib, Hall in Hitems.
    injection Hitems as <-. rewrite <-Hlib.
    rewrite elem_of_public_names. intros [Hsome Hpub].
    destruct Hk as [Hk|Hk]; [congruence|]. rewrite Hk in Hsome. by destruct Hsome. }
  assert (∀ k, k ∉ ["_library"; "version"; "__version__"; "__api_version__"; "auxiliar";
                    "load_jets"; "save_jets"; "get_config"; "__all__"] →
               VStr k ∉ items →
               module_dict pkg_name (registered wb) !! k
               = (<["bob" := VModule "bob"]> (new_module E pkg_name)) !! k) as Hkeep.
  { intros k Hk Hitem. rewrite !not_elem_of_cons in Hk.
    destruct Hk as (? & ? & ? & ? & ? & ? & ? & ? & ? & _).
    rewrite registered_dict by done.
    rewrite K7b, K7, K6, K5; [|done..| |].
    - unfold module_dict. by rewrite Hsm4, <-Hd3.
    - simpl. rewrite !not_elem_of_cons. split_and!; [done|apply not_elem_of_nil].
    - rewrite !not_elem_of_cons. split_and!; [done..|apply not_elem_of_nil]. }
  assert (module_dict pkg_name (registered wb) !! "version"
          = Some (VModule (sibling "version"))) as Hversion.
  { rewrite registered_dict by done. rewrite K7b by by_computation.
    eapply version_module; [exact Hc5| |exact H6|exact H7].
    apply cached_false. apply cached_false in Hfresh.
    rewrite <-Hfresh. eapply fresh_sibling; try eassumption. by_computation. }
  assert (module_dict pkg_name (registered wb) !! "bob" = Some (VModule "bob")) as Hb.
  { rewrite Hkeep; [apply lookup_insert_eq|by_computation|].
    apply Hnot. right. by rewrite Hlib. }
  assert (module_dict pkg_name (registered wb) !! "__name__" = Some (VStr pkg_name)) as Hn.
  { rewrite Hkeep; [|by_computation|apply Hnot; by left].
    rewrite lookup_insert_ne by done. apply lookup_insert_eq. }
  split_and!; [|done|].
  - pose proof (def_get_config_ok _ _ _ H10) as (_ & _ & Hd10).
    pose proof (assign_all_ok _ _ _ H11) as (_ & _ & Hdb).
    rewrite registered_dict by done.
    by rewrite Hdb, lookup_insert_ne, Hd10, lookup_insert_eq.
  - by rewrite (get_config_eval E _ _ _ _ _ _ _ Hb Hext Hgc Hn Hversion Hx Ha).
Qed.

Lemma get_config_delegates_witness :
  module_dict pkg_name Sample.imported !! "get_config" = Some (VDef "get_config") ∧
  call Sample.host (VDef "get_config") [] Sample.imported
    = get_config Sample.host Sample.imported ∧
  get_config Sample.host Sample.imported =
    (inr (VStr "bob.ip.gabor: 2.0.5"),
     World (sys_modules Sample.imported)
           (trace Sample.imported ++ [Call 2 [VStr "bob.ip.gabor"; VExt 21; VExt 20]])).
Proof.
  apply (get_config_delegates Sample.host Sample.start Sample.imported
           "bob.extension" 2 (VExt 21) (VExt 20)); vm_compute; reflexivity.
Defined.

(** C3. A successful import runs in this order: the dependencies
    [bob.io.base], [bob.sp] and [bob.extension] are imported, and [bob] is
    bound; then the loader [bob.extension.load_bob_library] is called, once,
    with ['bob.ip.gabor'] and the path of the file; then the native library
    is imported and every name it exports is bound in the package; then
    the other siblings are imported and their names bound, [load_jets],
    [save_jets], [get_config] and [__all__] last.  When the loader is
    called the dependencies are in [sys.modules]; before the call no name
    but [bob] is bound in the package and no sibling is initialised, after
    it no dependency is initialised and nothing is called; at the end the
    native library and [auxiliar] are in [sys.modules]. *)
Theorem initialisation_order (E : env) (w0 w1 : world) :
  cached pkg_name w0 = false →
  import_package E w0 = (inr (), w1) →
  ∃ wp w3 w4 wb ext h names t1 tl tm tr,
    exec_stmts (take 3 (statements E)) (entry E wp) = (inr (), w3) ∧
    attach_library E w3 = (inr (), w4) ∧
    exec_stmts (drop 4 (statements E)) w4 = (inr (), wb) ∧
    w1 = registered wb ∧
    cached "bob.io.base" w3 = true ∧ cached "bob.sp" w3 = true ∧
    cached "bob.extension" w3 = true ∧
    module_dict pkg_name w3 !! "bob" = Some (VModule "bob") ∧
    getattr E (VModule "bob") "extension" w3 = (inr ext, w3) ∧
    getattr E ext "load_bob_library" w3 = (inr (VExt h), w3) ∧
    trace w1 = trace wp ++ [Exec pkg_name] ++ t1 ++
               [Call h [VStr "bob.ip.gabor"; VStr (origin E pkg_name)]] ++
               tl ++ tm ++ tr ++
               [Bind pkg_name "load_jets"; Bind pkg_name "save_jets";
                Bind pkg_name "get_config"; Bind pkg_name "__all__";
                Bind "bob.ip" "gabor"] ∧
    trace w3 = trace wp ++ [Exec pkg_name] ++ t1 ∧
    Forall dep_event t1 ∧
    tl = (if cached (sibling "_library") w4 then []
          else [Exec (sibling "_library"); Bind pkg_name "_library"]) ∧
    exported_items (sibling "_library") w1 = (inr (VStr <$> names), w1) ∧
    tm ≡ₚ Bind pkg_name <$> names ∧
    Forall reexport_event tr ∧
    cached (sibling "_library") w1 = true ∧ cached (sibling "auxiliar") w1 = true.
Proof.
  intros Hc Himp.
  apply import_states in Himp
    as (wp & wa1 & wa2 & w3 & w4 & w5 & w6 & w7 & w8 & w9 & w10 & wb & -> & Hbody &
        Hstep & Hmono & H1 & H2 & H3 & H4 & H5 & H6 & H7 & H8 & H9 & H10 & H11 &
        Hc3 & Hc4 & Hc5 & Hc6 & Hc7 & Hc8 & Hc9 & Hc10 &
        R5 & R6 & R7 & R8 & R9 & R10 & R11); [|done].
  assert (sibling "auxiliar" ∈ siblings) as Hsa by (right; right; by left).
  assert (sibling "version" ∈ siblings) as Hsv by (right; by left).
  pose proof (deps_ok _ _ _ _ _ H1 H2 H3)
    as ([_ (t1 & Ht1 & Hev1)] & _ & Hd3 & Hbase & Hsp & Hext & _).
  rewrite entry_dict in Hd3.
  pose proof (attach_library_ok _ _ _ H4)
    as (_ & b & ext & h & file & Hb & Hm & Hh & Hfile & _ & Ht4).
  rewrite Hd3, lookup_insert_eq in Hb. injection Hb as <-.
  rewrite Hd3, lookup_insert_ne in Hfile by done. unfold new_module in Hfile.
  rewrite lookup_insert_ne, lookup_insert_eq in Hfile by done. injection Hfile as <-.
  pose proof (from_import_star_ok E _ _ Hc4 H5) as (_ & _ & Hcl5 & _).
  pose proof (from_import_star_trace E _ _ Hc4 H5) as (names & Hex & Ht5).
  pose proof (reexports_trans _ _ _ R6
                (reexports_trans _ _ _ R7
                   (reexports_trans _ _ _ R8
                      (reexports_trans _ _ _ R9
                         (reexports_trans _ _ _ R10 R11))))) as (_ & _ & Hst5 & _).
  assert (sys_modules wb !! sibling "_library" = sys_modules w5 !! sibling "_library")
    as Hlib by (apply Hst5; [apply sibling_ne|done]).
  assert (reexports w5 w8) as R58.
  { eapply reexports_trans; [exact R6|]. eapply reexports_trans; [exact R7|exact R8]. }
  destruct R58 as ([_ (t58 & Ht58 & Hev58)] & _).
  pose proof (from_import_ok E "version" _ _ _ eq_refl Hsv Hc6 H7) as (_ & _ & Hcv7 & _).
  pose proof (tail_keeps E _ _ _ _ _ Hc7 Hcv7 H8 H9 H10 H11) as (Hca9 & _ & _ & St9 & _).
  pose proof (from_import_ok E "auxiliar" _ _ _ eq_refl Hsa Hc8 H9)
    as (_ & ([_ (t9 & Ht9 & Hev9)] & _) & _).
  pose proof (from_import_trace E "auxiliar" _ _ _ eq_refl Hsa Hc8 H9) as (t9' & Ht9').
  assert (t9 = t9' ++ [Bind pkg_name "load_jets"; Bind pkg_name "save_jets"]) as Ht9eq.
  { rewrite Ht9' in Ht9. by apply app_inv_head in Ht9. }
  pose proof H10 as (_ & _ & _ & Ht10 & _)%store_global_inv.
  pose proof H11 as Hall. unfold assign_all in Hall.
  apply store_global_inv in Hall as (_ & _ & _ & Htb & _).
  exists wp, w3, w4, wb, ext, h, names, t1.
  exists (if cached (sibling "_library") w4 then []
          else [Exec (sibling "_library"); Bind pkg_name "_library"]).
  exists (Bind pkg_name <$> names), (t58 ++ t9').
  split_and!; try done.
  - change (take 3 (statements E))
      with [import_stmt E "bob.io.base"; import_stmt E "bob.sp";
            import_stmt E "bob.extension"].
    simpl. rewrite (bind_step _ _ _ _ _ H1), (bind_step _ _ _ _ _ H2).
    by rewrite (bind_step _ _ _ _ _ H3).
  - change (drop 4 (statements E))
      with [from_import_star E "_library"; from_package_import E "version";
            from_import E "version" [("module", "__version__")];
            from_import E "version" [("api", "__api_version__")];
            from_import E "auxiliar"
              [("load_jets", "load_jets"); ("save_jets", "save_jets")];
            def_get_config; assign_all].
    simpl. rewrite (bind_step _ _ _ _ _ H5), (bind_step _ _ _ _ _ H6).
    rewrite (bind_step _ _ _ _ _ H7), (bind_step _ _ _ _ _ H8).
    rewrite (bind_step _ _ _ _ _ H9), (bind_step _ _ _ _ _ H10).
    by rewrite (bind_step _ _ _ _ _ H11).
  - by rewrite Hd3, lookup_insert_eq.
  - rewrite registered_trace, Htb, Ht10, Ht9', Ht58, Ht5, Ht4, Ht1. simpl.
    by rewrite <-!app_assoc.
  - rewrite Ht1. simpl. by rewrite <-app_assoc.
  - eapply exported_items_dict; [|exact Hex].
    rewrite registered_dict by done. unfold module_dict. by rewrite Hlib.
  - apply Forall_app. split; [done|]. rewrite Ht9eq in Hev9.
    by apply Forall_app in Hev9 as [? _].
  - unfold cached. rewrite registered_other by done. by rewrite Hlib.
  - unfold cached. rewrite registered_other by done.
    rewrite St9; [done|apply sibling_ne|done].
Qed.

Lemma initialisation_order_witness :
  ∃ wp w3 w4 wb ext h names t1 tl tm tr,
    exec_stmts (take 3 (statements Sample.host)) (entry Sample.host wp) = (inr (), w3) ∧
    attach_library Sample.host w3 = (inr (), w4) ∧
    exec_stmts (drop 4 (statements Sample.host)) w4 = (inr (), wb) ∧
    Sample.imported = registered wb ∧
    cached "bob.io.base" w3 = true ∧ cached "bob.sp" w3 = true ∧
    cached "bob.extension" w3 = true ∧
    module_dict pkg_name w3 !! "bob" = Some (VModule "bob") ∧
    getattr Sample.host (VModule "bob") "extension" w3 = (inr ext, w3) ∧
    getattr Sample.host ext "load_bob_library" w3 = (inr (VExt h), w3) ∧
    trace Sample.imported
      = trace wp ++ [Exec pkg_name] ++ t1 ++
        [Call h [VStr "bob.ip.gabor"; VStr (origin Sample.host pkg_name)]] ++
        tl ++ tm ++ tr ++
        [Bind pkg_name "load_jets"; Bind pkg_name "save_jets";
         Bind pkg_name "get_config"; Bind pkg_name "__all__";
         Bind "bob.ip" "gabor"] ∧
    trace w3 = trace wp ++ [Exec pkg_name] ++ t1 ∧
    Forall dep_event t1 ∧
    tl = (if cached (sibling "_library") w4 then []
          else [Exec (sibling "_library"); Bind pkg_name "_library"]) ∧
    exported_items (sibling "_library") Sample.imported
      = (inr (VStr <$> names), Sample.imported) ∧
    tm ≡ₚ Bind pkg_name <$> names ∧
    Forall reexport_event tr ∧
    cached (sibling "_library") Sample.imported = true ∧
    cached (sibling "auxiliar") Sample.imported = true.
Proof.
  apply (initialisation_order Sample.host Sample.start Sample.imported).
  - vm_compute. reflexivity.
  - vm_compute. reflexivity.
Defined.

(** C4. After a successful import [load_jets] and [save_jets] are bound in
    the package, to the very objects the module [auxiliar] defines under
    these names. *)
Theorem jets_reexported (E : env) (w0 w1 : world) :
  cached pkg_name w0 = false →
  import_package E w0 = (inr (), w1) →
  is_Some (module_dict pkg_name w1 !! "load_jets") ∧
  is_Some (module_dict pkg_name w1 !! "save_jets") ∧
  (∀ f, module_dict (sibling "auxiliar") w1 !! "load_jets" = Some f →
        module_dict pkg_name w1 !! "load_jets" = Some f) ∧
  (∀ f, module_dict (sibling "auxiliar") w1 !! "save_jets" = Some f →
        module_dict pkg_name w1 !! "save_jets" = Some f).
Proof.
  intros Hc Himp.
  apply import_states in Himp
    as (wp & wa1 & wa2 & w3 & w4 & w5 & w6 & w7 & w8 & w9 & w10 & wb & -> & Hbody &
        Hstep & Hmono & H1 & H2 & H3 & H4 & H5 & H6 & H7 & H8 & H9 & H10 & H11 &
        Hc3 & Hc4 & Hc5 & Hc6 & Hc7 & Hc8 & Hc9 & Hc10 &
        R5 & R6 & R7 & R8 & R9 & R10 & R11); [|done].
  assert (sibling "version" ∈ siblings) as Hsv by (right; by left).
  assert (sibling "auxiliar" ∈ siblings) as Hsa by (right; right; by left).
  pose proof (from_import_ok E "version" _ _ _ eq_refl Hsv Hc6 H7) as (_ & _ & Hcv7 & _).
  pose proof (from_import_ok E "auxiliar" _ _ _ eq_refl Hsa Hc8 H9)
    as (_ & _ & Hca9 & _ & _ & _ & Hget9).
  destruct (Hget9 ltac:(by_computation) "load_jets" "load_jets" ltac:(by left))
    as [Hl Hlf].
  destruct (Hget9 ltac:(by_computation) "save_jets" "save_jets" ltac:(right; by left))
    as [Hs Hsf].
  pose proof (tail_keeps E _ _ _ _ _ Hc7 Hcv7 H8 H9 H10 H11)
    as (_ & _ & _ & St9 & _ & _ & K9).
  assert (module_dict (sibling "auxiliar") wb = module_dict (sibling "auxiliar") w9) as Hda.
  { unfold module_dict. by rewrite St9 by (done || apply sibling_ne). }
  rewrite !registered_dict by done. rewrite !K9 by by_computation.
  split_and!; [done..| |].
  - intros f Hf. apply Hlf. by rewrite <-Hda.
  - intros f Hf. apply Hsf. by rewrite <-Hda.
Qed.

Lemma jets_reexported_witness :
  is_Some (module_dict pkg_name Sample.imported !! "load_jets") ∧
  is_Some (module_dict pkg_name Sample.imported !! "save_jets") ∧
  (∀ f, module_dict (sibling "auxiliar") Sample.imported !! "load_jets" = Some f →
        module_dict pkg_name Sample.imported !! "load_jets" = Some f) ∧
  (∀ f, module_dict (sibling "auxiliar") Sample.imported !! "save_jets" = Some f →
        module_dict pkg_name Sample.imported !! "save_jets" = Some f).
Proof.
  apply (jets_reexported Sample.host Sample.start Sample.imported).
  - vm_compute. reflexivity.
  - vm_compute. reflexivity.
Defined.

(** C5, as the code has it.  The body has no handler.  When the loader of
    line 7 raises, the import raises that exception; when the body of
    [_library], [version] or [auxiliar] raises, or [_library] or [auxiliar]
    is not found, the import raises that exception; in each case nothing
    runs after the failure and the package is taken out of [sys.modules];
    and an exception of the formatting utility is what [get_config]
    raises.  One exception is replaced, by the import statement itself:
    when the module [version] is not found, or its body raises a
    [ModuleNotFoundError] for that very module, line 10 ends in an
    [ImportError] for the package. *)
Theorem errors_propagate (E : env) (w0 : world) :
  cached pkg_name w0 = false → cached "bob.ip" w0 = true →
  find_spec E pkg_name = true →
  (∀ w3 ext h e,
     exec_stmts (take 3 (statements E)) (entry E w0) = (inr (), w3) →
     getattr E (VModule "bob") "extension" w3 = (inr ext, w3) →
     getattr E ext "load_bob_library" w3 = (inr (VExt h), w3) →
     ext_call E h [VStr "bob.ip.gabor"; VStr (origin E pkg_name)] = inl e →
     import_package E w0
     = (inl e,
        unregister
          (World (sys_modules w3)
             (trace w3 ++ [Call h [VStr "bob.ip.gabor"; VStr (origin E pkg_name)]])))) ∧
  (∀ n sub wn,
     (n, sub) ∈ [(4, "_library"); (8, "auxiliar")] →
     exec_stmts (take n (statements E)) (entry E w0) = (inr (), wn) →
     cached (sibling sub) wn = false →
     (∀ e, find_spec E (sibling sub) = true → ext_exec E (sibling sub) = inl e →
           import_package E w0
           = (inl e, unregister (World (delete (sibling sub) (sys_modules wn))
                                       (trace wn ++ [Exec (sibling sub)])))) ∧
     (find_spec E (sibling sub) = false →
      import_package E w0
      = (inl (Exn "ModuleNotFoundError" (sibling sub)), unregister wn))) ∧
  (∀ w5,
     exec_stmts (take 5 (statements E)) (entry E w0) = (inr (), w5) →
     module_dict pkg_name w5 !! "version" = None →
     cached (sibling "version") w5 = false →
     (∀ e, find_spec E (sibling "version") = true →
           ext_exec E (sibling "version") = inl e →
           import_package E w0
           = (inl (if decide (e = Exn "ModuleNotFoundError" (sibling "version"))
                   then Exn "ImportError" pkg_name else e),
              unregister (World (delete (sibling "version") (sys_modules w5))
                                (trace w5 ++ [Exec (sibling "version")])))) ∧
     (find_spec E (sibling "version") = false →
      import_package E w0 = (inl (Exn "ImportError" pkg_name), unregister w5))) ∧
  (∀ w err w', import_package E w = (inl err, w') → cached pkg_name w' = false) ∧
  (∀ w b m h n x a err,
     module_dict pkg_name w !! "bob" = Some (VModule b) →
     module_dict b w !! "extension" = Some (VModule m) →
     module_dict m w !! "get_config" = Some (VExt h) →
     module_dict pkg_name w !! "__name__" = Some n →
     module_dict pkg_name w !! "version" = Some (VModule (sibling "version")) →
     module_dict (sibling "version") w !! "externals" = Some x →
     module_dict (sibling "version") w !! "api" = Some a →
     ext_call E h [n; x; a] = inl err →
     (get_config E w).1 = inl err).
Proof.
  intros Hc Hip Hfs. split_and!.
  - intros w3 ext h e Hpre Hext Hload Herr.
    destruct (loader_state E _ _ Hpre) as [Hbob Hfile].
    eapply (import_fails_at E _ _ _ (take 3 (statements E)) (drop 4 (statements E))
              (attach_library E)); [done..|reflexivity|exact Hpre|].
    unfold attach_library.
    rewrite (bind_step _ _ _ _ _ (load_global_eq _ _ _ Hbob)).
    rewrite (bind_step _ _ _ _ _ Hext), (bind_step _ _ _ _ _ Hload).
    rewrite (bind_step _ _ _ _ _ (load_global_eq _ _ _ Hfile)).
    apply bind_fail. unfold call_foreign, run_foreign. by rewrite Herr.
  - intros n sub wn Hin Hpre Hnc.
    pose proof (prefix_cached E _ _ _ (entry_cached E w0) Hpre) as Hpkg.
    apply elem_of_cons in Hin as [[= -> ->]|Hin];
      [|apply elem_of_cons in Hin as [[= -> ->]|Hin]; [|by apply elem_of_nil in Hin]].
    + split.
      * intros e Hspec Herr.
        eapply (import_fails_at E _ _ _ (take 4 (statements E)) (drop 5 (statements E))
                  (from_import_star E "_library")); [done..|reflexivity|exact Hpre|].
        unfold from_import_star. apply bind_fail.
        by apply import_sibling_fails.
      * intros Hspec.
        eapply (import_fails_at E _ _ _ (take 4 (statements E)) (drop 5 (statements E))
                  (from_import_star E "_library")); [done..|reflexivity|exact Hpre|].
        unfold from_import_star. apply bind_fail.
        by apply import_sibling_missing.
    + split.
      * intros e Hspec Herr.
        eapply (import_fails_at E _ _ _ (take 8 (statements E)) (drop 9 (statements E))
                  (from_import E "auxiliar"
                     [("load_jets", "load_jets"); ("save_jets", "save_jets")]));
          [done..|reflexivity|exact Hpre|].
        unfold from_import. apply bind_fail.
        by apply import_sibling_fails.
      * intros Hspec.
        eapply (import_fails_at E _ _ _ (take 8 (statements E)) (drop 9 (statements E))
                  (from_import E "auxiliar"
                     [("load_jets", "load_jets"); ("save_jets", "save_jets")]));
          [done..|reflexivity|exact Hpre|].
        unfold from_import. apply bind_fail.
        by apply import_sibling_missing.
  - intros w5 Hpre Hattr Hnc.
    pose proof (prefix_cached E _ _ _ (entry_cached E w0) Hpre) as Hpkg. split.
    + intros e Hspec Herr.
      eapply (import_fails_at E _ _ _ (take 5 (statements E)) (drop 6 (statements E))
                (from_package_import E "version")); [done..|reflexivity|exact Hpre|].
      rewrite (from_package_import_fails E _ _ Hpkg Hattr Hnc Hspec Herr).
      by case_decide.
    + intros Hspec.
      eapply (import_fails_at E _ _ _ (take 5 (statements E)) (drop 6 (statements E))
                (from_package_import E "version")); [done..|reflexivity|exact Hpre|].
      by apply from_package_import_missing.
  - intros w err w' Himp. destruct (cached pkg_name w) eqn:Hcw.
    { unfold import_package in Himp. by rewrite import_package_cached in Himp. }
    apply import_package_inv in Himp as (wp & _ & Hcp & _ & _ & Hcases); [|done].
    destruct Hcases as [(e' & _ & ->)|(_ & _ & rb & wb' & _ & Hrb)]; [done|].
    destruct rb as [e'|[]]; [|by destruct Hrb]. destruct Hrb as [_ ->].
    apply cached_false. unfold unregister. simpl. apply lookup_delete_eq.
  - intros w b m h n x a err Hb Hm Hh Hn Hv Hx Ha Herr.
    rewrite (get_config_eval E _ _ _ _ _ _ _ Hb Hm Hh Hn Hv Hx Ha).
    unfold call_foreign, run_foreign. simpl. exact Herr.
Qed.

Lemma errors_propagate_witness :
  import_package Sample.broken Sample.parents_loaded
  = (inl (Exn "RuntimeError" "cannot find the library"),
     unregister
       (World (sys_modules Sample.at_loader)
          (trace Sample.at_loader ++
           [Call 1 [VStr "bob.ip.gabor"; VStr (origin Sample.broken pkg_name)]]))).
Proof.
  refine (proj1 (errors_propagate Sample.broken Sample.parents_loaded _ _ _)
            Sample.at_loader (VModule "bob.extension") 1%N
            (Exn "RuntimeError" "cannot find the library") _ _ _ _).
  - vm_compute. reflexivity.
  - vm_compute. reflexivity.
  - vm_compute. reflexivity.
  - vm_compute. reflexivity.
  - vm_compute. reflexivity.
  - vm_compute. reflexivity.
  - vm_compute. reflexivity.
Defined.

(** C5, as the claim has it, fails on a process in which the module
    [version] is not found: the import of that module raises
    [ModuleNotFoundError], and the import of the package raises
    [ImportError]. *)
Lemma version_error_is_translated :
  exec_stmts (take 5 (statements SampleX.no_version))
    (entry SampleX.no_version Sample.parents_loaded)
    = (inr (), SampleX.before_version) ∧
  import_name SampleX.no_version (ext_body SampleX.no_version) (sibling "version")
    SampleX.before_version
    = (inl (Exn "ModuleNotFoundError" (sibling "version")), SampleX.before_version) ∧
  (import_package SampleX.no_version Sample.parents_loaded).1
    = inl (Exn "ImportError" pkg_name) ∧
  ¬ sibling_errors_unmodified SampleX.no_version Sample.parents_loaded.
Proof.
  assert (exec_stmts (take 5 (statements SampleX.no_version))
            (entry SampleX.no_version Sample.parents_loaded)
          = (inr (), SampleX.before_version)) as Hpre by (vm_compute; reflexivity).
  assert (import_name SampleX.no_version (ext_body SampleX.no_version)
            (sibling "version") SampleX.before_version
          = (inl (Exn "ModuleNotFoundError" (sibling "version")),
             SampleX.before_version)) as Himp by (vm_compute; reflexivity).
  assert ((import_package SampleX.no_version Sample.parents_loaded).1
          = inl (Exn "ImportError" pkg_name)) as Hres by (vm_compute; reflexivity).
  split_and!; [done..|]. intros Hclaim.
  specialize (Hclaim 5 "version" _ _ _ ltac:(right; by left) Hpre Himp).
  rewrite Hres in Hclaim. discriminate Hclaim.
Qed.

(** C6. A call of [get_config] changes no module: whatever it returns,
    [sys.modules] is afterwards what it was, so no module-level name is
    created, removed or rebound; the trace grows by the one call of the
    foreign utility at most, and by no binding. *)
Theorem get_config_reads_only (E : env) (w : world) :
  sys_modules (get_config E w).2 = sys_modules w ∧
  (∀ m, module_dict m (get_config E w).2 = module_dict m w) ∧
  (trace (get_config E w).2 = trace w ∨
   ∃ h args, trace (get_config E w).2 = trace w ++ [Call h args]) ∧
  (∀ n, bindings n (trace (get_config E w).2) = bindings n (trace w)).
Proof.
  destruct (get_config E w) as [r w'] eqn:Hgc. simpl.
  apply get_config_frame in Hgc as [Hsm Htr]. split_and!; [done| |done|].
  - intros m. unfold module_dict. by rewrite Hsm.
  - intros n. destruct Htr as [->|(h & args & ->)]; [done|].
    rewrite bindings_app, bindings_other by done. unfold bindings. simpl. lia.
Qed.

(** C7, as the code has it.  During the load a name can be bound more
    than once.  The names bound in the package are, counted with
    repetition: [bob] three times, by lines 2, 3 and 6; the names the
    native library exports, by line 9; [version] by line 10; [__version__],
    [__api_version__], [load_jets], [save_jets], [get_config] and [__all__]
    once each; and [_library], [version] and [auxiliar] once more each
    when this import loads that module.  So a name of the second group is
    bound exactly once unless the library exports it too.  Every name of
    the namespace was bound in this way or put there by the import system
    when the module was made.  After the load nothing is changed any
    more: a call of [get_config], or of any other object of the package,
    leaves [sys.modules] as it is, so [__all__] and the set of names of
    the package stay the same, and it binds nothing. *)
Theorem no_mutation_after_load (E : env) (w0 w1 : world) :
  cached pkg_name w0 = false →
  import_package E w0 = (inr (), w1) →
  (∃ wp w4 w5 w8 names t,
     exec_stmts (take 4 (statements E)) (entry E wp) = (inr (), w4) ∧
     exec_stmts (take 5 (statements E)) (entry E wp) = (inr (), w5) ∧
     exec_stmts (take 8 (statements E)) (entry E wp) = (inr (), w8) ∧
     exported_items (sibling "_library") w1 = (inr (VStr <$> names), w1) ∧
     trace w1 = trace w0 ++ t ∧
     (∀ n, bindings n t =
           length (filter (λ k, k = n)
             (names ++ ["bob"; "bob"; "bob"] ++
              (if cached (sibling "_library") w4 then [] else ["_library"]) ++
              "version" :: (if cached (sibling "version") w5 then [] else ["version"]) ++
              ["__version__"; "__api_version__"] ++
              (if cached (sibling "auxiliar") w8 then [] else ["auxiliar"]) ++
              ["load_jets"; "save_jets"; "get_config"; "__all__"]))) ∧
     (∀ n, n ∈ ["__version__"; "__api_version__"; "load_jets"; "save_jets";
                "get_config"; "__all__"] →
           n ∉ names → bindings n t = 1) ∧
     ("bob" ∉ names → bindings "bob" t = 3) ∧
     (∀ n, is_Some (module_dict pkg_name w1 !! n) →
           (1 ≤ bindings n t)%nat ∨ is_Some (new_module E pkg_name !! n))) ∧
  ∀ f args,
    sys_modules (call E f args w1).2 = sys_modules w1 ∧
    module_dict pkg_name (call E f args w1).2 !! "__all__"
      = module_dict pkg_name w1 !! "__all__" ∧
    dom (module_dict pkg_name (call E f args w1).2) = dom (module_dict pkg_name w1) ∧
    (∀ n, bindings n (trace (call E f args w1).2) = bindings n (trace w1)).
Proof.
  intros Hc Himp. split.
  - pose proof (import_binds E _ _ Hc Himp)
      as (wp & w4 & w5 & w8 & names & t & P4 & P5 & P8 & Hex & Ht & Hbinds).
    exists wp, w4, w5, w8, names, t.
    assert (∀ n, bindings n t =
              length (filter (λ k, k = n)
                (names ++ ["bob"; "bob"; "bob"] ++
                 (if cached (sibling "_library") w4 then [] else ["_library"]) ++
                 "version" :: (if cached (sibling "version") w5 then [] else ["version"]) ++
                 ["__version__"; "__api_version__"] ++
                 (if cached (sibling "auxiliar") w8 then [] else ["auxiliar"]) ++
                 ["load_jets"; "save_jets"; "get_config"; "__all__"]))) as Hcount.
    { intros n. rewrite bindings_binds, Hbinds, !filter_app, !length_app. lia. }
    split_and!; [done..| | |].
    + intros n Hn Hnot. rewrite Hcount, filter_app, length_app, (filter_eq_not_elem_of n _ Hnot).
      destruct (cached (sibling "_library") w4), (cached (sibling "version") w5),
        (cached (sibling "auxiliar") w8);
        repeat (apply elem_of_cons in Hn as [->|Hn]; [reflexivity|]);
        by apply elem_of_nil in Hn.
    + intros Hnot. rewrite Hcount, filter_app, length_app, (filter_eq_not_elem_of _ _ Hnot).
      by destruct (cached (sibling "_library") w4), (cached (sibling "version") w5),
        (cached (sibling "auxiliar") w8).
    + clear P4 P5 P8 Hex Hbinds Hcount.
      apply import_states in Himp
        as (wp' & wa1 & wa2 & w3 & w4' & w5' & w6 & w7 & w8' & w9 & w10 & wb & -> & Hbody &
            [_ (tp & Htp & Hevp)] & _); [|done].
      destruct (Logged_module_body E _ _ _ (entry_cached E wp') Hbody)
        as [(t' & Ht' & Hlog) _].
      assert (t = tp ++ [Exec pkg_name] ++ t' ++ [Bind "bob.ip" "gabor"]) as ->.
      { apply (app_inv_head (trace w0)). rewrite <-Ht, registered_trace, Ht'. simpl.
        rewrite Htp. by rewrite <-!app_assoc. }
      assert (∀ n, bindings n (tp ++ [Exec pkg_name] ++ t' ++ [Bind "bob.ip" "gabor"])
                   = bindings n t') as Hcount.
      { intros n. rewrite !bindings_app.
        assert (pkg_name ∉ ["bob.ip"; "bob"]) as Hnot by by_computation.
        rewrite (bindings_ev_on _ n tp Hnot Hevp).
        rewrite bindings_other by done. rewrite bindings_bind.
        rewrite bool_decide_eq_false_2 by (by intros [? _]).
        unfold bindings at 1 3. simpl. lia. }
      intros n Hn. rewrite Hcount. rewrite registered_dict in Hn by done.
      destruct (bindings n t') as [|k] eqn:Hk; [right|left; lia].
      by rewrite (Hlog n Hk), entry_dict in Hn.
  - intros f args. destruct (call E f args w1) as [r w2] eqn:Hcall. simpl.
    apply call_frame in Hcall as [Hsm Htr].
    assert (module_dict pkg_name w2 = module_dict pkg_name w1) as Hd.
    { unfold module_dict. by rewrite Hsm. }
    split_and!; [done|by rewrite Hd|by rewrite Hd|].
    intros n. destruct Htr as [->|(h & args' & ->)]; [done|].
    rewrite bindings_app, bindings_other by done. unfold bindings. simpl. lia.
Qed.

Lemma no_mutation_after_load_witness :
  (∃ wp w4 w5 w8 names t,
     exec_stmts (take 4 (statements Sample.host)) (entry Sample.host wp) = (inr (), w4) ∧
     exec_stmts (take 5 (statements Sample.host)) (entry Sample.host wp) = (inr (), w5) ∧
     exec_stmts (take 8 (statements Sample.host)) (entry Sample.host wp) = (inr (), w8) ∧
     exported_items (sibling "_library") Sample.imported
       = (inr (VStr <$> names), Sample.imported) ∧
     trace Sample.imported = trace Sample.start ++ t ∧
     (∀ n, bindings n t =
           length (filter (λ k, k = n)
             (names ++ ["bob"; "bob"; "bob"] ++
              (if cached (sibling "_library") w4 then [] else ["_library"]) ++
              "version" :: (if cached (sibling "version") w5 then [] else ["version"]) ++
              ["__version__"; "__api_version__"] ++
              (if cached (sibling "auxiliar") w8 then [] else ["auxiliar"]) ++
              ["load_jets"; "save_jets"; "get_config"; "__all__"]))) ∧
     (∀ n, n ∈ ["__version__"; "__api_version__"; "load_jets"; "save_jets";
                "get_config"; "__all__"] →
           n ∉ names → bindings n t = 1) ∧
     ("bob" ∉ names → bindings "bob" t = 3) ∧
     (∀ n, is_Some (module_dict pkg_name Sample.imported !! n) →
           (1 ≤ bindings n t)%nat ∨ is_Some (new_module Sample.host pkg_name !! n))) ∧
  ∀ f args,
    sys_modules (call Sample.host f args Sample.imported).2 = sys_modules Sample.imported ∧
    module_dict pkg_name (call Sample.host f args Sample.imported).2 !! "__all__"
      = module_dict pkg_name Sample.imported !! "__all__" ∧
    dom (module_dict pkg_name (call Sample.host f args Sample.imported).2)
      = dom (module_dict pkg_name Sample.imported) ∧
    (∀ n, bindings n (trace (call Sample.host f args Sample.imported).2)
          = bindings n (trace Sample.imported)).
Proof.
  apply (no_mutation_after_load Sample.host Sample.start Sample.imported).
  - vm_compute. reflexivity.
  - vm_compute. reflexivity.
Defined.

(** C7, as the claim has it, fails on the sample process: the import
    succeeds and binds [bob] three times and [version] twice, so not every
    name that is bound is bound exactly once. *)
Lemma bob_is_bound_three_times :
  import_package Sample.host Sample.start = (inr (), Sample.imported) ∧
  bindings "bob" (trace Sample.imported) = 3 ∧
  bindings "version" (trace Sample.imported) = 2 ∧
  ¬ each_name_bound_once Sample.start Sample.imported.
Proof.
  assert (bindings "bob" (trace Sample.imported) = 3) as Hthree
    by (vm_compute; reflexivity).
  split_and!.
  - vm_compute. reflexivity.
  - done.
  - vm_compute. reflexivity.
  - intros Hclaim.
    assert (bindings "bob" (trace Sample.imported) = 1) as Hone.
    { apply Hclaim; [done|]. rewrite Hthree. lia. }
    rewrite Hthree in Hone. discriminate Hone.
Qed.

(** C8. Importing the package again, after a successful import, changes
    nothing: the second import returns at once with the state of the
    first, so the namespace is the same, no event is added to the trace,
    and [get_config] gives the same result. *)
Theorem import_twice (E : env) (w0 w1 : world) :
  import_package E w0 = (inr (), w1) →
  import_package E w1 = (inr (), w1) ∧
  sys_modules (import_package E w1).2 = sys_modules w1 ∧
  trace (import_package E w1).2 = trace w1 ∧
  get_config E (import_package E w1).2 = get_config E w1.
Proof.
  intros Himp.
  assert (cached pkg_name w1 = true) as Hc1.
  { destruct (cached pkg_name w0) eqn:Hc0.
    - unfold import_package in Himp. rewrite import_package_cached in Himp by done.
      by simplify_eq.
    - apply import_package_ok in Himp as (wp & wb & _ & _ & Hbody & ->); [|done].
      apply module_body_split in Hbody as (w10 & _ & Hall).
      apply assign_all_ok in Hall as (_ & (_ & _ & _ & Hcb) & _).
      apply cached_true. apply cached_true in Hcb.
      by rewrite registered_other. }
  assert (import_package E w1 = (inr (), w1)) as Hagain.
  { unfold import_package. by apply import_package_cached. }
  by rewrite Hagain.
Qed.

Lemma import_twice_witness :
  import_package Sample.host Sample.imported = (inr (), Sample.imported) ∧
  sys_modules (import_package Sample.host Sample.imported).2
    = sys_modules Sample.imported ∧
  trace (import_package Sample.host Sample.imported).2 = trace Sample.imported ∧
  get_config Sample.host (import_package Sample.host Sample.imported).2
    = get_config Sample.host Sample.imported.
Proof.
  apply (import_twice Sample.host Sample.start Sample.imported).
  vm_compute. reflexivity.
Defined.

(** C9. [__all__] is computed by the last statement of the body, after
    the imports and after [get_config] is defined: it contains
    [get_config], [bob], [version], [load_jets] and [save_jets], and every
    public name the module has after the import. *)
Theorem all_contains_module_names (E : env) (w0 w1 : world) :
  cached pkg_name w0 = false →
  import_package E w0 = (inr (), w1) →
  ∃ names,
    module_dict pkg_name w1 !! "__all__" = Some (VList (VStr <$> names)) ∧
    "get_config" ∈ names ∧ "bob" ∈ names ∧ "version" ∈ names ∧
    "load_jets" ∈ names ∧ "save_jets" ∈ names ∧
    ∀ n, is_Some (module_dict pkg_name w1 !! n) → startswith n "_" = false →
         n ∈ names.
Proof.
  intros Hc Himp.
  apply import_package_ok in Himp as (wp & wb & _ & _ & Hbody & ->); [|done].
  apply body_states in Hbody
    as (w1 & w2 & w3 & w4 & w5 & w6 & w7 & w8 & w9 & w10 &
        H1 & H2 & H3 & H4 & H5 & H6 & H7 & H8 & H9 & H10 & H11 &
        Hc3 & Hc4 & Hc5 & Hc6 & Hc7 & Hc8 & Hc9 & Hc10 &
        R5 & R6 & R7 & R8 & R9 & R10 & R11); [|apply entry_cached].
  pose proof (deps_ok _ _ _ _ _ H1 H2 H3) as (_ & _ & Hd3 & _).
  pose proof (attach_library_frame _ _ _ _ H4) as Hsm4.
  pose proof (from_package_import_ok _ _ _ Hc5 H6) as (_ & _ & _ & Hv6 & _).
  assert (sibling "auxiliar" ∈ siblings) as Hsa by (right; right; by left).
  pose proof (from_import_ok _ "auxiliar" _ _ _ eq_refl Hsa Hc8 H9)
    as (_ & _ & _ & _ & _ & _ & Hjets).
  assert (NoDup ["load_jets"; "save_jets"]) as Hnd.
  { apply (bool_decide_unpack _). by vm_compute. }
  pose proof (Hjets Hnd "load_jets" "load_jets" ltac:(by left)) as [Hl9 _].
  pose proof (Hjets Hnd "save_jets" "save_jets" ltac:(right; by left)) as [Hs9 _].
  pose proof (def_get_config_ok _ _ _ H10) as (_ & _ & Hd10).
  pose proof (assign_all_ok _ _ _ H11) as (_ & _ & Hdb).
  assert (grows w4 w10) as G4.
  { destruct R5 as (_ & ? & _), R6 as (_ & ? & _), R7 as (_ & ? & _),
      R8 as (_ & ? & _), R9 as (_ & ? & _), R10 as (_ & ? & _).
    repeat (eapply grows_trans; [eassumption|]). apply grows_refl. }
  assert (grows w6 w10) as G6.
  { destruct R7 as (_ & ? & _), R8 as (_ & ? & _), R9 as (_ & ? & _), R10 as (_ & ? & _).
    repeat (eapply grows_trans; [eassumption|]). apply grows_refl. }
  assert (grows w9 w10) as G9 by (by destruct R10 as (_ & ? & _)).
  assert (module_dict pkg_name w4 = module_dict pkg_name w3) as Hd4.
  { unfold module_dict. by rewrite Hsm4. }
  exists (filter public (dir (module_dict pkg_name w10))).
  rewrite registered_dict by done. rewrite Hdb.
  assert (∀ n, is_Some (module_dict pkg_name w10 !! n) → startswith n "_" = false →
               n ∈ filter public (dir (module_dict pkg_name w10))) as Hin.
  { intros n Hn Hpub. by rewrite list_elem_of_filter, elem_of_dir. }
  split_and!.
  - apply lookup_insert_eq.
  - apply Hin; [|done]. by rewrite Hd10, lookup_insert_eq.
  - apply Hin; [|done]. apply G4. by rewrite Hd4, Hd3, lookup_insert_eq.
  - apply Hin; [|done]. by apply G6.
  - apply Hin; [|done]. by apply G9.
  - apply Hin; [|done]. by apply G9.
  - intros n Hn Hpub. apply Hin; [|done].
    destruct (decide (n = "__all__")) as [->|Hne]; [done|].
    by rewrite lookup_insert_ne in Hn.
Qed.

Lemma all_contains_module_names_witness :
  ∃ names,
    module_dict pkg_name Sample.imported !! "__all__" = Some (VList (VStr <$> names)) ∧
    "get_config" ∈ names ∧ "bob" ∈ names ∧ "version" ∈ names ∧
    "load_jets" ∈ names ∧ "save_jets" ∈ names ∧
    ∀ n, is_Some (module_dict pkg_name Sample.imported !! n) →
         startswith n "_" = false → n ∈ names.
Proof.
  apply (all_contains_module_names Sample.host Sample.start Sample.imported).
  - vm_compute. reflexivity.
  - vm_compute. reflexivity.
Defined.

(** C10. After a successful import [__version__] is the [module] attribute
    of the version module and [__api_version__] its [api] attribute; the
    two names start with an underscore and are not in [__all__], while
    [version] is bound, is in [__all__], and names the version module: on
    a first import of that module, and on every import as long as neither
    the native library nor the import system gives the package an
    attribute [version] of its own. *)
Theorem version_names (E : env) (w0 w1 : world) :
  cached pkg_name w0 = false →
  import_package E w0 = (inr (), w1) →
  is_Some (module_dict pkg_name w1 !! "__version__") ∧
  is_Some (module_dict pkg_name w1 !! "__api_version__") ∧
  (∀ v, module_dict (sibling "version") w1 !! "module" = Some v →
        module_dict pkg_name w1 !! "__version__" = Some v) ∧
  (∀ v, module_dict (sibling "version") w1 !! "api" = Some v →
        module_dict pkg_name w1 !! "__api_version__" = Some v) ∧
  is_Some (module_dict pkg_name w1 !! "version") ∧
  (cached (sibling "version") w0 = false →
     module_dict pkg_name w1 !! "version" = Some (VModule (sibling "version"))) ∧
  (∀ items, exported_items (sibling "_library") w1 = (inr items, w1) →
     VStr "version" ∉ items → new_module E pkg_name !! "version" = None →
     module_dict pkg_name w1 !! "version" = Some (VModule (sibling "version"))) ∧
  ∃ names,
    module_dict pkg_name w1 !! "__all__" = Some (VList (VStr <$> names)) ∧
    ("__version__" ∉ names) ∧ ("__api_version__" ∉ names) ∧ "version" ∈ names.
Proof.
  intros Hc Himp.
  apply import_states in Himp
    as (wp & wa1 & wa2 & w3 & w4 & w5 & w6 & w7 & w8 & w9 & w10 & wb & -> & Hbody &
        Hstep & Hmono & H1 & H2 & H3 & H4 & H5 & H6 & H7 & H8 & H9 & H10 & H11 &
        Hc3 & Hc4 & Hc5 & Hc6 & Hc7 & Hc8 & Hc9 & Hc10 &
        R5 & R6 & R7 & R8 & R9 & R10 & R11); [|done].
  assert (sibling "version" ∈ siblings) as Hsv by (right; by left).
  pose proof (from_package_import_ok E _ _ Hc5 H6) as (_ & _ & _ & Hv6 & _).
  pose proof (from_import_ok E "version" _ _ _ eq_refl Hsv Hc6 H7)
    as (_ & _ & Hcv7 & _ & _ & _ & Hget7).
  pose proof (from_import_ok E "version" _ _ _ eq_refl Hsv Hc7 H8)
    as (_ & _ & Hcv8 & _ & _ & _ & Hget8).
  destruct (Hget7 ltac:(by_computation) "module" "__version__" ltac:(by left))
    as [Hsome7 Hattr7].
  destruct (Hget8 ltac:(by_computation) "api" "__api_version__" ltac:(by left))
    as [Hsome8 Hattr8].
  pose proof (tail_keeps E _ _ _ _ _ Hc7 Hcv7 H8 H9 H10 H11)
    as (_ & St7 & St8 & _ & K7 & K8 & _).
  pose proof (assign_all_ok _ _ _ H11) as (_ & _ & Hdb).
  assert (module_dict (sibling "version") wb = module_dict (sibling "version") w7) as Hdv7.
  { unfold module_dict. by rewrite St7 by (done || apply sibling_ne). }
  assert (module_dict (sibling "version") wb = module_dict (sibling "version") w8) as Hdv8.
  { unfold module_dict. by rewrite St8 by (done || apply sibling_ne). }
  assert (is_Some (module_dict pkg_name w7 !! "version")) as Hv7.
  { destruct R7 as (_ & G7 & _). by apply G7. }
  rewrite !registered_dict by done.
  split_and!.
  - by rewrite K7 by by_computation.
  - by rewrite K8 by by_computation.
  - intros v Hv. rewrite K7 by by_computation. apply Hattr7. by rewrite <-Hdv7.
  - intros v Hv. rewrite K8 by by_computation. apply Hattr8. by rewrite <-Hdv8.
  - by rewrite K7 by by_computation.
  - intros Hfresh. rewrite K7 by by_computation.
    eapply version_module; [exact Hc5| |exact H6|exact H7].
    apply cached_false. apply cached_false in Hfresh.
    rewrite <-Hfresh. eapply fresh_sibling; try eassumption. by_computation.
  - intros items Hex Hnot Hnew. rewrite K7 by by_computation.
    pose proof (deps_ok E _ _ _ _ H1 H2 H3) as (_ & _ & Hd3 & _).
    rewrite entry_dict in Hd3.
    assert (module_dict pkg_name w4 = module_dict pkg_name w3) as Hd4.
    { unfold module_dict. by rewrite (attach_library_frame E _ _ _ H4). }
    pose proof (from_import_star_ok E _ _ Hc4 H5) as (_ & _ & Hcl5 & items' & Hex' & Hkeep).
    pose proof (reexports_trans _ _ _ R6
                  (reexports_trans _ _ _ R7
                     (reexports_trans _ _ _ R8
                        (reexports_trans _ _ _ R9
                           (reexports_trans _ _ _ R10 R11))))) as (_ & _ & Hst5 & _).
    assert (module_dict (sibling "_library") w5
            = module_dict (sibling "_library") (registered wb)) as Hlib.
    { rewrite registered_dict by done. unfold module_dict.
      rewrite Hst5; [done|apply sibling_ne|done]. }
    eapply exported_items_dict in Hex; [|exact Hlib].
    rewrite Hex' in Hex. injection Hex as ->.
    assert (module_dict pkg_name w5 !! "version" = None) as Hnone.
    { rewrite Hkeep, Hd4, Hd3, lookup_insert_ne by done. exact Hnew. }
    pose proof (from_package_import_trace E _ _ Hc5 H6) as (tv & _ & _ & Hmod).
    destruct (Hmod Hnone) as [Hv6' Hcv6].
    pose proof (from_import_ok E "version" _ _ _ eq_refl Hsv Hc6 H7)
      as (_ & _ & _ & _ & Kc & _).
    rewrite (Kc Hcv6) by by_computation. exact Hv6'.
  - exists (filter public (dir (module_dict pkg_name w10))). split_and!.
    + by rewrite Hdb, lookup_insert_eq.
    + by intros [? _]%list_elem_of_filter.
    + by intros [? _]%list_elem_of_filter.
    + rewrite list_elem_of_filter, elem_of_dir. split; [done|].
      destruct R8 as (_ & G8 & _), R9 as (_ & G9 & _), R10 as (_ & G10 & _).
      by apply G10, G9, G8.
Qed.

Lemma version_names_witness :
  is_Some (module_dict pkg_name Sample.imported !! "__version__") ∧
  is_Some (module_dict pkg_name Sample.imported !! "__api_version__") ∧
  (∀ v, module_dict (sibling "version") Sample.imported !! "module" = Some v →
        module_dict pkg_name Sample.imported !! "__version__" = Some v) ∧
  (∀ v, module_dict (sibling "version") Sample.imported !! "api" = Some v →
        module_dict pkg_name Sample.imported !! "__api_version__" = Some v) ∧
  is_Some (module_dict pkg_name Sample.imported !! "version") ∧
  (cached (sibling "version") Sample.start = false →
     module_dict pkg_name Sample.imported !! "version"
       = Some (VModule (sibling "version"))) ∧
  (∀ items, exported_items (sibling "_library") Sample.imported
              = (inr items, Sample.imported) →
     VStr "version" ∉ items → new_module Sample.host pkg_name !! "version" = None →
     module_dict pkg_name Sample.imported !! "version"
       = Some (VModule (sibling "version"))) ∧
  ∃ names,
    module_dict pkg_name Sample.imported !! "__all__" = Some (VList (VStr <$> names)) ∧
    ("__version__" ∉ names) ∧ ("__api_version__" ∉ names) ∧ "version" ∈ names.
Proof.
  apply (version_names Sample.host Sample.start Sample.imported).
  - vm_compute. reflexivity.
  - vm_compute. reflexivity.
Defined.

(** ** Runs that may fail *)

Lemma confined_ret (P : string → Prop) Q {A} (x : A) : confined P Q (mret x).
Proof. intros w r w' Hc [= <- <-]. split; [done|apply step_refl]. Qed.

Lemma confined_raise (P : string → Prop) Q {A} e : confined P Q (raise (A := A) e).
Proof. intros w r w' Hc [= <- <-]. split; [done|apply step_refl]. Qed.

Lemma confined_pure (P : string → Prop) Q {A} (c : M A) :
  (∀ w r w', c w = (r, w') → w' = w) → confined P Q c.
Proof. intros Hc w r w' Hpkg ->%Hc. split; [done|apply step_refl]. Qed.

Lemma confined_bind (P : string → Prop) Q {A B} (c : M A) (f : A → M B) :
  confined P Q c → (∀ x, confined P Q (f x)) → confined P Q (c ≫= f).
Proof.
  intros Hc Hf w r w' Hpkg [(e & Hcw & ->)|(x & w1 & Hcw & Hfw)]%bind_inv.
  - by eapply Hc.
  - destruct (Hc _ _ _ Hpkg Hcw) as [Hc1 Hs1].
    destruct (Hf x _ _ _ Hc1 Hfw) as [Hc2 Hs2].
    split; [done|by eapply step_trans].
Qed.

Lemma confined_mono (P P' : string → Prop) (Q Q' : event → Prop) {A} (c : M A) :
  (∀ m, P m → P' m) → (∀ ev, Q ev → Q' ev) → confined P Q c → confined P' Q' c.
Proof.
  intros HP HQ Hc w r w' Hpkg Hcw. destruct (Hc _ _ _ Hpkg Hcw) as [? ?].
  split; [done|by eapply step_mono].
Qed.

Lemma confined_for_each (P : string → Prop) Q {A} (f : A → M unit) xs :
  (∀ x, confined P Q (f x)) → confined P Q (for_each f xs).
Proof.
  intros Hf. induction xs as [|x xs IH]; simpl; [apply confined_ret|].
  apply confined_bind; [apply Hf|]. by intros [].
Qed.

Lemma confined_exec_stmts (P : string → Prop) Q ss :
  Forall (confined P Q) ss → confined P Q (exec_stmts ss).
Proof.
  induction 1 as [|s ss Hs _ IH]; simpl; [apply confined_ret|].
  apply confined_bind; [done|]. by intros [].
Qed.

Section Confined.

Variable E : env.

Lemma confined_store n v : confined own_module reexport_event (store_global n v).
Proof.
  intros w r w' _ Hst. split.
  - by apply store_global_inv in Hst as (_ & _ & _ & _ & ?).
  - eapply store_global_step; [by left|done|exact Hst].
Qed.

Lemma confined_import_from m n : confined own_module reexport_event (import_from m n).
Proof.
  apply confined_pure. intros w r w'. unfold import_from.
  destruct (module_dict m w !! n); [by intros [= _ <-]|].
  destruct (cached _ w); by intros [= _ <-].
Qed.

Lemma confined_getattr o n : confined own_module reexport_event (getattr E o n).
Proof. apply confined_pure. by intros w r w' [-> _]%getattr_inv. Qed.

Lemma confined_exported_items m : confined own_module reexport_event (exported_items m).
Proof.
  apply confined_pure. intros w r w'. unfold exported_items.
  destruct (module_dict m w !! "__all__") as [[| | | | |]|]; by intros [= _ <-].
Qed.

Lemma confined_import_sibling sub :
  split_dots sub = [sub] → sibling sub ∈ siblings →
  confined own_module reexport_event (import_name E (ext_body E) (sibling sub)).
Proof.
  intros Hsub Hsib w r w' Hpkg Himp.
  pose proof (import_sibling_stable E sub _ _ _ Hsub Hsib Hpkg Himp) as (Hs & _ & _ & Hc).
  split; [done|]. eapply step_mono; [| |exact Hs]; [|done]. unfold own_module.
  intros m [->|[->|[]%elem_of_nil]%elem_of_cons]%elem_of_cons; [by left|by right].
Qed.

Lemma confined_import_self :
  confined own_module reexport_event (import_name E (ext_body E) pkg_name).
Proof.
  intros w r w' Hpkg Himp. rewrite import_package_cached in Himp by done.
  injection Himp as <- <-. split; [done|apply step_refl].
Qed.

Lemma confined_handle_fromlist :
  confined own_module reexport_event (handle_fromlist E pkg_name "version").
Proof.
  intros w r w' Hpkg Hfl.
  pose proof (handle_fromlist_version E _ _ _ Hpkg Hfl) as (Hs & _ & _ & Hc & _).
  split; [done|]. eapply step_mono; [| |exact Hs]; [|done]. unfold own_module.
  intros m [->|[->|[]%elem_of_nil]%elem_of_cons]%elem_of_cons; [by left|].
  right. right. by left.
Qed.

Lemma confined_from_import sub names :
  split_dots sub = [sub] → sibling sub ∈ siblings →
  confined own_module reexport_event (from_import E sub names).
Proof.
  intros Hsub Hsib. unfold from_import.
  apply confined_bind; [by apply confined_import_sibling|intros _].
  apply confined_for_each. intros na.
  apply confined_bind; [apply confined_import_from|intros; apply confined_store].
Qed.

(** Lines 9 to 22, whatever their outcome. *)
Lemma confined_reexports :
  confined own_module reexport_event (exec_stmts (drop 4 (statements E))).
Proof.
  apply confined_exec_stmts.
  change (drop 4 (statements E))
    with [from_import_star E "_library"; from_package_import E "version";
          from_import E "version" [("module", "__version__")];
          from_import E "version" [("api", "__api_version__")];
          from_import E "auxiliar"
            [("load_jets", "load_jets"); ("save_jets", "save_jets")];
          def_get_config; assign_all].
  assert (sibling "_library" ∈ siblings) as Hsl by (by left).
  assert (sibling "version" ∈ siblings) as Hsv by (right; by left).
  assert (sibling "auxiliar" ∈ siblings) as Hsa by (right; right; by left).
  repeat apply Forall_cons_2; try apply Forall_nil_2.
  - unfold from_import_star.
    apply confined_bind; [by apply confined_import_sibling|intros _].
    apply confined_bind; [apply confined_exported_items|intros items].
    apply confined_for_each. intros [| n | | | |]; simpl; try apply confined_raise.
    apply confined_bind; [apply confined_getattr|intros; apply confined_store].
  - unfold from_package_import.
    apply confined_bind; [apply confined_import_self|intros _].
    apply confined_bind; [apply confined_handle_fromlist|intros _].
    apply confined_bind; [apply confined_import_from|intros; apply confined_store].
  - by apply confined_from_import.
  - by apply confined_from_import.
  - by apply confined_from_import.
  - apply confined_store.
  - intros w r w'. unfold assign_all. apply confined_store.
Qed.

(** Lines 2 to 6, whatever their outcome. *)
Lemma confined_deps :
  confined (λ m, m ∈ pkg_name :: dep_modules) dep_event
           (exec_stmts (take 3 (statements E))).
Proof.
  apply confined_exec_stmts.
  change (take 3 (statements E))
    with [import_stmt E "bob.io.base"; import_stmt E "bob.sp";
          import_stmt E "bob.extension"].
  repeat apply Forall_cons_2; try apply Forall_nil_2.
  - intros w r w' Hpkg Hs.
    apply import_stmt_dep in Hs as (? & Hm & _); [|by left]. split; [by apply Hm|done].
  - intros w r w' Hpkg Hs.
    apply import_stmt_dep in Hs as (? & Hm & _); [|right; by left].
    split; [by apply Hm|done].
  - intros w r w' Hpkg Hs.
    apply import_stmt_dep in Hs as (? & Hm & _); [|right; right; by left].
    split; [by apply Hm|done].
Qed.

(** Line 7, whatever its outcome: no module changes; either the loader is
    not reached, or it is called once and its outcome is the outcome of
    the statement. *)
Lemma attach_library_any w r w' :
  attach_library E w = (r, w') →
  sys_modules w' = sys_modules w ∧
  ((trace w' = trace w ∧ ∃ e, r = inl e) ∨
   ∃ h file, module_dict pkg_name w !! "__file__" = Some file ∧
     trace w' = trace w ++ [Call h [VStr "bob.ip.gabor"; file]] ∧
     ((∃ e, ext_call E h [VStr "bob.ip.gabor"; file] = inl e ∧ r = inl e) ∨
      (∃ v, ext_call E h [VStr "bob.ip.gabor"; file] = inr v ∧ r = inr ()))).
Proof.
  intros Hat. split; [by eapply attach_library_frame|]. revert Hat.
  unfold attach_library.
  intros [(e & [-> _]%load_global_inv & ->)|(b & w1 & [-> _]%load_global_inv & H1)]%bind_inv;
    [left; by eauto|].
  apply bind_inv in H1
    as [(e & [-> _]%getattr_inv & ->)|(m & w1 & [-> _]%getattr_inv & H2)];
    [left; by eauto|].
  apply bind_inv in H2
    as [(e & [-> _]%getattr_inv & ->)|(f & w1 & [-> _]%getattr_inv & H3)];
    [left; by eauto|].
  apply bind_inv in H3
    as [(e & [-> _]%load_global_inv & ->)|(file & w1 & Hfile & H4)];
    [left; by eauto|].
  pose proof Hfile as [-> _]%load_global_inv.
  apply load_global_own in Hfile; [|done].
  apply bind_inv in H4 as [(e & Hcall & ->)|(v' & w1 & Hcall & [= <- <-])];
    apply call_foreign_inv in Hcall as [(h & -> & Hr & ->)|(-> & e' & ?)];
    try done; try (left; by eauto).
  - right. exists h, file. split_and!; [done..|]. left. by exists e.
  - right. exists h, file. split_and!; [done..|]. right. by exists v'.
Qed.

End Confined.

Section Phases.

Variable E : env.

(** The body in three phases, whatever its outcome: the dependencies, the
    call of the loader, the re-exports. *)
Lemma body_phases wa r wb :
  cached pkg_name wa = true →
  module_dict pkg_name wa !! "__file__" = Some (VStr (origin E pkg_name)) →
  module_body E wa = (r, wb) →
  cached pkg_name wb = true ∧
  (∀ m, m ∉ pkg_name :: siblings ++ dep_modules →
        sys_modules wb !! m = sys_modules wa !! m) ∧
  ∃ t1 tc t2,
    trace wb = trace wa ++ t1 ++ tc ++ t2 ∧
    Forall dep_event t1 ∧ Forall reexport_event t2 ∧
    ((tc = [] ∧ t2 = [] ∧ ∃ e, r = inl e) ∨
     ∃ h, tc = [Call h [VStr "bob.ip.gabor"; VStr (origin E pkg_name)]] ∧
          ∀ e, ext_call E h [VStr "bob.ip.gabor"; VStr (origin E pkg_name)] = inl e →
               r = inl e ∧ t2 = []).
Proof.
  intros Hca Hfile. unfold module_body.
  change (statements E)
    with (take 3 (statements E) ++ attach_library E :: drop 4 (statements E)).
  rewrite exec_stmts_app.
  destruct (exec_stmts (take 3 (statements E)) wa) as [r1 w3] eqn:H1.
  destruct (confined_deps E _ _ _ Hca H1) as [Hc3 [Hf1 (t1 & Ht1 & Hev1)]].
  assert (∀ m, m ∉ pkg_name :: siblings ++ dep_modules →
               sys_modules w3 !! m = sys_modules wa !! m) as Hframe1.
  { intros m Hm. apply Hf1. intros [->|Hin]%elem_of_cons; apply Hm; [by left|].
    right. apply elem_of_app. by right. }
  destruct r1 as [e|[]].
  { intros [= <- <-]. split_and!; [done..|].
    exists t1, [], []. rewrite !app_nil_r. split_and!; [done..|].
    left. by eauto. }
  change (exec_stmts (attach_library E :: drop 4 (statements E)))
    with (attach_library E ;; exec_stmts (drop 4 (statements E))).
  assert (module_dict pkg_name w3 !! "__file__" = Some (VStr (origin E pkg_name)))
    as Hfile3.
  { change (take 3 (statements E))
      with [import_stmt E "bob.io.base"; import_stmt E "bob.sp";
            import_stmt E "bob.extension"] in H1.
    simpl in H1.
    apply bind_ok in H1 as ([] & w1 & I1 & H1).
    apply bind_ok in H1 as ([] & w2 & I2 & H1).
    apply bind_ok in H1 as ([] & w3' & I3 & [= <-]).
    pose proof (deps_ok E _ _ _ _ I1 I2 I3) as (_ & _ & Hd3 & _).
    by rewrite Hd3, lookup_insert_ne. }
  intros [(e & Hat & ->)|([] & w4 & Hat & Hrest)]%bind_inv.
  - apply attach_library_any in Hat
      as [Hsm [[Htr _]|(h & file & Hf & Htr & [(e' & He' & [= <-])|(v & _ & ?)])]];
      [| |done].
    + split_and!.
      * unfold cached. by rewrite Hsm.
      * intros m Hm. rewrite Hsm. by apply Hframe1.
      * exists t1, [], []. rewrite !app_nil_r, Htr. split_and!; [done..|].
        left. by eauto.
    + rewrite Hfile3 in Hf. injection Hf as <-. split_and!.
      * unfold cached. by rewrite Hsm.
      * intros m Hm. rewrite Hsm. by apply Hframe1.
      * exists t1, [Call h [VStr "bob.ip.gabor"; VStr (origin E pkg_name)]], [].
        rewrite app_nil_r, Htr, Ht1, <-app_assoc. split_and!; [done..|].
        right. exists h. split; [done|]. intros e0 He. split; [|done]. congruence.
  - apply attach_library_any in Hat
      as [Hsm [[_ (e & ?)]|(h & file & Hf & Htr & [(e' & _ & ?)|(v & Hv & _)])]];
      [done|done|].
    rewrite Hfile3 in Hf. injection Hf as <-.
    assert (cached pkg_name w4 = true) as Hc4.
    { unfold cached. by rewrite Hsm. }
    destruct (confined_reexports E _ _ _ Hc4 Hrest) as [Hcb [Hf2 (t2 & Ht2 & Hev2)]].
    split_and!; [done| |].
    + intros m Hm. rewrite Hf2, Hsm; [by apply Hframe1|].
      unfold own_module. intros [->|Hin]%elem_of_cons; apply Hm; [by left|].
      right. apply elem_of_app. by left.
    + exists t1, [Call h [VStr "bob.ip.gabor"; VStr (origin E pkg_name)]], t2.
      rewrite Ht2, Htr, Ht1, <-!app_assoc. split_and!; [done..|].
      right. exists h. split; [done|]. intros e He. congruence.
Qed.

End Phases.

Lemma StronglySorted_filter {A} (R : relation A) (P : A → Prop)
    `{∀ x, Decision (P x)} l :
  StronglySorted R l → StronglySorted R (filter P l).
Proof.
  induction 1 as [|x l Hl IH Hx]; [constructor|].
  rewrite filter_cons. case_decide; [|done]. constructor; [done|].
  apply Forall_forall. intros y [_ Hy]%list_elem_of_filter.
  by eapply Forall_forall in Hx.
Qed.

(** X2. Every run of the import, failing or not, goes through the phases
    in order: after the parents are imported and the body has started,
    first events of the dependencies, then at most one call, of the
    loader with ['bob.ip.gabor'] and the path of the file, then events of
    the re-exports.  When the loader is not reached, or raises, nothing is
    re-exported and the import raises; the package is bound in [bob.ip]
    only when the import succeeds. *)
Theorem import_in_phases (E : env) (w0 w1 : world) (r : exn + unit) :
  cached pkg_name w0 = false →
  import_package E w0 = (r, w1) →
  ∃ tp t1 tc t2 tl,
    trace w1 = trace w0 ++ tp ++ t1 ++ tc ++ t2 ++ tl ∧
    Forall parent_event tp ∧ Forall dep_event t1 ∧ Forall reexport_event t2 ∧
    ((tc = [] ∧ t2 = [] ∧ ∃ e, r = inl e) ∨
     ∃ h, tc = [Call h [VStr "bob.ip.gabor"; VStr (origin E pkg_name)]] ∧
          ∀ e, ext_call E h [VStr "bob.ip.gabor"; VStr (origin E pkg_name)] = inl e →
               r = inl e ∧ t2 = []) ∧
    ((tl = [] ∧ ∃ e, r = inl e) ∨ (tl = [Bind "bob.ip" "gabor"] ∧ r = inr ())).
Proof.
  intros Hc0 Himp.
  apply import_package_inv in Himp as (wp & [_ (tp & Htp & Hevp)] & _ & _ & _ & Hcases);
    [|done].
  assert (Forall parent_event tp) as Hevp'.
  { eapply Forall_impl; [exact Hevp|]. intros ev Hev. by left. }
  destruct Hcases as [(e & -> & ->)|(_ & _ & rb & wb & Hbody & Hrb)].
  { exists tp, [], [], [], []. rewrite !app_nil_r. split_and!; [done..| |]; left; by eauto. }
  apply body_phases in Hbody as (_ & _ & t1 & tc & t2 & Ht & Hev1 & Hev2 & Hcall);
    [|apply entry_cached|].
  2: { rewrite entry_dict. unfold new_module.
       by rewrite lookup_insert_ne, lookup_insert_eq. }
  assert (Forall parent_event (tp ++ [Exec pkg_name])) as Hpar.
  { apply Forall_app. split; [done|]. constructor; [by right|constructor]. }
  destruct rb as [e|[]]; destruct Hrb as [-> ->].
  - exists (tp ++ [Exec pkg_name]), t1, tc, t2, []. split_and!; [|done..|].
    + unfold unregister. simpl. rewrite Ht. simpl. rewrite Htp.
      by rewrite app_nil_r, <-!app_assoc.
    + left. by eauto.
  - exists (tp ++ [Exec pkg_name]), t1, tc, t2, [Bind "bob.ip" "gabor"].
    split_and!; [|done..|].
    + rewrite registered_trace, Ht. simpl. rewrite Htp. by rewrite <-!app_assoc.
    + by right.
Qed.

Lemma import_in_phases_witness :
  ∃ tp t1 tc t2 tl,
    trace (unregister Sample.after_loader)
      = trace Sample.parents_loaded ++ tp ++ t1 ++ tc ++ t2 ++ tl ∧
    Forall parent_event tp ∧ Forall dep_event t1 ∧ Forall reexport_event t2 ∧
    ((tc = [] ∧ t2 = [] ∧ ∃ e, SampleX.loader_error = inl e) ∨
     ∃ h, tc = [Call h [VStr "bob.ip.gabor"; VStr (origin Sample.broken pkg_name)]] ∧
          ∀ e, ext_call Sample.broken h
                 [VStr "bob.ip.gabor"; VStr (origin Sample.broken pkg_name)] = inl e →
               SampleX.loader_error = inl e ∧ t2 = []) ∧
    ((tl = [] ∧ ∃ e, SampleX.loader_error = inl e) ∨
     (tl = [Bind "bob.ip" "gabor"] ∧ SampleX.loader_error = inr ())).
Proof.
  apply (import_in_phases Sample.broken Sample.parents_loaded
           (unregister Sample.after_loader) SampleX.loader_error).
  - vm_compute. reflexivity.
  - vm_compute. reflexivity.
Defined.

(** ** Modules that are loaded stay loaded *)

Lemma no_reload_refl w : no_reload w w.
Proof.
  split; [done|]. exists []. rewrite app_nil_r. split; [done|].
  by intros m ?%elem_of_nil.
Qed.

Lemma no_reload_trans w1 w2 w3 : no_reload w1 w2 → no_reload w2 w3 → no_reload w1 w3.
Proof.
  intros [Hk1 (t1 & Ht1 & He1)] [Hk2 (t2 & Ht2 & He2)]. split; [by auto|].
  exists (t1 ++ t2). rewrite Ht2, Ht1, app_assoc. split; [done|].
  intros m [Hin|Hin]%elem_of_app; [by apply He1|].
  apply He2 in Hin. destruct (cached m w1) eqn:Hc; [|done].
  apply Hk1 in Hc. congruence.
Qed.

Lemma no_reload_quiet w w' t :
  (∀ m, cached m w = true → cached m w' = true) →
  trace w' = trace w ++ t → (∀ m, Exec m ∉ t) → no_reload w w'.
Proof. intros Hk Ht Hn. split; [done|]. exists t. split; [done|]. intros m Hin. by apply Hn in Hin. Qed.

Lemma NoReload_ret {A} (x : A) : NoReload (mret x).
Proof. intros w r w' [= <- <-]. apply no_reload_refl. Qed.

Lemma NoReload_raise {A} e : NoReload (raise (A := A) e).
Proof. intros w r w' [= <- <-]. apply no_reload_refl. Qed.

Lemma NoReload_pure {A} (c : M A) :
  (∀ w r w', c w = (r, w') → w' = w) → NoReload c.
Proof. intros Hc w r w' ->%Hc. apply no_reload_refl. Qed.

Lemma NoReload_bind {A B} (c : M A) (f : A → M B) :
  NoReload c → (∀ x, NoReload (f x)) → NoReload (c ≫= f).
Proof.
  intros Hc Hf w r w' [(e & Hcw & ->)|(x & w1 & Hcw & Hfw)]%bind_inv.
  - by eapply Hc.
  - eapply no_reload_trans; [by eapply Hc|by eapply Hf].
Qed.

Lemma NoReload_for_each {A} (f : A → M unit) xs :
  (∀ x, NoReload (f x)) → NoReload (for_each f xs).
Proof.
  intros Hf. induction xs as [|x xs IH]; simpl; [apply NoReload_ret|].
  apply NoReload_bind; [apply Hf|]. by intros [].
Qed.

Lemma NoReload_exec_stmts ss : Forall NoReload ss → NoReload (exec_stmts ss).
Proof.
  induction 1 as [|s ss Hs _ IH]; simpl; [apply NoReload_ret|].
  apply NoReload_bind; [done|]. by intros [].
Qed.

Lemma NoReload_setattr m n v : NoReload (setattr m n v).
Proof.
  intros w r w' [= <- <-]. eapply no_reload_quiet; [|done|].
  - intros m' Hc. apply cached_true. simpl.
    destruct (decide (m' = m)) as [->|Hne].
    + by rewrite lookup_insert_eq.
    + rewrite lookup_insert_ne by done. by apply cached_true.
  - intros m' [= ]%list_elem_of_singleton.
Qed.

Section NoReload.

Variable E : env.

Lemma NoReload_ext_body name : NoReload (ext_body E name).
Proof.
  intros w r w'. unfold ext_body. destruct (ext_exec E name) as [e|d].
  - intros [= <- <-]. apply no_reload_refl.
  - intros [= <- <-]. eapply (no_reload_quiet _ _ []); [|by rewrite app_nil_r|].
    + intros m Hc. apply cached_true. simpl.
      destruct (decide (m = name)) as [->|Hne].
      * by rewrite lookup_insert_eq.
      * rewrite lookup_insert_ne by done. by apply cached_true.
    + by intros m ?%elem_of_nil.
Qed.

Lemma load_unlocked_no_reload exec name w r w' :
  NoReload (exec name) → cached name w = false →
  load_unlocked E exec name w = (r, w') → no_reload w w'.
Proof.
  intros Hexec Hnc. unfold load_unlocked.
  set (w1 := World (<[name := new_module E name]> (sys_modules w))
                   (trace w ++ [Exec name])).
  assert (no_reload w w1) as H1.
  { split.
    - intros m Hc. apply cached_true. simpl.
      destruct (decide (m = name)) as [->|Hne].
      + by rewrite lookup_insert_eq.
      + rewrite lookup_insert_ne by done. by apply cached_true.
    - exists [Exec name]. split; [done|].
      by intros m [= ->]%list_elem_of_singleton. }
  destruct (exec name w1) as [[e|[]] w2] eqn:Hex; intros [= <- <-].
  - apply Hexec in Hex. destruct (no_reload_trans _ _ _ H1 Hex) as [Hk Ht].
    split; [|done]. intros m Hc. apply cached_true. simpl.
    rewrite lookup_delete_ne by (intros ->; congruence).
    apply cached_true. by apply Hk.
  - apply Hexec in Hex. by eapply no_reload_trans.
Qed.

Lemma find_and_load_one exec c w :
  find_and_load E exec [c] w =
  if cached c w then (inr (), w) else
  if cached c w then (inr (), w) else
  if find_spec E c then
    match load_unlocked E exec c w with
    | (inl e, w2) => (inl e, w2)
    | (inr _, w2) => (inr (), w2)
    end
  else (inl (Exn "ModuleNotFoundError" c), w).
Proof. reflexivity. Qed.

Lemma NoReload_find_and_load exec rpath :
  (∀ m, NoReload (exec m)) → NoReload (find_and_load E exec rpath).
Proof.
  intros Hexec. induction rpath as [|c rp IH]; [apply NoReload_raise|].
  intros w r w'. destruct rp as [|c' rp].
  - rewrite find_and_load_one. destruct (cached c w) eqn:Hc.
    { intros [= <- <-]. apply no_reload_refl. }
    destruct (find_spec E c).
    + destruct (load_unlocked E exec c w) as [[e|[]] w2] eqn:Hl;
        intros [= <- <-]; by eapply load_unlocked_no_reload.
    + intros [= <- <-]. apply no_reload_refl.
  - rewrite find_and_load_cons. cbv zeta.
    set (name := dotted (reverse (c :: c' :: rp))).
    set (parent := dotted (reverse (c' :: rp))).
    destruct (cached name w) eqn:Hc.
    { intros [= <- <-]. apply no_reload_refl. }
    assert (∃ rp' wp, (if cached parent w then (inr (), w)
                       else find_and_load E exec (c' :: rp) w) = (rp', wp) ∧
                      no_reload w wp) as (rp' & wp & -> & Hp).
    { destruct (cached parent w).
      - eexists _, _. split; [done|apply no_reload_refl].
      - destruct (find_and_load E exec (c' :: rp) w) as [rp' wp] eqn:Hfl.
        eexists _, _. split; [done|]. by eapply IH. }
    destruct rp' as [e|[]].
    { intros [= <- <-]. done. }
    destruct (cached name wp) eqn:Hc'.
    { intros [= <- <-]. done. }
    destruct (find_spec E name).
    + destruct (load_unlocked E exec name wp) as [[e|[]] w2] eqn:Hl.
      * intros [= <- <-]. eapply no_reload_trans; [done|].
        by eapply load_unlocked_no_reload.
      * intros Hset. eapply no_reload_trans; [done|].
        eapply no_reload_trans; [by eapply load_unlocked_no_reload|].
        by eapply NoReload_setattr.
    + intros [= <- <-]. done.
Qed.

Lemma NoReload_import_ext name : NoReload (import_name E (ext_body E) name).
Proof. apply NoReload_find_and_load, NoReload_ext_body. Qed.

Lemma NoReload_import_stmt name : NoReload (import_stmt E name).
Proof.
  unfold import_stmt. apply NoReload_bind; [apply NoReload_import_ext|]. intros _.
  apply NoReload_bind; [apply NoReload_import_ext|]. intros _. apply NoReload_setattr.
Qed.

Lemma NoReload_import_from m n : NoReload (import_from m n).
Proof.
  apply NoReload_pure. intros w r w'. unfold import_from.
  destruct (_ !! n); [by intros [= _ <-]|]. by destruct (cached _ w); intros [= _ <-].
Qed.

Lemma NoReload_getattr o n : NoReload (getattr E o n).
Proof. apply NoReload_pure. intros w r w' Hg. by apply getattr_inv in Hg as [-> _]. Qed.

Lemma NoReload_load_global n : NoReload (load_global n).
Proof. apply NoReload_pure. intros w r w' Hg. by apply load_global_inv in Hg as [-> _]. Qed.

Lemma NoReload_call_foreign f args : NoReload (call_foreign E f args).
Proof.
  intros w r w' [(h & _ & _ & ->)|[-> _]]%call_foreign_inv; [|apply no_reload_refl].
  eapply no_reload_quiet; [done|done|]. intros m [= ]%list_elem_of_singleton.
Qed.

Lemma NoReload_handle_fromlist m n : NoReload (handle_fromlist E m n).
Proof.
  intros w r w'. unfold handle_fromlist. destruct (_ !! n).
  { intros [= _ <-]. apply no_reload_refl. }
  destruct (import_name E (ext_body E) (m +:+ "." +:+ n) w) as [[e|[]] w1] eqn:Himp.
  - apply NoReload_import_ext in Himp. by case_decide; intros [= _ <-].
  - apply NoReload_import_ext in Himp. by intros [= _ <-].
Qed.

Lemma NoReload_exported_items m : NoReload (exported_items m).
Proof.
  apply NoReload_pure. intros w r w'. unfold exported_items.
  destruct (_ !! "__all__") as [[]|]; by intros [= _ <-].
Qed.

Lemma NoReload_attach_library : NoReload (attach_library E).
Proof.
  unfold attach_library.
  apply NoReload_bind; [apply NoReload_load_global|]. intros b.
  apply NoReload_bind; [apply NoReload_getattr|]. intros e.
  apply NoReload_bind; [apply NoReload_getattr|]. intros f.
  apply NoReload_bind; [apply NoReload_load_global|]. intros file.
  apply NoReload_bind; [apply NoReload_call_foreign|]. intros _. apply NoReload_ret.
Qed.

Lemma NoReload_from_import_star sub : NoReload (from_import_star E sub).
Proof.
  unfold from_import_star.
  apply NoReload_bind; [apply NoReload_import_ext|]. intros _.
  apply NoReload_bind; [apply NoReload_exported_items|]. intros items.
  apply NoReload_for_each. intros [| n | | | |]; try apply NoReload_raise.
  apply NoReload_bind; [apply NoReload_getattr|]. intros v. apply NoReload_setattr.
Qed.

Lemma NoReload_from_package_import n : NoReload (from_package_import E n).
Proof.
  unfold from_package_import.
  apply NoReload_bind; [apply NoReload_import_ext|]. intros _.
  apply NoReload_bind; [apply NoReload_handle_fromlist|]. intros _.
  apply NoReload_bind; [apply NoReload_import_from|]. intros v. apply NoReload_setattr.
Qed.

Lemma NoReload_from_import sub names : NoReload (from_import E sub names).
Proof.
  unfold from_import.
  apply NoReload_bind; [apply NoReload_import_ext|]. intros _.
  apply NoReload_for_each. intros na.
  apply NoReload_bind; [apply NoReload_import_from|]. intros v. apply NoReload_setattr.
Qed.

Lemma NoReload_statements : Forall NoReload (statements E).
Proof.
  unfold statements, preamble. repeat apply Forall_cons_2; try apply Forall_nil_2.
  - apply NoReload_import_stmt.
  - apply NoReload_import_stmt.
  - apply NoReload_import_stmt.
  - apply NoReload_attach_library.
  - apply NoReload_from_import_star.
  - apply NoReload_from_package_import.
  - apply NoReload_from_import.
  - apply NoReload_from_import.
  - apply NoReload_from_import.
  - apply NoReload_setattr.
  - intros w r w' Hall. by eapply NoReload_setattr.
Qed.

Lemma NoReload_run_body name : NoReload (run_body E name).
Proof.
  unfold run_body. case_decide; [|apply NoReload_ext_body].
  apply NoReload_exec_stmts, NoReload_statements.
Qed.

Lemma NoReload_import_package : NoReload (import_package E).
Proof. apply NoReload_find_and_load, NoReload_run_body. Qed.

End NoReload.

(** X3. A module that is in [sys.modules] when the import starts is
    still there when it ends, however it ends, and is not initialised
    again on the way. *)
Theorem import_spares_loaded_modules (E : env) (w0 : world) (m : string) :
  cached m w0 = true →
  cached m (import_package E w0).2 = true ∧
  ∃ t, trace (import_package E w0).2 = trace w0 ++ t ∧ Exec m ∉ t.
Proof.
  intros Hc. destruct (import_package E w0) as [r w1] eqn:Himp. simpl.
  apply NoReload_import_package in Himp as [Hk (t & Ht & He)].
  split; [by apply Hk|]. exists t. split; [done|].
  intros Hin. apply He in Hin. congruence.
Qed.

Lemma import_spares_loaded_modules_witness :
  cached "bob.ip" (import_package Sample.broken Sample.parents_loaded).2 = true ∧
  ∃ t, trace (import_package Sample.broken Sample.parents_loaded).2
         = trace Sample.parents_loaded ++ t ∧
       Exec "bob.ip" ∉ t.
Proof.
  apply (import_spares_loaded_modules Sample.broken Sample.parents_loaded "bob.ip").
  vm_compute. reflexivity.
Defined.

(** X4. What is in [sys.modules] after the first [n] statements of the
    body, apart from the package itself, is still there when the import
    ends: when a later statement raises, the package is taken out and the
    modules it had loaded are left behind. *)
Theorem body_leaves_loaded_modules (E : env) (w0 wn : world) (n : nat) (m : string) :
  cached pkg_name w0 = false → cached "bob.ip" w0 = true →
  find_spec E pkg_name = true →
  exec_stmts (take n (statements E)) (entry E w0) = (inr (), wn) →
  m ≠ pkg_name → cached m wn = true →
  cached m (import_package E w0).2 = true.
Proof.
  intros Hc Hip Hfs Hpre Hm Hcm.
  unfold import_package, import_name.
  change (reverse (split_dots pkg_name)) with ["gabor"; "ip"; "bob"].
  rewrite find_and_load_cons.
  change (dotted (reverse ["gabor"; "ip"; "bob"])) with pkg_name.
  change (dotted (reverse ["ip"; "bob"])) with "bob.ip".
  cbv zeta. rewrite Hc, Hip. cbv beta iota. rewrite Hc, Hfs.
  unfold load_unlocked. fold (entry E w0). unfold run_body.
  rewrite decide_True by done. unfold module_body.
  assert (statements E = take n (statements E) ++ drop n (statements E)) as Hsplit
    by (symmetry; apply take_drop).
  rewrite Hsplit, exec_stmts_app, Hpre.
  destruct (exec_stmts (drop n (statements E)) wn) as [[e|[]] wb] eqn:Hd.
  - apply NoReload_exec_stmts in Hd as [Hk _]; [|apply Forall_drop, NoReload_statements].
    simpl. apply cached_true. simpl. rewrite lookup_delete_ne by done.
    apply cached_true. by apply Hk.
  - apply NoReload_exec_stmts in Hd as [Hk _]; [|apply Forall_drop, NoReload_statements].
    simpl. apply cached_true. simpl.
    destruct (decide (m = "bob.ip")) as [->|Hne].
    + by rewrite lookup_insert_eq.
    + rewrite lookup_insert_ne by done. apply cached_true. by apply Hk.
Qed.

Lemma body_leaves_loaded_modules_witness :
  cached (sibling "version") (import_package SampleX.no_aux Sample.parents_loaded).2 = true.
Proof.
  apply (body_leaves_loaded_modules SampleX.no_aux Sample.parents_loaded
           SampleX.before_auxiliar 8 (sibling "version")).
  - vm_compute. reflexivity.
  - vm_compute. reflexivity.
  - vm_compute. reflexivity.
  - vm_compute. reflexivity.
  - vm_compute. intros H. discriminate H.
  - vm_compute. reflexivity.
Defined.

(** X5. After a successful import the names of [__all__] are in ascending
    order: each name is less than or equal to every name after it. *)
Theorem all_is_sorted (E : env) (w0 w1 : world) :
  cached pkg_name w0 = false →
  import_package E w0 = (inr (), w1) →
  ∃ names,
    module_dict pkg_name w1 !! "__all__" = Some (VList (VStr <$> names)) ∧
    StronglySorted String.le names.
Proof.
  intros Hc0 Himp.
  apply import_chain in Himp as (w4 & w5 & w8 & w9 & w10 & _ & _ & _ & _ & _ & _ & _ &
                                 _ & _ & _ & Hd1 & _); [|done].
  eexists. split; [by rewrite Hd1, lookup_insert_eq|].
  apply StronglySorted_filter, Sorted_StronglySorted, Sorted_dir.
  apply _.
Qed.

Lemma all_is_sorted_witness :
  ∃ names,
    module_dict pkg_name Sample.imported !! "__all__" = Some (VList (VStr <$> names)) ∧
    StronglySorted String.le names.
Proof.
  apply (all_is_sorted Sample.host Sample.start Sample.imported).
  - vm_compute. reflexivity.
  - vm_compute. reflexivity.
Defined.

(** X6. Line 9 re-exports what the native library exports: after a
    successful import every item of the library's export list is a name
    bound in the library, and unless a later line of the file binds that
    name itself, the package has it with the library's object, and lists
    it in [__all__] when it is public. *)
Theorem wildcard_import_binds (E : env) (w0 w1 : world) (items : list value)
    (i : nat) (item : value) :
  cached pkg_name w0 = false →
  import_package E w0 = (inr (), w1) →
  exported_items (sibling "_library") w1 = (inr items, w1) →
  items !! i = Some item →
  ∃ k v,
    item = VStr k ∧ module_dict (sibling "_library") w1 !! k = Some v ∧
    (k ∉ ["version"; "__version__"; "__api_version__"; "auxiliar"; "load_jets";
          "save_jets"; "get_config"; "__all__"] →
     module_dict pkg_name w1 !! k = Some v ∧
     (startswith k "_" = false →
      ∃ names,
        module_dict pkg_name w1 !! "__all__" = Some (VList (VStr <$> names)) ∧
        k ∈ names)).
Proof.
  intros Hc0 Himp Hex Hi.
  apply import_chain in Himp as (w4 & w5 & w8 & w9 & w10 & _ & Hc4 & _ & H5 & _ & _ &
                                 Hk8 & Hc8 & H9 & Hd10 & Hd1 & Hlib); [|done].
  eapply exported_items_dict in Hex; [|symmetry; exact Hlib].
  destruct (from_import_star_binds E _ _ _ Hc4 H5 Hex) as [Hall _].
  apply list_elem_of_lookup_2, Hall in Hi as (k & v & -> & Hv & Hp).
  exists k, v. rewrite Hlib. split_and!; [done..|]. intros Hk.
  rewrite !not_elem_of_cons in Hk. destruct Hk as (? & ? & ? & ? & ? & ? & ? & ? & _).
  assert (module_dict pkg_name w1 !! k = Some v) as Hk1.
  { rewrite (import_chain_keeps E _ _ _ _ k Hc8 H9 Hd10 Hd1), Hk8; [done| |].
    - rewrite !not_elem_of_cons. split_and!; [done..|apply not_elem_of_nil].
    - rewrite !not_elem_of_cons. split_and!; [done..|apply not_elem_of_nil]. }
  split; [done|]. intros Hpub. eexists. split; [by rewrite Hd1, lookup_insert_eq|].
  apply list_elem_of_filter. split; [done|]. apply elem_of_dir.
  rewrite Hd1, lookup_insert_ne in Hk1 by done. by rewrite Hk1.
Qed.

Lemma wildcard_import_binds_witness :
  ∃ k v,
    VStr "Jet" = VStr k ∧ module_dict (sibling "_library") Sample.imported !! k = Some v ∧
    (k ∉ ["version"; "__version__"; "__api_version__"; "auxiliar"; "load_jets";
          "save_jets"; "get_config"; "__all__"] →
     module_dict pkg_name Sample.imported !! k = Some v ∧
     (startswith k "_" = false →
      ∃ names,
        module_dict pkg_name Sample.imported !! "__all__"
          = Some (VList (VStr <$> names)) ∧
        k ∈ names)).
Proof.
  apply (wildcard_import_binds Sample.host Sample.start Sample.imported
           [VStr "Jet"; VStr "Transform"] 0 (VStr "Jet")).
  - vm_compute. reflexivity.
  - vm_compute. reflexivity.
  - vm_compute. reflexivity.
  - reflexivity.
Defined.

(** X7. The import binds no other name in the package: a name that is
    neither exported by the native library nor one of [bob], [_library],
    [version], [__version__], [__api_version__], [auxiliar], [load_jets],
    [save_jets], [get_config] and [__all__] is after a successful import
    what the import system made it when it created the module. *)
Theorem namespace_is_closed (E : env) (w0 w1 : world) (items : list value)
    (k : string) :
  cached pkg_name w0 = false →
  import_package E w0 = (inr (), w1) →
  exported_items (sibling "_library") w1 = (inr items, w1) →
  VStr k ∉ items →
  k ∉ ["bob"; "_library"; "version"; "__version__"; "__api_version__"; "auxiliar";
       "load_jets"; "save_jets"; "get_config"; "__all__"] →
  module_dict pkg_name w1 !! k = new_module E pkg_name !! k.
Proof.
  intros Hc0 Himp Hex Hitem Hk.
  apply import_chain in Himp as (w4 & w5 & w8 & w9 & w10 & _ & Hc4 & Hd4 & H5 & _ & _ &
                                 Hk8 & Hc8 & H9 & Hd10 & Hd1 & Hlib); [|done].
  eapply exported_items_dict in Hex; [|symmetry; exact Hlib].
  destruct (from_import_star_ok E _ _ Hc4 H5) as (_ & _ & _ & items' & Hex' & Hkeep).
  rewrite Hex in Hex'. injection Hex' as <-.
  rewrite !not_elem_of_cons in Hk.
  destruct Hk as (? & ? & ? & ? & ? & ? & ? & ? & ? & ? & _).
  rewrite (import_chain_keeps E _ _ _ _ k Hc8 H9 Hd10 Hd1), Hk8, Hkeep, Hd4; [|done..| |].
  - by rewrite lookup_insert_ne.
  - rewrite !not_elem_of_cons. split_and!; [done..|apply not_elem_of_nil].
  - rewrite !not_elem_of_cons. split_and!; [done..|apply not_elem_of_nil].
Qed.

Lemma namespace_is_closed_witness :
  module_dict pkg_name Sample.imported !! "_registry"
  = new_module Sample.host pkg_name !! "_registry".
Proof.
  apply (namespace_is_closed Sample.host Sample.start Sample.imported
           [VStr "Jet"; VStr "Transform"] "_registry").
  - vm_compute. reflexivity.
  - vm_compute. reflexivity.
  - vm_compute. reflexivity.
  - intros Hin. apply elem_of_cons in Hin as [Heq|Hin]; [discriminate Heq|].
    apply elem_of_cons in Hin as [Heq|Hin]; [discriminate Heq|].
    by apply elem_of_nil in Hin.
  - apply (bool_decide_unpack _). vm_compute. reflexivity.
Defined.

(** X8. The function of line 15 wins over line 9: after a successful
    import [get_config] is the function of this file and is listed in
    [__all__], whatever the native library exports under that name. *)
Theorem own_get_config_wins (E : env) (w0 w1 : world) :
  cached pkg_name w0 = false →
  import_package E w0 = (inr (), w1) →
  module_dict pkg_name w1 !! "get_config" = Some (VDef "get_config") ∧
  ∃ names,
    module_dict pkg_name w1 !! "__all__" = Some (VList (VStr <$> names)) ∧
    "get_config" ∈ names.
Proof.
  intros Hc0 Himp.
  apply import_chain in Himp as (w4 & w5 & w8 & w9 & w10 & _ & _ & _ & _ & _ & _ & _ &
                                 _ & _ & Hd10 & Hd1 & _); [|done].
  split.
  - by rewrite Hd1, lookup_insert_ne, Hd10, lookup_insert_eq.
  - eexists. split; [by rewrite Hd1, lookup_insert_eq|].
    apply list_elem_of_filter. split; [done|]. apply elem_of_dir.
    by rewrite Hd10, lookup_insert_eq.
Qed.

Lemma own_get_config_wins_witness :
  module_dict pkg_name (import_package SampleX.shadowing Sample.start).2 !! "get_config"
    = Some (VDef "get_config") ∧
  ∃ names,
    module_dict pkg_name (import_package SampleX.shadowing Sample.start).2 !! "__all__"
      = Some (VList (VStr <$> names)) ∧
    "get_config" ∈ names.
Proof.
  apply (own_get_config_wins SampleX.shadowing Sample.start
           (import_package SampleX.shadowing Sample.start).2).
  - vm_compute. reflexivity.
  - vm_compute. reflexivity.
Defined.

(** X9. The modules [_library] and [auxiliar] become names of the package
    only as a side effect of their first import: when the import of the
    package loads them they are bound to the module objects, and when
    they are in [sys.modules] already the import does not bind them. *)
Theorem sibling_names (E : env) (w0 w1 : world) (items : list value) :
  cached pkg_name w0 = false →
  import_package E w0 = (inr (), w1) →
  exported_items (sibling "_library") w1 = (inr items, w1) →
  VStr "_library" ∉ items →
  (cached (sibling "_library") w0 = false →
     module_dict pkg_name w1 !! "_library" = Some (VModule (sibling "_library"))) ∧
  (cached (sibling "_library") w0 = true →
     module_dict pkg_name w1 !! "_library" = new_module E pkg_name !! "_library") ∧
  (cached (sibling "auxiliar") w0 = false →
     module_dict pkg_name w1 !! "auxiliar" = Some (VModule (sibling "auxiliar"))) ∧
  (cached (sibling "auxiliar") w0 = true → VStr "auxiliar" ∉ items →
     module_dict pkg_name w1 !! "auxiliar" = new_module E pkg_name !! "auxiliar").
Proof.
  intros Hc0 Himp Hex Hnl.
  apply import_chain in Himp as (w4 & w5 & w8 & w9 & w10 & Hf4 & Hc4 & Hd4 & H5 & Hf5 &
                                 Hf8 & Hk8 & Hc8 & H9 & Hd10 & Hd1 & Hlib); [|done].
  eapply exported_items_dict in Hex; [|symmetry; exact Hlib].
  destruct (from_import_star_binds E _ _ _ Hc4 H5 Hex) as [_ Hname].
  destruct (Hname Hnl) as [Hfresh Hstale].
  destruct (from_import_star_ok E _ _ Hc4 H5) as (_ & _ & _ & items' & Hex' & Hkeep).
  rewrite Hex in Hex'. injection Hex' as <-.
  assert (cached (sibling "_library") w4 = cached (sibling "_library") w0) as Hl4.
  { unfold cached. rewrite Hf4; [done|by_computation]. }
  assert (cached (sibling "auxiliar") w8 = cached (sibling "auxiliar") w0) as Ha8.
  { unfold cached. rewrite Hf8, Hf5, Hf4; [done|by_computation..]. }
  assert (module_dict pkg_name w1 !! "_library" = module_dict pkg_name w5 !! "_library")
    as Hl1.
  { rewrite (import_chain_keeps E _ _ _ _ "_library" Hc8 H9 Hd10 Hd1), Hk8;
      [done|by_computation..]. }
  assert (module_dict pkg_name w1 !! "auxiliar" = module_dict pkg_name w9 !! "auxiliar")
    as Ha1.
  { by rewrite Hd1, lookup_insert_ne, Hd10, lookup_insert_ne. }
  assert (sibling "auxiliar" ∈ siblings) as Hsa by (right; right; by left).
  pose proof (from_import_ok E "auxiliar" _ _ _ eq_refl Hsa Hc8 H9)
    as (_ & _ & _ & _ & Hastale & Hafresh & _).
  split_and!.
  - intros Hc. rewrite Hl1. apply Hfresh. congruence.
  - intros Hc. rewrite Hl1, Hstale, Hd4 by congruence. by rewrite lookup_insert_ne.
  - intros Hc. rewrite Ha1. apply Hafresh; [congruence|by_computation].
  - intros Hc Hna. rewrite Ha1, Hastale, Hk8, Hkeep, Hd4;
      [by rewrite lookup_insert_ne|done|done|by_computation|congruence|by_computation].
Qed.

Lemma sibling_names_witness :
  (cached (sibling "_library") Sample.start = false →
     module_dict pkg_name Sample.imported !! "_library"
       = Some (VModule (sibling "_library"))) ∧
  (cached (sibling "_library") Sample.start = true →
     module_dict pkg_name Sample.imported !! "_library"
       = new_module Sample.host pkg_name !! "_library") ∧
  (cached (sibling "auxiliar") Sample.start = false →
     module_dict pkg_name Sample.imported !! "auxiliar"
       = Some (VModule (sibling "auxiliar"))) ∧
  (cached (sibling "auxiliar") Sample.start = true →
     VStr "auxiliar" ∉ [VStr "Jet"; VStr "Transform"] →
     module_dict pkg_name Sample.imported !! "auxiliar"
       = new_module Sample.host pkg_name !! "auxiliar").
Proof.
  apply (sibling_names Sample.host Sample.start Sample.imported
           [VStr "Jet"; VStr "Transform"]).
  - vm_compute. reflexivity.
  - vm_compute. reflexivity.
  - vm_compute. reflexivity.
  - intros Hin. apply elem_of_cons in Hin as [Heq|Hin]; [discriminate Heq|].
    apply elem_of_cons in Hin as [Heq|Hin]; [discriminate Heq|].
    by apply elem_of_nil in Hin.
Defined.

(** X10. Every outcome of [get_config] in a state in which the package
    is in [sys.modules].  Either the call raises with the state untouched
    and nothing called: [bob] or [version] is not bound, or reading one of
    the attributes of line 18 raises, or what is found under
    [bob.extension.get_config] cannot be called with three arguments.  Or
    the foreign function found there is called once, with the [__name__]
    of the package, or the one of the builtins when the package has none,
    and the attributes [externals] and [api] of what [version] is bound to
    at the time of the call; [get_config] then returns or raises what that
    call returns or raises. *)
Theorem get_config_outcomes (E : env) (w : world) :
  cached pkg_name w = true →
  (∃ e, get_config E w = (inl e, w) ∧
        (e = Exn "NameError" "bob" ∨ e = Exn "NameError" "version" ∨
         (∃ o n, getattr E o n w = (inl e, w)) ∨ ∃ a, e = Exn "TypeError" a)) ∨
  (∃ b ext h n v x a,
     module_dict pkg_name w !! "bob" = Some b ∧
     getattr E b "extension" w = (inr ext, w) ∧
     getattr E ext "get_config" w = (inr (VExt h), w) ∧
     (module_dict pkg_name w !! "__name__" = Some n ∨
      (module_dict pkg_name w !! "__name__" = None ∧ n = VStr "builtins")) ∧
     module_dict pkg_name w !! "version" = Some v ∧
     getattr E v "externals" w = (inr x, w) ∧
     getattr E v "api" w = (inr a, w) ∧
     get_config E w = (ext_call E h [n; x; a],
                       World (sys_modules w) (trace w ++ [Call h [n; x; a]]))).
Proof.
  intros _. unfold get_config.
  destruct (load_global "bob" w) as [rb wb] eqn:Hb.
  pose proof Hb as [-> Hbc]%load_global_inv.
  destruct Hbc as [(b & Hbob & ->)|[(_ & ? & _)|(_ & _ & ->)]]; [|done|].
  2: { left. exists (Exn "NameError" "bob"). rewrite (bind_fail _ _ _ _ _ Hb). auto. }
  rewrite (bind_step _ _ _ _ _ Hb).
  destruct (getattr E b "extension" w) as [[e|ext] w1] eqn:Hext;
    pose proof Hext as [-> _]%getattr_inv.
  { left. exists e. rewrite (bind_fail _ _ _ _ _ Hext). split; [done|].
    right. right. left. by eexists _, _. }
  rewrite (bind_step _ _ _ _ _ Hext).
  destruct (getattr E ext "get_config" w) as [[e|f] w1] eqn:Hf;
    pose proof Hf as [-> _]%getattr_inv.
  { left. exists e. rewrite (bind_fail _ _ _ _ _ Hf). split; [done|].
    right. right. left. by eexists _, _. }
  rewrite (bind_step _ _ _ _ _ Hf).
  destruct (load_global "__name__" w) as [rn wn] eqn:Hn.
  pose proof Hn as [-> Hnc]%load_global_inv.
  assert (∃ n, rn = inr n ∧
               (module_dict pkg_name w !! "__name__" = Some n ∨
                (module_dict pkg_name w !! "__name__" = None ∧ n = VStr "builtins")))
    as (n & -> & Hname).
  { destruct Hnc as [(n & ? & ->)|[(? & _ & ->)|(_ & ? & _)]]; [by eauto|by eauto|done]. }
  rewrite (bind_step _ _ _ _ _ Hn).
  destruct (load_global "version" w) as [rv wv] eqn:Hv.
  pose proof Hv as [-> Hvc]%load_global_inv.
  destruct Hvc as [(v & Hver & ->)|[(_ & ? & _)|(_ & _ & ->)]]; [|done|].
  2: { left. exists (Exn "NameError" "version"). rewrite (bind_fail _ _ _ _ _ Hv). auto. }
  rewrite (bind_step _ _ _ _ _ Hv).
  destruct (getattr E v "externals" w) as [[e|x] w1] eqn:Hx;
    pose proof Hx as [-> _]%getattr_inv.
  { left. exists e. rewrite (bind_fail _ _ _ _ _ Hx). split; [done|].
    right. right. left. by eexists _, _. }
  rewrite (bind_step _ _ _ _ _ Hx), (bind_step _ _ _ _ _ Hv).
  destruct (getattr E v "api" w) as [[e|a] w1] eqn:Ha;
    pose proof Ha as [-> _]%getattr_inv.
  { left. exists e. rewrite (bind_fail _ _ _ _ _ Ha). split; [done|].
    right. right. left. by eexists _, _. }
  rewrite (bind_step _ _ _ _ _ Ha).
  destruct f as [| | | | |h];
    try (left; eexists; split; [reflexivity|]; right; right; right; by eexists).
  right. exists b, ext, h, n, v, x, a. split_and!; done.
Qed.

Lemma get_config_outcomes_witness :
  (∃ e, get_config Sample.host Sample.imported = (inl e, Sample.imported) ∧
        (e = Exn "NameError" "bob" ∨ e = Exn "NameError" "version" ∨
         (∃ o n, getattr Sample.host o n Sample.imported = (inl e, Sample.imported)) ∨
         ∃ a, e = Exn "TypeError" a)) ∨
  (∃ b ext h n v x a,
     module_dict pkg_name Sample.imported !! "bob" = Some b ∧
     getattr Sample.host b "extension" Sample.imported = (inr ext, Sample.imported) ∧
     getattr Sample.host ext "get_config" Sample.imported
       = (inr (VExt h), Sample.imported) ∧
     (module_dict pkg_name Sample.imported !! "__name__" = Some n ∨
      (module_dict pkg_name Sample.imported !! "__name__" = None ∧
       n = VStr "builtins")) ∧
     module_dict pkg_name Sample.imported !! "version" = Some v ∧
     getattr Sample.host v "externals" Sample.imported = (inr x, Sample.imported) ∧
     getattr Sample.host v "api" Sample.imported = (inr a, Sample.imported) ∧
     get_config Sample.host Sample.imported
     = (ext_call Sample.host h [n; x; a],
        World (sys_modules Sample.imported)
              (trace Sample.imported ++ [Call h [n; x; a]]))).
Proof.
  apply (get_config_outcomes Sample.host Sample.imported).
  vm_compute. reflexivity.
Defined.

(** X11. What the import does to the parent package [bob.ip] when that is
    loaded already: a successful import leaves the package in
    [sys.modules] and binds it as [gabor] in the parent, changing nothing
    else of the parent; a failed import leaves the package out of
    [sys.modules] and the parent as it was. *)
Theorem parent_binding (E : env) (w0 w1 : world) (r : exn + unit) :
  cached pkg_name w0 = false → cached "bob.ip" w0 = true →
  import_package E w0 = (r, w1) →
  match r with
  | inr _ => cached pkg_name w1 = true ∧
             module_dict "bob.ip" w1
               = <["gabor" := VModule pkg_name]> (module_dict "bob.ip" w0)
  | inl _ => cached pkg_name w1 = false ∧
             sys_modules w1 !! "bob.ip" = sys_modules w0 !! "bob.ip"
  end.
Proof.
  intros Hc0 Hip Himp.
  apply import_package_inv in Himp as (wp & _ & Hcp & _ & Hwp & Hcases); [|done].
  rewrite (Hwp Hip) in *. clear Hwp.
  destruct Hcases as [(e & -> & ->)|(_ & _ & rb & wb & Hbody & Hrb)]; [done|].
  apply body_phases in Hbody as (Hcb & Hfb & _); [|apply entry_cached|].
  2: { rewrite entry_dict. unfold new_module.
       by rewrite lookup_insert_ne, lookup_insert_eq. }
  assert (sys_modules wb !! "bob.ip" = sys_modules w0 !! "bob.ip") as Hpar.
  { rewrite Hfb, entry_other; [done|done|by_computation]. }
  destruct rb as [e|[]]; destruct Hrb as [-> ->].
  - split.
    + apply cached_false. unfold unregister. simpl. apply lookup_delete_eq.
    + unfold unregister. simpl. by rewrite lookup_delete_ne.
  - split.
    + unfold cached. by rewrite registered_other.
    + unfold registered, setattr, module_dict. simpl.
      by rewrite lookup_insert_eq, Hpar.
Qed.

Lemma parent_binding_witness :
  match SampleX.loader_error with
  | inr _ => cached pkg_name (unregister Sample.after_loader) = true ∧
             module_dict "bob.ip" (unregister Sample.after_loader)
               = <["gabor" := VModule pkg_name]> (module_dict "bob.ip" Sample.parents_loaded)
  | inl _ => cached pkg_name (unregister Sample.after_loader) = false ∧
             sys_modules (unregister Sample.after_loader) !! "bob.ip"
               = sys_modules Sample.parents_loaded !! "bob.ip"
  end.
Proof.
  apply (parent_binding Sample.broken Sample.parents_loaded
           (unregister Sample.after_loader) SampleX.loader_error).
  - vm_compute. reflexivity.
  - vm_compute. reflexivity.
  - vm_compute. reflexivity.
Defined.
